(** * Polyglot TTS studio: provider client, validation, proxy routes,
      language catalog, playback helper and render history.

    A shallow embedding of the TypeScript sources, followed by the
    properties the specification states about them. *)

From Stdlib Require Import List String Ascii Bool Arith ZArith QArith Lia Lqa.
From Stdlib Require DecimalString.
Import ListNotations.

Close Scope Q_scope.
Open Scope nat_scope.
Open Scope string_scope.

(* ================================================================== *)
(** * JavaScript values used by the sources *)
(* ================================================================== *)

Module JS.

(** A JavaScript [number].  Every arithmetic step the sources take on a
    number is a comparison against, or a selection among, the constants
    0, 0.25, 0.5, 0.75 and 1, all exact in binary64, so a finite double is
    modelled by its rational value.  NaN and the two infinities are kept:
    they are inhabitants of the TypeScript type [number].  The two signed
    zeros are one value here; [JSON.stringify] prints both as [0]. *)
Inductive number : Type :=
| NaN
| NegInfinity
| Finite (q : Q)
| Infinity.

(** [a <= b] and [a < b] of JavaScript: false as soon as one side is NaN. *)
Definition leb (a b : number) : bool :=
  match a, b with
  | NaN, _ | _, NaN => false
  | NegInfinity, _ => true
  | _, Infinity => true
  | Finite x, Finite y => Qle_bool x y
  | _, _ => false
  end.

Definition ltb (a b : number) : bool :=
  match a, b with
  | NaN, _ | _, NaN => false
  | NegInfinity, NegInfinity => false
  | NegInfinity, _ => true
  | Infinity, _ => false
  | _, Infinity => true
  | Finite x, Finite y => negb (Qle_bool y x)
  | Finite _, NegInfinity => false
  end.

(** [Math.max(a, b)] and [Math.min(a, b)]: NaN if either argument is NaN,
    otherwise the larger (smaller) argument; on a tie the two arguments
    are the same value and the first is returned. *)
Definition Math_max (a b : number) : number :=
  match a, b with
  | NaN, _ | _, NaN => NaN
  | _, _ => if ltb a b then b else a
  end.

Definition Math_min (a b : number) : number :=
  match a, b with
  | NaN, _ | _, NaN => NaN
  | _, _ => if ltb b a then b else a
  end.

(** The mathematical order on the non-NaN numbers, used in statements. *)
Inductive le : number -> number -> Prop :=
| le_neg_inf b : b <> NaN -> le NegInfinity b
| le_pos_inf a : a <> NaN -> le a Infinity
| le_finite x y : (x <= y)%Q -> le (Finite x) (Finite y).

Inductive lt : number -> number -> Prop :=
| lt_neg_inf_fin y : lt NegInfinity (Finite y)
| lt_neg_inf_inf : lt NegInfinity Infinity
| lt_fin_inf x : lt (Finite x) Infinity
| lt_finite x y : (x < y)%Q -> lt (Finite x) (Finite y).

(** Number literals of the sources. *)
Definition zero : number := Finite 0%Q.
Definition one : number := Finite 1%Q.
Definition two : number := Finite 2%Q.
Definition quarter : number := Finite (1 # 4)%Q.          (* 0.25 *)
Definition half : number := Finite (1 # 2)%Q.             (* 0.5  *)
Definition three_quarters : number := Finite (3 # 4)%Q.   (* 0.75 *)
Definition four_fifths : number := Finite (4 # 5)%Q.      (* 0.8  *)

(** Plain data values: what [JSON.parse] returns and what an object
    literal handed to [JSON.stringify] holds.  Object members keep their
    order.  [JSON.parse] never yields NaN (but ["1e999"] parses to
    [Infinity]). *)
#[warnings="-register-all"]
Inductive json : Type :=
| JNull
| JBool (b : bool)
| JNumber (n : number)
| JString (s : string)
| JArray (items : list json)
| JObject (members : list (string * json)).

(** [JSON.stringify] of a number: NaN and the infinities are written as
    [null], a finite number as itself. *)
Definition json_of_number (n : number) : json :=
  match n with
  | Finite q => JNumber (Finite q)
  | _ => JNull
  end.

(** An object literal may bind a key to [undefined]; [JSON.stringify]
    leaves such keys out. *)
Fixpoint object_literal (fields : list (string * option json))
  : list (string * json) :=
  match fields with
  | [] => []
  | (k, Some v) :: rest => (k, v) :: object_literal rest
  | (_, None) :: rest => object_literal rest
  end.

(** Property read on a JSON tree: [undefined] (here [None]) when the
    value is not an object or has no such key. *)
Fixpoint assoc (k : string) (members : list (string * json)) : option json :=
  match members with
  | [] => None
  | (k', v) :: rest => if String.eqb k k' then Some v else assoc k rest
  end.

Definition get (k : string) (j : json) : option json :=
  match j with
  | JObject members => assoc k members
  | _ => None
  end.

(** [a ?? b] *)
Definition nullish {A : Type} (a : option A) (b : A) : A :=
  match a with
  | Some x => x
  | None => b
  end.

(** Truthiness of a string: every string but the empty one. *)
Definition truthy (s : string) : bool :=
  match s with
  | EmptyString => false
  | _ => true
  end.

(** ** Strings

    A string is a sequence of UTF-16 code units; the embedding covers the
    code units 0..255 (Basic Latin and Latin-1), one [ascii] each. *)

Definition code (c : ascii) : nat := nat_of_ascii c.

(** White space and line terminators removed by [String.prototype.trim]:
    TAB, LF, VT, FF, CR, SPACE and NO-BREAK SPACE. *)
Definition isWhiteSpace (c : ascii) : bool :=
  let n := code c in
  (((9 <=? n) && (n <=? 13)) || (n =? 32) || (n =? 160))%nat.

Fixpoint trimStart (s : string) : string :=
  match s with
  | String c rest => if isWhiteSpace c then trimStart rest else s
  | EmptyString => EmptyString
  end.

Fixpoint trimEnd (s : string) : string :=
  match s with
  | String c rest =>
      match trimEnd rest with
      | EmptyString => if isWhiteSpace c then EmptyString else String c EmptyString
      | kept => String c kept
      end
  | EmptyString => EmptyString
  end.

Definition trim (s : string) : string := trimEnd (trimStart s).

(** [toLowerCase] on one code unit: A..Z, and the Latin-1 capitals
    U+00C0..U+00DE except the multiplication sign U+00D7. *)
Definition lower (c : ascii) : ascii :=
  let n := code c in
  if (((65 <=? n) && (n <=? 90))
      || ((192 <=? n) && (n <=? 222) && negb (n =? 215)))%nat
  then ascii_of_nat (n + 32)
  else c.

Fixpoint toLowerCase (s : string) : string :=
  match s with
  | String c rest => String (lower c) (toLowerCase rest)
  | EmptyString => EmptyString
  end.

(** [s.length] *)
Definition length (s : string) : N := N.of_nat (String.length s).

(** [s.slice(0, n)] *)
Definition slice0 (n : nat) (s : string) : string := substring 0 n s.

(** [hay.includes(needle)] *)
Fixpoint includes (hay needle : string) : bool :=
  if prefix needle hay then true
  else
    match hay with
    | String _ rest => includes rest needle
    | EmptyString => false
    end.

(** Template-literal rendering of a non-negative integer. *)
Definition string_of_nat (n : nat) : string :=
  DecimalString.NilZero.string_of_uint (Nat.to_uint n).

(** ** Thrown values *)

Inductive thrown : Type :=
| ThrownError (name message : string)          (* an [Error], not a DOMException *)
| ThrownDOMException (name message : string)   (* a [DOMException] *)
| ThrownValue (v : json).                       (* anything that is not an [Error] *)

(** [error instanceof Error ? error.message : fallback];
    a [DOMException] is an [Error] too. *)
Definition message_or (fallback : string) (e : thrown) : string :=
  match e with
  | ThrownError _ m => m
  | ThrownDOMException _ m => m
  | ThrownValue _ => fallback
  end.

(** A console line: its level and its arguments. *)
Inductive level : Type := console_info | console_warn | console_error.

Inductive LogArg : Type :=
| text_arg (s : string)
| thrown_arg (e : thrown).

Record LogEntry : Type := {
  log_level : level;
  log_args : list LogArg
}.

End JS.

(* ================================================================== *)
(** * lib/env.ts *)
(* ================================================================== *)

Module Env.

(** The validated server environment returned by [getServerEnv]. *)
Record ServerEnv : Type := {
  ELEVENLABS_API_KEY : string;
  ELEVENLABS_MODEL_ID : string;
  ELEVENLABS_OPTIMIZE_LATENCY : option JS.number
}.

(** The environment when only the API key is configured: the model id
    falls back to ["eleven_multilingual_v2"]. *)
Definition default_env (key : string) : ServerEnv :=
  {| ELEVENLABS_API_KEY := key;
     ELEVENLABS_MODEL_ID := "eleven_multilingual_v2";
     ELEVENLABS_OPTIMIZE_LATENCY := None |}.

End Env.

(* ================================================================== *)
(** * lib/languages.ts *)
(* ================================================================== *)

Module Languages.
Import JS.

(** [LanguageCode] is a union of string literals: at run time a string. *)
Definition LanguageCode : Type := string.

(** [LanguageOption]; the optional [sample] text is display-only and is
    left out. *)
Record LanguageOption : Type := {
  code : LanguageCode;
  label : string
}.

Definition LANGUAGE_OPTIONS : list LanguageOption :=
  [ {| code := "auto"; label := "Auto detect" |};
    {| code := "he"; label := "Hebrew" |};
    {| code := "en"; label := "English" |};
    {| code := "es"; label := "Spanish" |};
    {| code := "fr"; label := "French" |};
    {| code := "de"; label := "German" |};
    {| code := "it"; label := "Italian" |};
    {| code := "pt"; label := "Portuguese" |};
    {| code := "ru"; label := "Russian" |};
    {| code := "ja"; label := "Japanese" |};
    {| code := "ko"; label := "Korean" |};
    {| code := "zh"; label := "Chinese" |};
    {| code := "ar"; label := "Arabic" |};
    {| code := "hi"; label := "Hindi" |};
    {| code := "cs"; label := "Czech" |};
    {| code := "da"; label := "Danish" |};
    {| code := "fi"; label := "Finnish" |};
    {| code := "hu"; label := "Hungarian" |};
    {| code := "nl"; label := "Dutch" |};
    {| code := "pl"; label := "Polish" |};
    {| code := "sv"; label := "Swedish" |};
    {| code := "tr"; label := "Turkish" |};
    {| code := "uk"; label := "Ukrainian" |} ].

(** The entries the [NAME_TO_CODE] map is built from.  No key occurs
    twice, so [Map.get] is the lookup of the first entry with that key. *)
Definition NAME_TO_CODE : list (string * LanguageCode) :=
  [ ("auto", "auto");
    ("he", "he");
    ("hebrew", "he");
    ("hebrew (modern)", "he");
    ("en", "en");
    ("english", "en");
    ("american english", "en");
    ("british english", "en");
    ("es", "es");
    ("spanish", "es");
    ("castilian spanish", "es");
    ("latin american spanish", "es");
    ("fr", "fr");
    ("french", "fr");
    ("de", "de");
    ("german", "de");
    ("it", "it");
    ("italian", "it");
    ("pt", "pt");
    ("portuguese", "pt");
    ("br portuguese", "pt");
    ("ru", "ru");
    ("russian", "ru");
    ("ja", "ja");
    ("japanese", "ja");
    ("ko", "ko");
    ("korean", "ko");
    ("zh", "zh");
    ("chinese", "zh");
    ("mandarin chinese", "zh");
    ("ar", "ar");
    ("arabic", "ar");
    ("hi", "hi");
    ("hindi", "hi");
    ("cs", "cs");
    ("czech", "cs");
    ("da", "da");
    ("danish", "da");
    ("fi", "fi");
    ("finnish", "fi");
    ("hu", "hu");
    ("hungarian", "hu");
    ("nl", "nl");
    ("dutch", "nl");
    ("pl", "pl");
    ("polish", "pl");
    ("sv", "sv");
    ("swedish", "sv");
    ("tr", "tr");
    ("turkish", "tr");
    ("uk", "uk");
    ("ukrainian", "uk") ].

(** [NAME_TO_CODE.get(key)] *)
Fixpoint Map_get (key : string) (entries : list (string * LanguageCode))
  : option LanguageCode :=
  match entries with
  | [] => None
  | (k, v) :: rest => if String.eqb key k then Some v else Map_get key rest
  end.

(** A code unit matched by the class [[a-z]] under the [i] flag: the
    ASCII letters of either case (without the [u] flag no code unit
    above 127 folds onto an ASCII letter). *)
Definition isLetter (c : ascii) : bool :=
  let n := JS.code c in
  (((97 <=? n) && (n <=? 122)) || ((65 <=? n) && (n <=? 90)))%nat.

Definition isSeparator (c : ascii) : bool :=
  (Ascii.eqb c "-" || Ascii.eqb c "_")%char.

(** [normalized.match(/^[a-z]{2}(?:(?:-|_)[a-z]{2})?$/i)] is not null. *)
Definition isoMatch (normalized : string) : bool :=
  match normalized with
  | String a (String b rest) =>
      isLetter a && isLetter b &&
      match rest with
      | EmptyString => true
      | String sep (String c (String d EmptyString)) =>
          isSeparator sep && isLetter c && isLetter d
      | _ => false
      end
  | _ => false
  end.

(** [resolveLanguageCode(input?)]; [None] stands for [undefined], and a
    [null] or [undefined] argument is [None] as well. *)
Definition resolveLanguageCode (input : option string) : option LanguageCode :=
  match input with
  | None => None
  | Some input =>
      if negb (truthy input) then None
      else
        let normalized := toLowerCase (trim input) in
        if negb (truthy normalized) then None
        else
          match Map_get normalized NAME_TO_CODE with
          | Some direct =>
              (* every code in the table is a non-empty string *)
              if truthy direct then Some direct
              else if isoMatch normalized
                   then Some (nullish (Map_get (slice0 2 normalized) NAME_TO_CODE)
                                      (slice0 2 normalized))
                   else None
          | None =>
              if isoMatch normalized
              then Some (nullish (Map_get (slice0 2 normalized) NAME_TO_CODE)
                                 (slice0 2 normalized))
              else None
          end
  end.

End Languages.

(* ================================================================== *)
(** * lib/elevenlabs.ts *)
(* ================================================================== *)

Module ElevenLabs.
Import JS Env.

Definition ELEVENLABS_BASE_URL : string := "https://api.elevenlabs.io/v1".

(** [selectModelForLanguage(languageCode?, defaultModel?)] *)
Definition selectModelForLanguage
  (languageCode : option string) (defaultModel : option string) : string :=
  if match languageCode with Some c => String.eqb c "he" | None => false end
  then "eleven_v3"
  else
    match defaultModel with
    | Some m =>
        if truthy m && negb (String.eqb m "eleven_multilingual_v2")
        then m
        else "eleven_turbo_v2_5"
    | None => "eleven_turbo_v2_5"
    end.

(** [getModelCharacterLimit(modelId)] *)
Definition getModelCharacterLimit (modelId : string) : N :=
  (if String.eqb modelId "eleven_v3" then 3000
   else if String.eqb modelId "eleven_flash_v2_5" then 30000
   else if String.eqb modelId "eleven_turbo_v2_5" then 30000
   else if String.eqb modelId "eleven_flash_v2" then 30000
   else if String.eqb modelId "eleven_turbo_v2" then 30000
   else if String.eqb modelId "eleven_multilingual_v2" then 10000
   else if String.eqb modelId "eleven_multilingual_v1" then 10000
   else if String.eqb modelId "eleven_monolingual_v1" then 10000
   else 5000)%N.

Record SynthesisInput : Type := {
  text : string;
  voiceId : string;
  languageCode : option string;
  modelId : option string;
  stability : option number;
  similarityBoost : option number;
  styleExaggeration : option number;
  useSpeakerBoost : option bool;
  optimizeStreamingLatency : option number;
  outputFormat : option string
}.

(** [clamp(value, min, max)] *)
Definition clamp (value min max : number) : number :=
  Math_min (Math_max value min) max.

(** The closure [normalizeStabilityForV3] of [synthesizeSpeech]. *)
Definition normalizeStabilityForV3 (value : number) : number :=
  if leb value quarter then zero
  else if leb value three_quarters then half
  else one.

(** The same closure, declared a second time in [synthesizeSpeechStream]. *)
Definition normalizeStabilityForV3_stream (value : number) : number :=
  if leb value quarter then zero
  else if leb value three_quarters then half
  else one.

(** An outgoing [fetch] call. *)
Record Request : Type := {
  url : string;
  method : string;
  headers : list (string * string);
  body : json
}.

(** The request [synthesizeSpeech] hands to [fetch]. *)
Definition synthesizeSpeech_request (env : ServerEnv) (input : SynthesisInput)
  : Request :=
  let stability := nullish (stability input) half in
  let similarityBoost := nullish (similarityBoost input) four_fifths in
  let useSpeakerBoost := nullish (useSpeakerBoost input) true in
  let optimizeStreamingLatency :=
    nullish (optimizeStreamingLatency input)
            (nullish (ELEVENLABS_OPTIMIZE_LATENCY env) zero) in
  let outputFormat := nullish (outputFormat input) "mp3_44100_128" in
  let selectedModel :=
    selectModelForLanguage
      (languageCode input)
      (Some (nullish (modelId input) (ELEVENLABS_MODEL_ID env))) in
  let stabilityValue :=
    if String.eqb selectedModel "eleven_v3"
    then normalizeStabilityForV3 stability
    else clamp stability zero one in
  {| url := ELEVENLABS_BASE_URL ++ "/text-to-speech/" ++ voiceId input;
     method := "POST";
     headers := [ ("Accept", "audio/mpeg");
                  ("Content-Type", "application/json");
                  ("xi-api-key", ELEVENLABS_API_KEY env) ];
     body := JObject (object_literal
       [ ("text", Some (JString (text input)));
         ("model_id", Some (JString selectedModel));
         ("language_code",
           match languageCode input with
           | Some c => if String.eqb c "auto" then None else Some (JString c)
           | None => None
           end);
         ("voice_settings", Some (JObject (object_literal
           [ ("stability", Some (json_of_number stabilityValue));
             ("similarity_boost",
               Some (json_of_number (clamp similarityBoost zero one)));
             ("style",
               match styleExaggeration input with
               | Some s => Some (json_of_number (clamp s zero one))
               | None => None
               end);
             ("use_speaker_boost", Some (JBool useSpeakerBoost)) ])));
         ("optimize_streaming_latency",
           Some (json_of_number optimizeStreamingLatency));
         ("output_format", Some (JString outputFormat)) ]) |}.

(** The request [synthesizeSpeechStream] hands to [fetch]. *)
Definition synthesizeSpeechStream_request
  (env : ServerEnv) (input : SynthesisInput) : Request :=
  let stability := nullish (stability input) half in
  let similarityBoost := nullish (similarityBoost input) four_fifths in
  let useSpeakerBoost := nullish (useSpeakerBoost input) true in
  let optimizeStreamingLatency :=
    nullish (optimizeStreamingLatency input)
            (nullish (ELEVENLABS_OPTIMIZE_LATENCY env) zero) in
  let outputFormat := nullish (outputFormat input) "mp3_44100_128" in
  let selectedModel :=
    selectModelForLanguage
      (languageCode input)
      (Some (nullish (modelId input) (ELEVENLABS_MODEL_ID env))) in
  let stabilityValue :=
    if String.eqb selectedModel "eleven_v3"
    then normalizeStabilityForV3_stream stability
    else clamp stability zero one in
  {| url := ELEVENLABS_BASE_URL ++ "/text-to-speech/" ++ voiceId input
            ++ "/stream";
     method := "POST";
     headers := [ ("Accept", "audio/mpeg");
                  ("Content-Type", "application/json");
                  ("xi-api-key", ELEVENLABS_API_KEY env) ];
     body := JObject (object_literal
       [ ("text", Some (JString (text input)));
         ("model_id", Some (JString selectedModel));
         ("language_code",
           match languageCode input with
           | Some c => if String.eqb c "auto" then None else Some (JString c)
           | None => None
           end);
         ("voice_settings", Some (JObject (object_literal
           [ ("stability", Some (json_of_number stabilityValue));
             ("similarity_boost",
               Some (json_of_number (clamp similarityBoost zero one)));
             ("style",
               match styleExaggeration input with
               | Some s => Some (json_of_number (clamp s zero one))
               | None => None
               end);
             ("use_speaker_boost", Some (JBool useSpeakerBoost)) ])));
         ("optimize_streaming_latency",
           Some (json_of_number optimizeStreamingLatency));
         ("output_format", Some (JString outputFormat)) ]) |}.

(** The console output of the client ([console.info] / [console.error])
    does not reach any caller and is left out. *)

(** What [fetch] resolves to.  [error_json] is the outcome of
    [safeParseJson(response)]: [None] when the body is not JSON.
    [stream] is [response.body], [None] when it is [null]. *)
Record Response : Type := {
  ok : bool;
  status : nat;
  statusText : string;
  error_json : option JS.json;
  stream : option (list Byte.byte)
}.

(** Truthiness of a parsed JSON value, for [errorBody && ...]. *)
Definition json_truthy (j : JS.json) : bool :=
  match j with
  | JNull => false
  | JBool b => b
  | JNumber (Finite q) => negb (Qeq_bool q 0)
  | JNumber NaN => false
  | JNumber _ => true
  | JString s => truthy s
  | JArray _ | JObject _ => true
  end.

Section Client.

(** The built-in [JSON.stringify], as text. *)
Variable JSON_stringify : JS.json -> string.

(** The platform [fetch]: it rejects (network failure) or resolves. *)
Variable fetch : Request -> thrown + Response.

(** The message of the [Error] thrown on a non-2xx response:
    [`${what} (${status} ${statusText}): ${(errorBody &&
    JSON.stringify(errorBody)) || "unknown error"}`]. *)
Definition failure_message (what : string) (response : Response) : string :=
  what ++ " (" ++ string_of_nat (status response) ++ " "
       ++ statusText response ++ "): "
       ++ match error_json response with
          | Some errorBody =>
              if json_truthy errorBody && truthy (JSON_stringify errorBody)
              then JSON_stringify errorBody
              else "unknown error"
          | None => "unknown error"
          end.

(** [synthesizeSpeech(input)]: the audio bytes, or the value thrown. *)
Definition synthesizeSpeech (env : ServerEnv) (input : SynthesisInput)
  : thrown + list Byte.byte :=
  match fetch (synthesizeSpeech_request env input) with
  | inl e => inl e
  | inr response =>
      if negb (ok response)
      then inl (ThrownError "Error"
                  (failure_message "Failed to synthesize speech" response))
      else inr (nullish (stream response) [])
  end.

(** [synthesizeSpeechStream(input)]: the byte stream, or the value thrown. *)
Definition synthesizeSpeechStream (env : ServerEnv) (input : SynthesisInput)
  : thrown + list Byte.byte :=
  match fetch (synthesizeSpeechStream_request env input) with
  | inl e => inl e
  | inr response =>
      if negb (ok response)
      then inl (ThrownError "Error"
                  (failure_message "Failed to synthesize speech" response))
      else
        match stream response with
        | None => inl (ThrownError "Error" "Response body is null")
        | Some body => inr body
        end
  end.

End Client.

End ElevenLabs.

(* ================================================================== *)
(** * The validation library (zod) as the schema uses it *)
(* ================================================================== *)

(** The schema and the synthesize route are written against zod, a
    dependency of the repository.  This module holds the part of its
    synchronous parser they rely on: parse statuses, issues raised in
    the order the checks run, [optional], [transform], [refine] and
    [error.flatten()].  Its built-in message texts are a parameter. *)

Module Zod.
Import JS.

Inductive ZodParsedType : Type :=
| t_undefined | t_null | t_boolean | t_number | t_nan
| t_string | t_array | t_object.

(** [getParsedType]; an absent key reads as [undefined]. *)
Definition getParsedType (data : option json) : ZodParsedType :=
  match data with
  | None => t_undefined
  | Some JNull => t_null
  | Some (JBool _) => t_boolean
  | Some (JNumber NaN) => t_nan
  | Some (JNumber _) => t_number
  | Some (JString _) => t_string
  | Some (JArray _) => t_array
  | Some (JObject _) => t_object
  end.

Inductive ZodIssueCode : Type :=
| invalid_type (expected received : ZodParsedType)
| too_small_string (minimum : N)
| too_big_string (maximum : N)
| too_small_number (minimum : number)
| too_big_number (maximum : number)
| invalid_union
| custom.

Record ZodIssue : Type := {
  code : ZodIssueCode;
  path : list string;
  message : string
}.

(** A [ZodError] is its list of issues, in the order they were raised. *)
Definition ZodError : Type := list ZodIssue.

(** The result of [error.flatten()].  [fieldErrors] is an object keyed by
    the first path segment; its keys keep insertion order. *)
Record Flattened : Type := {
  formErrors : list string;
  fieldErrors : list (string * list string)
}.

(** [fieldErrors[key] = fieldErrors[key] || []; fieldErrors[key].push(m)] *)
Fixpoint push_field (key m : string) (fields : list (string * list string))
  : list (string * list string) :=
  match fields with
  | [] => [(key, [m])]
  | (k, ms) :: rest =>
      if String.eqb k key then (k, (ms ++ [m])%list) :: rest
      else (k, ms) :: push_field key m rest
  end.

Definition flatten_step (acc : Flattened) (sub : ZodIssue) : Flattened :=
  match path sub with
  | key :: _ =>
      {| formErrors := formErrors acc;
         fieldErrors := push_field key (message sub) (fieldErrors acc) |}
  | [] =>
      {| formErrors := (formErrors acc ++ [message sub])%list;
         fieldErrors := fieldErrors acc |}
  end.

Definition flatten (error : ZodError) : Flattened :=
  fold_left flatten_step error {| formErrors := []; fieldErrors := [] |}.

(** The three parse statuses; the issues travel next to the status. *)
Inductive ParseStatus (A : Type) : Type :=
| VALID (value : A)
| DIRTY (value : A)
| INVALID.
Arguments VALID {A} value.
Arguments DIRTY {A} value.
Arguments INVALID {A}.

Definition ParseReturn (A : Type) : Type := (ParseStatus A * list ZodIssue)%type.

(** A schema reads the value found at [path]. *)
Definition Schema (A : Type) : Type := list string -> option json -> ParseReturn A.

Inductive StringCheck : Type :=
| min_length (value : N) (message : option string)
| max_length (value : N) (message : option string).

Inductive NumberCheck : Type :=
| min_value (value : number) (message : option string)
| max_value (value : number) (message : option string).

(** [a === b] on numbers. *)
Definition strict_eq (a b : number) : bool :=
  match a, b with
  | Finite x, Finite y => Qeq_bool x y
  | Infinity, Infinity => true
  | NegInfinity, NegInfinity => true
  | _, _ => false
  end.

Section Schemas.

(** The library's built-in message for an issue raised without one. *)
Variable errorMap : ZodIssueCode -> string.

Definition issue (c : ZodIssueCode) (p : list string) (custom_message : option string)
  : ZodIssue :=
  {| code := c; path := p; message := nullish custom_message (errorMap c) |}.

Definition string_check (p : list string) (data : string) (check : StringCheck)
  : list ZodIssue :=
  match check with
  | min_length value m =>
      if (JS.length data <? value)%N then [issue (too_small_string value) p m] else []
  | max_length value m =>
      if (value <? JS.length data)%N then [issue (too_big_string value) p m] else []
  end.

Definition number_check (p : list string) (data : number) (check : NumberCheck)
  : list ZodIssue :=
  match check with
  | min_value value m =>
      if ltb data value then [issue (too_small_number value) p m] else []
  | max_value value m =>
      if ltb value data then [issue (too_big_number value) p m] else []
  end.

Definition checked {A : Type} (value : A) (issues : list ZodIssue) : ParseReturn A :=
  match issues with
  | [] => (VALID value, [])
  | _ => (DIRTY value, issues)
  end.

(** [z.string()] followed by its [.min(..)] / [.max(..)] checks. *)
Definition z_string (checks : list StringCheck) : Schema string :=
  fun p data =>
    match data with
    | Some (JString s) => checked s (flat_map (string_check p s) checks)
    | _ => (INVALID, [issue (invalid_type t_string (getParsedType data)) p None])
    end.

(** [z.number()] followed by its [.min(..)] / [.max(..)] checks. *)
Definition z_number (checks : list NumberCheck) : Schema number :=
  fun p data =>
    match data with
    | Some (JNumber NaN) =>
        (INVALID, [issue (invalid_type t_number t_nan) p None])
    | Some (JNumber n) => checked n (flat_map (number_check p n) checks)
    | _ => (INVALID, [issue (invalid_type t_number (getParsedType data)) p None])
    end.

(** [z.union([z.literal(a), z.literal(b), ...])] over number literals. *)
Definition z_union_literals (literals : list number) : Schema number :=
  fun p data =>
    match data with
    | Some (JNumber n) =>
        if existsb (strict_eq n) literals then (VALID n, [])
        else (INVALID, [issue invalid_union p None])
    | _ => (INVALID, [issue invalid_union p None])
    end.

(** [schema.optional()] *)
Definition z_optional {A : Type} (schema : Schema A) : Schema (option A) :=
  fun p data =>
    match data with
    | None => (VALID None, [])
    | Some _ =>
        match schema p data with
        | (VALID v, issues) => (VALID (Some v), issues)
        | (DIRTY v, issues) => (DIRTY (Some v), issues)
        | (INVALID, issues) => (INVALID, issues)
        end
    end.

(** [schema.transform(f)]: [f] runs on a valid value only; an inner
    parse that is not valid ends the parse with its issues. *)
Definition z_transform {A B : Type} (schema : Schema A) (f : A -> B) : Schema B :=
  fun p data =>
    match schema p data with
    | (VALID v, issues) => (VALID (f v), issues)
    | (DIRTY _, issues) => (INVALID, issues)
    | (INVALID, issues) => (INVALID, issues)
    end.

(** [schema.refine(check, message)]: the check runs unless the inner
    parse aborted. *)
Definition z_refine {A : Type} (schema : Schema A) (check : A -> bool) (m : string)
  : Schema A :=
  fun p data =>
    match schema p data with
    | (VALID v, issues) =>
        if check v then (VALID v, issues)
        else (DIRTY v, (issues ++ [issue custom p (Some m)])%list)
    | (DIRTY v, issues) =>
        if check v then (DIRTY v, issues)
        else (DIRTY v, (issues ++ [issue custom p (Some m)])%list)
    | (INVALID, issues) => (INVALID, issues)
    end.

End Schemas.

(** [safeParse] returns the data or the error. *)
Inductive SafeParseReturn (A : Type) : Type :=
| success (data : A)
| failure (error : ZodError).
Arguments success {A} data.
Arguments failure {A} error.

End Zod.

(* ================================================================== *)
(** * lib/schemas.ts *)
(* ================================================================== *)

Module Schemas.
Import JS Zod Languages.

(** [SynthesizePayload], the output type of [synthesizeSchema]. *)
Record SynthesizePayload : Type := {
  text : string;
  voiceId : string;
  language : option LanguageCode;
  stability : option number;
  similarityBoost : option number;
  styleExaggeration : option number;
  optimizeStreamingLatency : option number;
  modelId : option string
}.

Section Schema.

Variable errorMap : ZodIssueCode -> string.

Definition text_schema : Schema string :=
  z_string errorMap
    [ min_length 1 (Some "Text is required");
      max_length 5000 (Some "Text must be shorter than 5,000 characters") ].

Definition voiceId_schema : Schema string :=
  z_string errorMap [ min_length 1 (Some "Voice is required") ].

Definition language_schema : Schema (option LanguageCode) :=
  z_refine errorMap
    (z_transform
       (z_optional (z_string errorMap []))
       (fun value =>
          match value with
          | Some v => if negb (truthy v) then None else Some v
          | None => None
          end))
    (fun value =>
       match value with
       | None => true
       | Some v =>
           negb (truthy v)
           || String.eqb v "auto"
           || existsb (fun option => String.eqb (code option) v) LANGUAGE_OPTIONS
       end)
    "Unsupported language selected".

Definition unit_interval_schema : Schema (option number) :=
  z_optional (z_number errorMap [ min_value zero None; max_value one None ]).

Definition optimizeStreamingLatency_schema : Schema (option number) :=
  z_optional (z_union_literals errorMap [ zero; one; two ]).

Definition modelId_schema : Schema (option string) :=
  z_optional (z_string errorMap []).

(** The issues of the eight keys of the shape, raised in shape order. *)
Definition synthesizeSchema_issues (members : list (string * json))
  : list ZodIssue :=
  (snd (text_schema ["text"] (assoc "text" members))
   ++ snd (voiceId_schema ["voiceId"] (assoc "voiceId" members))
   ++ snd (language_schema ["language"] (assoc "language" members))
   ++ snd (unit_interval_schema ["stability"] (assoc "stability" members))
   ++ snd (unit_interval_schema ["similarityBoost"]
             (assoc "similarityBoost" members))
   ++ snd (unit_interval_schema ["styleExaggeration"]
             (assoc "styleExaggeration" members))
   ++ snd (optimizeStreamingLatency_schema ["optimizeStreamingLatency"]
             (assoc "optimizeStreamingLatency" members))
   ++ snd (modelId_schema ["modelId"] (assoc "modelId" members)))%list.

(** [synthesizeSchema.safeParse(data)]: every key of the shape is parsed,
    in the order of the shape, and the issues accumulate in that order;
    unknown keys are dropped. *)
Definition synthesizeSchema_safeParse (data : json)
  : SafeParseReturn SynthesizePayload :=
  match data with
  | JObject members =>
      match fst (text_schema ["text"] (assoc "text" members)),
            fst (voiceId_schema ["voiceId"] (assoc "voiceId" members)),
            fst (language_schema ["language"] (assoc "language" members)),
            fst (unit_interval_schema ["stability"] (assoc "stability" members)),
            fst (unit_interval_schema ["similarityBoost"]
                   (assoc "similarityBoost" members)),
            fst (unit_interval_schema ["styleExaggeration"]
                   (assoc "styleExaggeration" members)),
            fst (optimizeStreamingLatency_schema ["optimizeStreamingLatency"]
                   (assoc "optimizeStreamingLatency" members)),
            fst (modelId_schema ["modelId"] (assoc "modelId" members))
      with
      | VALID v1, VALID v2, VALID v3, VALID v4, VALID v5, VALID v6,
        VALID v7, VALID v8 =>
          success {| text := v1; voiceId := v2; language := v3;
                     stability := v4; similarityBoost := v5;
                     styleExaggeration := v6;
                     optimizeStreamingLatency := v7; modelId := v8 |}
      | _, _, _, _, _, _, _, _ => failure (synthesizeSchema_issues members)
      end
  | _ =>
      failure [ issue errorMap (invalid_type t_object (getParsedType (Some data)))
                  [] None ]
  end.

End Schema.

End Schemas.

(* ================================================================== *)
(** * Route handlers *)
(* ================================================================== *)

Module Http.
Import JS.

Inductive ResponseBody : Type :=
| json_body (j : json)
| stream_body (bytes : list Byte.byte).

(** A [NextResponse]. *)
Record RouteResponse : Type := {
  status : nat;
  headers : list (string * string);
  body : ResponseBody
}.

(** [NextResponse.json(value, { status })] *)
Definition NextResponse_json (value : json) (status : nat) : RouteResponse :=
  {| status := status;
     headers := [ ("content-type", "application/json") ];
     body := json_body value |}.

End Http.

(** ** app/api/synthesize/route.ts *)

Module SynthesizeRoute.
Import JS Zod Http.

(** The object literal the handler passes to [synthesizeSpeechStream]. *)
Definition synthesis_input (payload : Schemas.SynthesizePayload)
  : ElevenLabs.SynthesisInput :=
  {| ElevenLabs.text := Schemas.text payload;
     ElevenLabs.voiceId := Schemas.voiceId payload;
     ElevenLabs.languageCode := Schemas.language payload;
     ElevenLabs.stability := Schemas.stability payload;
     ElevenLabs.similarityBoost := Schemas.similarityBoost payload;
     ElevenLabs.styleExaggeration := Schemas.styleExaggeration payload;
     ElevenLabs.optimizeStreamingLatency :=
       Schemas.optimizeStreamingLatency payload;
     ElevenLabs.modelId := Schemas.modelId payload;
     ElevenLabs.useSpeakerBoost := None;
     ElevenLabs.outputFormat := None |}.

(** [getValidationMessage(error)] *)
Definition getValidationMessage (error : ZodError) : string :=
  let flattened := flatten error in
  let fieldErrorEntries := List.concat (map snd (fieldErrors flattened)) in
  match find (fun _ : string => true) fieldErrorEntries with
  | Some primaryFieldError =>
      if truthy primaryFieldError then primaryFieldError
      else nullish (find (fun _ : string => true) (formErrors flattened))
                   "Please review the submitted values."
  | None =>
      nullish (find (fun _ : string => true) (formErrors flattened))
              "Please review the submitted values."
  end.

Section Handler.

Variable errorMap : ZodIssueCode -> string.

(** The provider call the handler awaits. *)
Variable synthesizeSpeechStream :
  ElevenLabs.SynthesisInput -> thrown + list Byte.byte.

(** [POST(request)].  [request_json] is the outcome of [request.json()].
    The result is the response and the console lines written. *)
Definition POST (request_json : thrown + json) : RouteResponse * list LogEntry :=
  match request_json with
  | inl error =>
      ( NextResponse_json (JObject [ ("error", JString "Invalid JSON payload") ]) 400,
        [ {| log_level := console_error;
             log_args := [ text_arg "[api/synthesize] Invalid JSON payload";
                           thrown_arg error ] |} ] )
  | inr json =>
      match Schemas.synthesizeSchema_safeParse errorMap json with
      | failure error =>
          let message := getValidationMessage error in
          ( NextResponse_json
              (JObject [ ("error", JString ("Invalid input: " ++ message)) ]) 422,
            [ {| log_level := console_warn;
                 log_args := [ text_arg "[api/synthesize] Validation error:";
                               text_arg message ] |} ] )
      | success payload =>
          match synthesizeSpeechStream (synthesis_input payload) with
          | inr audioStream =>
              ( {| status := 200;
                   headers := [ ("Content-Type", "audio/mpeg");
                                ("Transfer-Encoding", "chunked") ];
                   body := stream_body audioStream |},
                [] )
          | inl error =>
              ( NextResponse_json
                  (JObject [ ("error",
                              JString "Synthesis service failed. Please try again.") ])
                  502,
                [ {| log_level := console_error;
                     log_args := [ text_arg "[api/synthesize] Upstream synthesis failed";
                                   thrown_arg error ] |} ] )
          end
      end
  end.

End Handler.

End SynthesizeRoute.

(** ** app/api/voices/route.ts *)

Module VoicesRoute.
Import JS Http.

(** [ElevenLabsVoice], as the handler serialises it. *)
Record ElevenLabsVoice : Type := {
  id : string;
  name : string;
  description : option string;
  languageCode : option string;
  language : option string;
  accent : option string;
  category : option string;
  previewUrl : option string
}.

Definition voice_json (v : ElevenLabsVoice) : json :=
  JObject (object_literal
    [ ("id", Some (JString (id v)));
      ("name", Some (JString (name v)));
      ("description", option_map JString (description v));
      ("accent", option_map JString (accent v));
      ("category", option_map JString (category v));
      ("previewUrl", option_map JString (previewUrl v));
      ("language", option_map JString (language v));
      ("languageCode", option_map JString (languageCode v)) ]).

(** [GET()].  [fetchVoices] is the outcome of awaiting the provider call:
    the voices, or the value it rejected with. *)
Definition GET (fetchVoices : thrown + list ElevenLabsVoice)
  : RouteResponse * list LogEntry :=
  match fetchVoices with
  | inr voices =>
      ( NextResponse_json (JObject [ ("voices", JArray (map voice_json voices)) ]) 200,
        [] )
  | inl error =>
      let details := message_or "Unknown error" error in
      let userFriendlyMessage :=
        if includes details "missing_permissions"
        then "Your ElevenLabs API key is missing required permissions. Generate a key with voices_read access."
        else if includes details "401"
        then "Invalid or unauthorized ElevenLabs API key. Check your key."
        else "Unable to load ElevenLabs voices. Verify your API key and network connection." in
      ( NextResponse_json (JObject [ ("error", JString userFriendlyMessage) ]) 500,
        [ {| log_level := console_error;
             log_args := [ text_arg "[api/voices] Failed to fetch voices";
                           thrown_arg error ] |} ] )
  end.

End VoicesRoute.

(** ** The earlier revision of app/api/synthesize/route.ts

    The sources also hold the handler as it was before
    [getValidationMessage] was introduced.  It differs in the 422 and 502
    bodies only; the route tests describe the later revision above. *)

Module SynthesizeRouteEarlier.
Import JS Zod Http.

Definition synthesis_input := SynthesizeRoute.synthesis_input.

Definition flattened_json (f : Flattened) : json :=
  JObject
    [ ("formErrors", JArray (map JString (formErrors f)));
      ("fieldErrors",
         JObject (map (fun kv => (fst kv, JArray (map JString (snd kv))))
                      (fieldErrors f))) ].

Section Handler.

Variable errorMap : ZodIssueCode -> string.
Variable synthesizeSpeechStream :
  ElevenLabs.SynthesisInput -> thrown + list Byte.byte.

Definition POST (request_json : thrown + json) : RouteResponse * list LogEntry :=
  match request_json with
  | inl _ =>
      ( NextResponse_json (JObject [ ("error", JString "Invalid JSON payload") ]) 400,
        [] )
  | inr json =>
      match Schemas.synthesizeSchema_safeParse errorMap json with
      | failure error =>
          ( NextResponse_json
              (JObject [ ("error", flattened_json (flatten error)) ]) 422,
            [] )
      | success payload =>
          match synthesizeSpeechStream (synthesis_input payload) with
          | inr audioStream =>
              ( {| status := 200;
                   headers := [ ("Content-Type", "audio/mpeg");
                                ("Transfer-Encoding", "chunked") ];
                   body := stream_body audioStream |},
                [] )
          | inl error =>
              let message := message_or "Failed to synthesize speech" error in
              ( NextResponse_json (JObject [ ("error", JString message) ]) 502,
                [ {| log_level := console_error;
                     log_args := [ thrown_arg error ] |} ] )
          end
      end
  end.

End Handler.

End SynthesizeRouteEarlier.

(* ================================================================== *)
(** * hooks/useAudioPlayer.ts *)
(* ================================================================== *)

Module AudioPlayer.
Import JS.

Inductive PlayResult : Type := played | blocked | idle.

(** The audio element behind [audioRef.current]: the two properties the
    hook touches, and how the platform answers each of its calls
    ([None]: the call goes through; [Some e]: it throws or rejects
    with [e]).  [src] is what the property reads.  A string assigned to
    it is not read back as it was written but as the URL it resolves to
    against the address of the element's document: [resolve_url] is
    that resolution. *)
Record HTMLAudioElement : Type := {
  src : string;
  resolve_url : string -> string;
  currentTime : number;
  load_fails : option thrown;
  seek_fails : option thrown;
  play_fails : option thrown
}.

(** What a call of the hook can read and write: the ref and the console. *)
Record World : Type := {
  audioRef : option HTMLAudioElement;
  console : list LogEntry
}.

(** An action runs in a world and either returns or throws. *)
Definition Action (A : Type) : Type := World -> (thrown + A) * World.

Definition ret {A : Type} (a : A) : Action A := fun w => (inr a, w).

Definition throw {A : Type} (e : thrown) : Action A := fun w => (inl e, w).

Definition bind {A B : Type} (m : Action A) (k : A -> Action B) : Action B :=
  fun w =>
    match m w with
    | (inr a, w') => k a w'
    | (inl e, w') => (inl e, w')
    end.

(** [try { m } catch (error) { handler(error) }] *)
Definition try_catch {A : Type} (m : Action A) (handler : thrown -> Action A)
  : Action A :=
  fun w =>
    match m w with
    | (inr a, w') => (inr a, w')
    | (inl e, w') => handler e w'
    end.

Notation "x <- m ;; k" := (bind m (fun x => k))
  (at level 61, m at next level, right associativity).
Notation "m ;;; k" := (bind m (fun _ => k))
  (at level 61, right associativity).

Definition read_audioRef : Action (option HTMLAudioElement) :=
  fun w => (inr (audioRef w), w).

(** Updates the element the ref points to. *)
Definition update_element (f : HTMLAudioElement -> HTMLAudioElement) : Action unit :=
  fun w =>
    (inr tt, {| audioRef := option_map f (audioRef w); console := console w |}).

(** [element.src = value] *)
Definition set_src (value : string) : Action unit :=
  update_element (fun el =>
    {| src := resolve_url el value; resolve_url := resolve_url el;
       currentTime := currentTime el;
       load_fails := load_fails el; seek_fails := seek_fails el;
       play_fails := play_fails el |}).

(** [element.currentTime = value] *)
Definition set_currentTime (element : HTMLAudioElement) (value : number) : Action unit :=
  match seek_fails element with
  | Some e => throw e
  | None =>
      update_element (fun el =>
        {| src := src el; resolve_url := resolve_url el; currentTime := value;
           load_fails := load_fails el; seek_fails := seek_fails el;
           play_fails := play_fails el |})
  end.

(** [element.load()] *)
Definition load (element : HTMLAudioElement) : Action unit :=
  match load_fails element with
  | Some e => throw e
  | None => ret tt
  end.

(** [await element.play()] *)
Definition play (element : HTMLAudioElement) : Action unit :=
  match play_fails element with
  | Some e => throw e
  | None => ret tt
  end.

Definition console_log (l : level) (args : list LogArg) : Action unit :=
  fun w =>
    (inr tt,
     {| audioRef := audioRef w;
        console := (console w ++ [ {| log_level := l; log_args := args |} ])%list |}).

(** [playElement(element)] *)
Definition playElement (element : HTMLAudioElement) : Action PlayResult :=
  try_catch
    (play element ;;; ret played)
    (fun error =>
       if match error with
          | ThrownDOMException name _ =>
              String.eqb name "NotAllowedError" || String.eqb name "AbortError"
          | _ => false
          end
       then
         console_log console_warn
           [ text_arg "[audio] Autoplay blocked by browser policy." ] ;;;
         ret blocked
       else
         console_log console_warn
           [ text_arg "[audio] Failed to play audio element."; thrown_arg error ] ;;;
         ret blocked).

(** [setSourceAndPlay(src)], exported by the hook as [play]. *)
Definition setSourceAndPlay (source : string) : Action PlayResult :=
  current <- read_audioRef ;;
  match current with
  | None => ret idle
  | Some element =>
      (if negb (String.eqb (src element) source) then set_src source else ret tt) ;;;
      try_catch (load element) (fun _ => ret tt) ;;;
      playElement element
  end.

(** [replay()] *)
Definition replay : Action PlayResult :=
  current <- read_audioRef ;;
  match current with
  | None => ret idle
  | Some element =>
      if negb (truthy (src element)) then ret idle
      else
        try_catch (set_currentTime element zero) (fun _ => ret tt) ;;;
        playElement element
  end.

(** [pause()] *)
Definition pause : Action unit :=
  current <- read_audioRef ;;
  match current with
  | None => ret tt
  | Some _ => ret tt
  end.

End AudioPlayer.

(* ================================================================== *)
(** * lib/http.ts *)
(* ================================================================== *)

Module HttpClient.
Import JS.

Definition DEFAULT_ERROR_MESSAGE : string := "Request failed".

(** The part of a browser [Response] the helpers read; [payload] is what
    [readJsonSafe(response)] resolves to ([None]: [undefined]). *)
Record ClientResponse : Type := {
  ok : bool;
  statusText : string;
  payload : option json
}.

(** [extractFromPayload(payload)]; [None] stands for [null]. *)
Definition extractFromPayload (payload : option json) : option string :=
  match payload with
  | Some (JString s) =>
      let normalized := trim s in
      if (0 <? JS.length normalized)%N then Some normalized else None
  | Some (JObject members) =>
      match assoc "error" members with
      | Some (JString candidate) =>
          let normalized := trim candidate in
          if (0 <? JS.length normalized)%N then Some normalized else None
      | _ => None
      end
  | _ => None
  end.

(** [getErrorMessage(response, payload, fallback)] *)
Definition getErrorMessage (response : option ClientResponse)
  (payload : option json) (fallback : string) : string :=
  match extractFromPayload payload with
  | Some fromPayload =>
      if truthy fromPayload then fromPayload
      else
        match option_map (fun r => trim (statusText r)) response with
        | Some st => if truthy st then st else fallback
        | None => fallback
        end
  | None =>
      match option_map (fun r => trim (statusText r)) response with
      | Some st => if truthy st then st else fallback
      | None => fallback
      end
  end.

End HttpClient.

(* ================================================================== *)
(** * components/tts-studio.tsx *)
(* ================================================================== *)

Module Studio.
Import JS HttpClient.

Definition CHAR_LIMIT_HEBREW : N := 3000.
Definition CHAR_LIMIT_OTHER : N := 30000.

Definition getCharacterLimit (language : string) : N :=
  if String.eqb language "he" then CHAR_LIMIT_HEBREW else CHAR_LIMIT_OTHER.

Definition getModelName (language : string) : string :=
  if String.eqb language "he" then "Eleven v3" else "Turbo v2.5".

(** [VoiceOption]; the display-only members are left out. *)
Record VoiceOption : Type := {
  id : string;
  name : string;
  languageCode : option string
}.

Record HistoryItem : Type := {
  item_id : string;
  item_text : string;
  voiceName : string;
  createdAt : string;
  item_audioSrc : string
}.

Definition MAX_HISTORY : nat := 5.
Definition AUDIO_BLOCKED_MESSAGE : string := "Audio ready. Tap play to listen.".

(** [dedupeVoices(voices)] *)
Fixpoint dedupe_from (seen : list string) (voices : list VoiceOption)
  : list VoiceOption :=
  match voices with
  | [] => []
  | voice :: rest =>
      if existsb (String.eqb (id voice)) seen then dedupe_from seen rest
      else voice :: dedupe_from (id voice :: seen) rest
  end.

Definition dedupeVoices (voices : list VoiceOption) : list VoiceOption :=
  dedupe_from [] voices.

(** The state of [TtsStudio] that [handleSubmit] reads and writes. *)
Record State : Type := {
  text : string;
  language : string;
  voices : list VoiceOption;
  selectedVoiceId : string;
  stability : number;
  similarityBoost : number;
  optimizeLatency : number;
  audioSrc : option string;
  history : list HistoryItem;
  isLoading : bool;
  error : option string
}.

Definition set_error (e : option string) (s : State) : State :=
  {| text := text s; language := language s; voices := voices s;
     selectedVoiceId := selectedVoiceId s; stability := stability s;
     similarityBoost := similarityBoost s; optimizeLatency := optimizeLatency s;
     audioSrc := audioSrc s; history := history s; isLoading := isLoading s;
     error := e |}.

Definition set_isLoading (b : bool) (s : State) : State :=
  {| text := text s; language := language s; voices := voices s;
     selectedVoiceId := selectedVoiceId s; stability := stability s;
     similarityBoost := similarityBoost s; optimizeLatency := optimizeLatency s;
     audioSrc := audioSrc s; history := history s; isLoading := b;
     error := error s |}.

Definition set_audioSrc (a : option string) (s : State) : State :=
  {| text := text s; language := language s; voices := voices s;
     selectedVoiceId := selectedVoiceId s; stability := stability s;
     similarityBoost := similarityBoost s; optimizeLatency := optimizeLatency s;
     audioSrc := a; history := history s; isLoading := isLoading s;
     error := error s |}.

(** [setHistory(updater)] *)
Definition set_history (updater : list HistoryItem -> list HistoryItem) (s : State)
  : State :=
  {| text := text s; language := language s; voices := voices s;
     selectedVoiceId := selectedVoiceId s; stability := stability s;
     similarityBoost := similarityBoost s; optimizeLatency := optimizeLatency s;
     audioSrc := audioSrc s; history := updater (history s);
     isLoading := isLoading s; error := error s |}.

(** What one submission meets outside the component: the answer of
    [fetch("/api/synthesize")], of [response.blob()] followed by
    [URL.createObjectURL], the audio element, a fresh UUID and the time. *)
Record Outside : Type := {
  synthesize : thrown + ClientResponse;
  objectURL : thrown + string;
  audio : AudioPlayer.World;
  randomUUID : string;
  now : string
}.

(** [handlePlaybackStatus(status)] *)
Definition handlePlaybackStatus (status : AudioPlayer.PlayResult) (s : State) : State :=
  match status with
  | AudioPlayer.blocked => set_error (Some AUDIO_BLOCKED_MESSAGE) s
  | AudioPlayer.played => set_error None s
  | AudioPlayer.idle => s
  end.

(** The body of the [try] block: the new state, or the value thrown
    together with the state reached so far. *)
Definition handleSubmit_try (o : Outside) (s : State) : thrown * State + State :=
  match synthesize o with
  | inl e => inl (e, s)
  | inr response =>
      if negb (ok response)
      then inl (ThrownError "Error"
                  (getErrorMessage (Some response) (payload response)
                                   "Speech synthesis failed."), s)
      else
        match objectURL o with
        | inl e => inl (e, s)
        | inr dataUrl =>
            let s1 := set_audioSrc (Some dataUrl) s in
            match AudioPlayer.setSourceAndPlay dataUrl (audio o) with
            | (inl e, _) => inl (e, s1)
            | (inr playbackStatus, _) =>
                let s2 := handlePlaybackStatus playbackStatus s1 in
                let voiceName :=
                  match find (fun voice => String.eqb (id voice) (selectedVoiceId s))
                             (voices s) with
                  | Some voice => name voice
                  | None => "Unknown"
                  end in
                inr (set_history
                       (fun current =>
                          let entry :=
                            {| item_id := randomUUID o;
                               item_text := text s;
                               voiceName := voiceName;
                               createdAt := now o;
                               item_audioSrc := dataUrl |} in
                          firstn MAX_HISTORY (entry :: current))
                       s2)
            end
        end
  end.

Section Submit.

(** [Number.prototype.toLocaleString], locale dependent. *)
Variable toLocaleString : N -> string.

(** [handleSubmit(event)]: the state once the handler has finished. *)
Definition handleSubmit (o : Outside) (s : State) : State :=
  if negb (truthy (selectedVoiceId s))
  then set_error (Some "Please select a voice first.") s
  else
    let currentCharLimit := getCharacterLimit (language s) in
    let currentModel := getModelName (language s) in
    if (currentCharLimit <? JS.length (text s))%N
    then set_error
           (Some ("Text is too long for " ++ currentModel ++ ". Maximum "
                  ++ toLocaleString currentCharLimit ++ " characters allowed.")) s
    else
      let s0 := set_error None (set_isLoading true s) in
      match handleSubmit_try o s0 with
      | inr s' => set_isLoading false s'
      | inl (err, s') =>
          set_isLoading false
            (set_error (Some (message_or "Speech synthesis failed." err)) s')
      end.

(** The user edits the form between submissions; the history is carried
    over from the previous render. *)
Definition with_history (form : State) (h : list HistoryItem) : State :=
  set_history (fun _ => h) form.

(** A session: the form as submitted and what each submission met. *)
Definition session (submissions : list (State * Outside)) (h : list HistoryItem)
  : list HistoryItem :=
  fold_left
    (fun h sub => history (handleSubmit (snd sub) (with_history (fst sub) h)))
    submissions h.

End Submit.

End Studio.

(* ================================================================== *)
(** * Reading a provider request *)
(* ================================================================== *)

Module Wire.
Import JS ElevenLabs.

(** The [model_id] member of the JSON body. *)
Definition model_id (r : Request) : option json := get "model_id" (body r).

(** A member of the [voice_settings] object of the JSON body. *)
Definition voice_setting (key : string) (r : Request) : option json :=
  match get "voice_settings" (body r) with
  | Some settings => get key settings
  | None => None
  end.

(** A JSON member that is a number of the closed interval [0, 1]. *)
Definition in_unit_interval (member : option json) : Prop :=
  exists q : Q, member = Some (JNumber (Finite q)) /\ (0 <= q <= 1)%Q.

(** A JSON member that is one of the three levels 0, 0.5 and 1. *)
Definition is_level (member : option json) : Prop :=
  member = Some (JNumber zero) \/ member = Some (JNumber half)
  \/ member = Some (JNumber one).

(** The model id the client works with before the language is looked at:
    the caller's, or else the configured one. *)
Definition requested_model (env : Env.ServerEnv) (input : SynthesisInput) : string :=
  nullish (modelId input) (Env.ELEVENLABS_MODEL_ID env).

(** The model both calls select. *)
Definition selected_model (env : Env.ServerEnv) (input : SynthesisInput) : string :=
  selectModelForLanguage (languageCode input) (Some (requested_model env input)).

(** The stability both calls compute before serialising it. *)
Definition stability_value (env : Env.ServerEnv) (input : SynthesisInput) : number :=
  if String.eqb (selected_model env input) "eleven_v3"
  then normalizeStabilityForV3 (nullish (stability input) half)
  else clamp (nullish (stability input) half) zero one.

(** The two requests a synthesis input can turn into. *)
Definition requests (env : Env.ServerEnv) (input : SynthesisInput) : list Request :=
  [ synthesizeSpeech_request env input; synthesizeSpeechStream_request env input ].

(** Model selection as the specification words it: Hebrew forces
    ["eleven_v3"]; otherwise the caller's explicit model id is used; and
    without one the model is ["eleven_turbo_v2_5"]. *)
Definition model_selection_as_stated
  (env : Env.ServerEnv) (input : SynthesisInput) : Prop :=
  forall r, In r (requests env input) ->
    (languageCode input = Some "he" ->
       model_id r = Some (JString "eleven_v3"))
    /\ (languageCode input <> Some "he" ->
        forall m, modelId input = Some m -> model_id r = Some (JString m))
    /\ (languageCode input <> Some "he" -> modelId input = None ->
        model_id r = Some (JString "eleven_turbo_v2_5")).

(** The range invariant as the specification words it, for one request. *)
Definition ranges_as_stated (r : Request) : Prop :=
  in_unit_interval (voice_setting "similarity_boost" r)
  /\ (voice_setting "style" r = None
      \/ in_unit_interval (voice_setting "style" r))
  /\ (model_id r = Some (JString "eleven_v3") ->
      is_level (voice_setting "stability" r))
  /\ (model_id r <> Some (JString "eleven_v3") ->
      in_unit_interval (voice_setting "stability" r)).

(** Sample inputs: a greeting with the given language, model id and
    voice settings, and the environment with only the API key set. *)
Definition greeting (language model : option string)
  (stability similarityBoost styleExaggeration : option number) : SynthesisInput :=
  {| text := "Hello world"; voiceId := "voice-1";
     languageCode := language; modelId := model;
     stability := stability; similarityBoost := similarityBoost;
     styleExaggeration := styleExaggeration;
     useSpeakerBoost := None; optimizeStreamingLatency := None;
     outputFormat := None |}.

Definition stock_env : Env.ServerEnv := Env.default_env "xi-key".

(** The environment with [ELEVENLABS_MODEL_ID] set to a model of the
    operator's choice. *)
Definition env_with_model (model : string) : Env.ServerEnv :=
  {| Env.ELEVENLABS_API_KEY := "xi-key";
     Env.ELEVENLABS_MODEL_ID := model;
     Env.ELEVENLABS_OPTIMIZE_LATENCY := None |}.

End Wire.

(* ================================================================== *)
(** * Vocabulary and sample data of the statements *)
(* ================================================================== *)

Module Reported.
Import JS Zod.

(** The messages of the issues raised on a field, and of those raised on
    the payload as a whole, in the order the issues were raised. *)
Definition is_field_issue (i : ZodIssue) : bool :=
  match path i with
  | [] => false
  | _ :: _ => true
  end.

Definition field_messages (error : ZodError) : list string :=
  map message (filter is_field_issue error).

Definition form_messages (error : ZodError) : list string :=
  map message (filter (fun i => negb (is_field_issue i)) error).

(** The one message the specification has the 422 body report. *)
Definition reported (error : ZodError) (m : string) : Prop :=
  match field_messages error with
  | first :: _ => m = first
  | [] =>
      match form_messages error with
      | first :: _ => m = first
      | [] => m = "Please review the submitted values."
      end
  end.

(** No list of messages of a flattened error is empty. *)
Definition populated (fields : list (string * list string)) : Prop :=
  Forall (fun kv => snd kv <> []) fields.

(** Every issue carries a message; every check is declared with a
    message or with none, never with the empty one. *)
Definition worded (issues : list ZodIssue) : Prop :=
  Forall (fun i => message i <> "") issues.

Definition string_check_worded (check : StringCheck) : Prop :=
  match check with
  | min_length _ m | max_length _ m => m <> Some ""
  end.

Definition number_check_worded (check : NumberCheck) : Prop :=
  match check with
  | min_value _ m | max_value _ m => m <> Some ""
  end.

(** A stand-in for the library's message table: one text for all. *)
Definition plain_errorMap : ZodIssueCode -> string := fun _ => "Invalid input".

(** The body of the route test for a failing provider. *)
Definition hello_body : json :=
  JObject [ ("text", JString "Hello world");
            ("voiceId", JString "voice-1");
            ("language", JString "en");
            ("stability", JNumber half);
            ("similarityBoost", JNumber (Finite (7 # 10)%Q));
            ("optimizeStreamingLatency", JNumber one) ].

(** The body of the route test for a failing validation. *)
Definition empty_body : json :=
  JObject [ ("text", JString ""); ("voiceId", JString "") ].

(** A provider call that rejects with the given message. *)
Definition failing_provider (detail : string)
  : ElevenLabs.SynthesisInput -> thrown + list Byte.byte :=
  fun _ => inl (ThrownError "Error" detail).

(** The lookup the specification describes, on a label already trimmed
    and lower-cased: the name table first, then the two-letter prefix of
    an ISO-style tag, else no match. *)
Definition lookup (normalized : string) : option string :=
  match Languages.Map_get normalized Languages.NAME_TO_CODE with
  | Some code => Some code
  | None =>
      if Languages.isoMatch normalized
      then Some (nullish (Languages.Map_get (slice0 2 normalized)
                                            Languages.NAME_TO_CODE)
                         (slice0 2 normalized))
      else None
  end.

(** A rejection of [play()] by browser policy. *)
Definition policy_rejection (e : thrown) : Prop :=
  exists name text : string,
    e = ThrownDOMException name text
    /\ (name = "NotAllowedError" \/ name = "AbortError").

Definition policy_warning : LogEntry :=
  {| log_level := console_warn;
     log_args := [ text_arg "[audio] Autoplay blocked by browser policy." ] |}.

Definition failure_warning (e : thrown) : LogEntry :=
  {| log_level := console_warn;
     log_args := [ text_arg "[audio] Failed to play audio element.";
                   thrown_arg e ] |}.

(** How a page at "https://tts.example/" reads a source back: a string
    with a scheme as it is, anything else as a path of the site. *)
Definition page_url (value : string) : string :=
  if includes value ":" then value
  else if prefix "/" value then "https://tts.example" ++ value
  else "https://tts.example/" ++ value.

(** An element of that page with the given source whose [load] and
    [play] behave as told, and the world that holds it with an empty
    console. *)
Definition element_with (source : string) (load_fails play_fails : option thrown)
  : AudioPlayer.HTMLAudioElement :=
  {| AudioPlayer.src := source; AudioPlayer.resolve_url := page_url;
     AudioPlayer.currentTime := zero;
     AudioPlayer.load_fails := load_fails; AudioPlayer.seek_fails := None;
     AudioPlayer.play_fails := play_fails |}.

Definition world_with (element : option AudioPlayer.HTMLAudioElement)
  : AudioPlayer.World :=
  {| AudioPlayer.audioRef := element; AudioPlayer.console := [] |}.

(** A submission is a successful synthesis when a voice is selected,
    the text fits the limit of its language, the proxy answers with a
    2xx status and the audio bytes can be turned into an object URL. *)
Definition succeeded (sub : Studio.State * Studio.Outside) : bool :=
  truthy (Studio.selectedVoiceId (fst sub))
  && negb (Studio.getCharacterLimit (Studio.language (fst sub))
           <? JS.length (Studio.text (fst sub)))%N
  && match Studio.synthesize (snd sub), Studio.objectURL (snd sub) with
     | inr response, inr _ => HttpClient.ok response
     | _, _ => false
     end.

(** The name shown for the voice selected in the form. *)
Definition selected_voice_name (form : Studio.State) : string :=
  match find (fun voice => String.eqb (Studio.id voice) (Studio.selectedVoiceId form))
             (Studio.voices form) with
  | Some voice => Studio.name voice
  | None => "Unknown"
  end.

(** The history entry a successful submission leaves. *)
Definition rendered (sub : Studio.State * Studio.Outside) : list Studio.HistoryItem :=
  if succeeded sub
  then [ {| Studio.item_id := Studio.randomUUID (snd sub);
            Studio.item_text := Studio.text (fst sub);
            Studio.voiceName := selected_voice_name (fst sub);
            Studio.createdAt := Studio.now (snd sub);
            Studio.item_audioSrc :=
              match Studio.objectURL (snd sub) with
              | inr dataUrl => dataUrl
              | inl _ => ""
              end |} ]
  else [].

(** A form with the given text and the one voice "Rachel" selected, and
    an outside where the proxy answers 200 and playback works. *)
Definition form_with (text : string) : Studio.State :=
  {| Studio.text := text; Studio.language := "en";
     Studio.voices := [ {| Studio.id := "voice-1"; Studio.name := "Rachel";
                           Studio.languageCode := Some "en" |} ];
     Studio.selectedVoiceId := "voice-1";
     Studio.stability := Finite (11 # 20)%Q;
     Studio.similarityBoost := Finite (17 # 20)%Q;
     Studio.optimizeLatency := one;
     Studio.audioSrc := None; Studio.history := [];
     Studio.isLoading := false; Studio.error := None |}.

Definition fine_outside (url : string) : Studio.Outside :=
  {| Studio.synthesize :=
       inr {| HttpClient.ok := true; HttpClient.statusText := "OK";
              HttpClient.payload := None |};
     Studio.objectURL := inr url;
     Studio.audio := world_with (Some (element_with "" None None));
     Studio.randomUUID := url;
     Studio.now := "2024-01-01T00:00:00.000Z" |}.

(** Seven submissions in a row, texts "1" to "7". *)
Definition seven_submissions : list (Studio.State * Studio.Outside) :=
  map (fun t => (form_with t, fine_outside ("blob:" ++ t)))
      [ "1"; "2"; "3"; "4"; "5"; "6"; "7" ].

(** [needle] occurs in [hay]. *)
Definition occurs_in (hay needle : string) : Prop :=
  exists before after : string, hay = before ++ needle ++ after.

(** The three texts of the voices route. *)
Definition permissions_hint : string :=
  "Your ElevenLabs API key is missing required permissions. Generate a key with voices_read access.".
Definition invalid_key_hint : string :=
  "Invalid or unauthorized ElevenLabs API key. Check your key.".
Definition connectivity_hint : string :=
  "Unable to load ElevenLabs voices. Verify your API key and network connection.".

(** The body of the 502 answer. *)
Definition synthesis_failed : json :=
  JObject [ ("error", JString "Synthesis service failed. Please try again.") ].

(** The text [n] times over. *)
Fixpoint repeat_string (n : nat) (s : string) : string :=
  match n with
  | O => EmptyString
  | S k => s ++ repeat_string k s
  end.

End Reported.

(* ================================================================== *)
(** * lib/env.ts: loading the server environment *)
(* ================================================================== *)

Module ServerEnvLoader.
Import JS Zod.

(** The variables of [process.env] the loader reads; a variable is a
    string or is not set. *)
Record ProcessEnv : Type := {
  NODE_ENV : option string;
  ELEVENLABS_API_KEY : option string;
  ELEVENLABS_MODEL_ID : option string;
  ELEVENLABS_OPTIMIZE_LATENCY : option string
}.

Definition isDigit (c : ascii) : bool :=
  ((48 <=? JS.code c) && (JS.code c <=? 57))%nat.

(** The values of the longest prefix of decimal digits. *)
Fixpoint leading_digits (s : string) : list Z :=
  match s with
  | String c rest =>
      if isDigit c then (Z.of_nat (JS.code c) - 48)%Z :: leading_digits rest
      else []
  | EmptyString => []
  end.

Definition digits_value (digits : list Z) : Z :=
  fold_left (fun acc d => (10 * acc + d)%Z) digits 0%Z.

(** [Number.parseInt(text, 10)]: leading white space is skipped, one
    sign is read, then the longest run of decimal digits; NaN when there
    is no digit.  The integer is kept exact (a double rounds it beyond
    2^53, which no comparison made by the loader can tell apart). *)
Definition parseInt10 (text : string) : number :=
  let S := trimStart text in
  let signed :=
    match S with
    | String "-"%char rest => ((-1)%Z, rest)
    | String "+"%char rest => (1%Z, rest)
    | _ => (1%Z, S)
    end in
  match leading_digits (snd signed) with
  | [] => NaN
  | digits => Finite (inject_Z (fst signed * digits_value digits))
  end.

(** The function handed to [z.preprocess] for the latency variable. *)
Definition latency_preprocess (val : option json) : option json :=
  match val with
  | Some (JString text) =>
      if (0 <? JS.length text)%N
      then match parseInt10 text with
           | NaN => None
           | parsed => Some (JNumber parsed)
           end
      else val
  | _ => val
  end.

Section Loader.

Variable errorMap : ZodIssueCode -> string.

(** [z.preprocess(f, schema)] *)
Definition z_preprocess {A : Type} (f : option json -> option json)
  (schema : Schema A) : Schema A :=
  fun p data => schema p (f data).

(** [schema.default(value)]: an [undefined] input is replaced by the
    default before the schema runs. *)
Definition z_default {A : Type} (schema : Schema A) (value : json) : Schema A :=
  fun p data =>
    match data with
    | None => schema p (Some value)
    | Some _ => schema p data
    end.

Definition api_key_schema : Schema string :=
  z_string errorMap [ min_length 1 (Some "ELEVENLABS_API_KEY is required") ].

Definition model_id_schema : Schema string :=
  z_default (z_string errorMap [ min_length 1 None ])
            (JString "eleven_multilingual_v2").

Definition optimize_latency_schema : Schema (option number) :=
  z_optional
    (z_preprocess latency_preprocess
       (z_number errorMap [ min_value zero None; max_value two None ])).

(** The issues of the three keys of [envSchema], in shape order.  They
    only feed the text of the error thrown. *)
Definition envSchema_issues (key model latency : option json) : list ZodIssue :=
  (snd (api_key_schema ["ELEVENLABS_API_KEY"] key)
   ++ snd (model_id_schema ["ELEVENLABS_MODEL_ID"] model)
   ++ snd (optimize_latency_schema ["ELEVENLABS_OPTIMIZE_LATENCY"] latency))%list.

(** [envSchema.safeParse({ ... })] on the three values read. *)
Definition envSchema_safeParse (key model latency : option json)
  : SafeParseReturn Env.ServerEnv :=
  match fst (api_key_schema ["ELEVENLABS_API_KEY"] key),
        fst (model_id_schema ["ELEVENLABS_MODEL_ID"] model),
        fst (optimize_latency_schema ["ELEVENLABS_OPTIMIZE_LATENCY"] latency)
  with
  | VALID v1, VALID v2, VALID v3 =>
      success {| Env.ELEVENLABS_API_KEY := v1;
                 Env.ELEVENLABS_MODEL_ID := v2;
                 Env.ELEVENLABS_OPTIMIZE_LATENCY := v3 |}
  | _, _, _ => failure (envSchema_issues key model latency)
  end.

(** [result.error.message], the library's rendering of the issues. *)
Variable error_message : ZodError -> string.

(** [getServerEnv()], with the module variable [cachedEnv] passed in and
    out: the environment or the error thrown, and the new [cachedEnv]. *)
Definition getServerEnv (process_env : ProcessEnv)
  (cachedEnv : option Env.ServerEnv)
  : (thrown + Env.ServerEnv) * option Env.ServerEnv :=
  let cachedEnv :=
    match NODE_ENV process_env with
    | Some mode => if String.eqb mode "development" then None else cachedEnv
    | None => cachedEnv
    end in
  match cachedEnv with
  | Some cached => (inr cached, Some cached)
  | None =>
      match envSchema_safeParse
              (option_map JString (ELEVENLABS_API_KEY process_env))
              (Some (JString (nullish (ELEVENLABS_MODEL_ID process_env)
                                      "eleven_multilingual_v2")))
              (option_map JString (ELEVENLABS_OPTIMIZE_LATENCY process_env))
      with
      | failure error =>
          (inl (ThrownError "Error"
                  ("Invalid environment configuration: " ++ error_message error)),
           None)
      | success data => (inr data, Some data)
      end
  end.

End Loader.

(** An environment the loader lets through. *)
Definition well_formed (env : Env.ServerEnv) : Prop :=
  Env.ELEVENLABS_API_KEY env <> ""
  /\ Env.ELEVENLABS_MODEL_ID env <> ""
  /\ (Env.ELEVENLABS_OPTIMIZE_LATENCY env = None
      \/ Env.ELEVENLABS_OPTIMIZE_LATENCY env = Some zero
      \/ Env.ELEVENLABS_OPTIMIZE_LATENCY env = Some one
      \/ Env.ELEVENLABS_OPTIMIZE_LATENCY env = Some two).

Definition in_development (process_env : ProcessEnv) : Prop :=
  NODE_ENV process_env = Some "development".

(** A production environment with the given key and latency text. *)
Definition production (key latency : option string) : ProcessEnv :=
  {| NODE_ENV := Some "production"; ELEVENLABS_API_KEY := key;
     ELEVENLABS_MODEL_ID := None; ELEVENLABS_OPTIMIZE_LATENCY := latency |}.

End ServerEnvLoader.

(* ================================================================== *)
(** * lib/elevenlabs.ts: listing the voices *)
(* ================================================================== *)

Module VoicesClient.
Import JS.

(** [ElevenLabsVoiceResponse], the wire shape of one voice. *)
Record ElevenLabsVoiceResponse : Type := {
  voice_id : string;
  name : string;
  description : option string;
  preview_url : option string;
  category : option string;
  labels : option (list (string * string))
}.

(** What [fetch] resolves to for the voice list: the response, and what
    [response.json()] gives when read at the type the source asserts
    ([{ voices: ElevenLabsVoiceResponse[] }]), or the error it throws. *)
Record VoicesAnswer : Type := {
  response : ElevenLabs.Response;
  payload : thrown + list ElevenLabsVoiceResponse
}.

(** [voice.labels?.[key]] *)
Fixpoint label_assoc (key : string) (entries : list (string * string))
  : option string :=
  match entries with
  | [] => None
  | (k, v) :: rest => if String.eqb key k then Some v else label_assoc key rest
  end.

Definition label (key : string) (voice : ElevenLabsVoiceResponse) : option string :=
  match labels voice with
  | Some entries => label_assoc key entries
  | None => None
  end.

(** [a ?? b] between two optional values. *)
Definition or_else {A : Type} (a b : option A) : option A :=
  match a with
  | Some _ => a
  | None => b
  end.

(** The callback of [payload.voices.map]. *)
Definition to_voice (voice : ElevenLabsVoiceResponse) : VoicesRoute.ElevenLabsVoice :=
  let languageLabel :=
    or_else (label "language" voice)
      (or_else (label "accent" voice)
         (or_else (label "lang" voice)
            (or_else (label "Locale" voice) (label "Language" voice)))) in
  {| VoicesRoute.id := voice_id voice;
     VoicesRoute.name := name voice;
     VoicesRoute.description := description voice;
     VoicesRoute.accent := label "accent" voice;
     VoicesRoute.category := category voice;
     VoicesRoute.previewUrl := preview_url voice;
     VoicesRoute.language := languageLabel;
     VoicesRoute.languageCode := Languages.resolveLanguageCode languageLabel |}.

Section Client.

Variable JSON_stringify : json -> string.

(** The platform [fetch], called with the URL and the headers (the
    method is GET and the cache mode [no-store] on every call). *)
Variable fetch : string -> list (string * string) -> thrown + VoicesAnswer.

(** [fetchVoices()]: the voices, or the value thrown. *)
Definition fetchVoices (env : Env.ServerEnv)
  : thrown + list VoicesRoute.ElevenLabsVoice :=
  match fetch (ElevenLabs.ELEVENLABS_BASE_URL ++ "/voices")
              [ ("Accept", "application/json");
                ("xi-api-key", Env.ELEVENLABS_API_KEY env) ]
  with
  | inl e => inl e
  | inr answer =>
      if negb (ElevenLabs.ok (response answer))
      then inl (ThrownError "Error"
                  (ElevenLabs.failure_message JSON_stringify
                     "Failed to fetch voices" (response answer)))
      else
        match payload answer with
        | inl e => inl e
        | inr voices => inr (map to_voice voices)
        end
  end.

End Client.

(** An answer with the given status and no readable body. *)
Definition refusal (status : nat) (statusText : string) : VoicesAnswer :=
  {| response :=
       {| ElevenLabs.ok := false; ElevenLabs.status := status;
          ElevenLabs.statusText := statusText;
          ElevenLabs.error_json := None; ElevenLabs.stream := None |};
     payload := inl (ThrownError "SyntaxError" "Unexpected end of JSON input") |}.

End VoicesClient.

(* ================================================================== *)
(** * components/tts-studio.tsx: choosing the voice *)
(* ================================================================== *)

Module StudioVoices.
Import JS Studio.

(** [voice.languageCode === language] *)
Definition speaks (language : string) (voice : VoiceOption) : bool :=
  match languageCode voice with
  | Some c => String.eqb c language
  | None => false
  end.

(** The memo [filteredVoices]. *)
Definition filteredVoices (language : string) (voices : list VoiceOption)
  : list VoiceOption :=
  if String.eqb language "auto" then voices
  else filter (speaks language) voices.

(** The effect that repairs the selection: the new [selectedVoiceId]. *)
Definition selection_effect (filteredVoices : list VoiceOption)
  (selectedVoiceId : string) : string :=
  match filteredVoices with
  | [] => selectedVoiceId
  | first :: _ =>
      if negb (truthy selectedVoiceId)
         || negb (existsb (fun voice => String.eqb (id voice) selectedVoiceId)
                          filteredVoices)
      then id first
      else selectedVoiceId
  end.

(** What [loadVoices] does to the state once the voices have arrived:
    the new [voices] and the new [selectedVoiceId]. *)
Definition loadVoices_arrived (language selectedVoiceId : string)
  (payload_voices : list VoiceOption) : list VoiceOption * string :=
  let normalized := dedupeVoices payload_voices in
  ( normalized,
    match normalized with
    | first :: _ =>
        if negb (truthy selectedVoiceId)
        then id (nullish (find (speaks language) normalized) first)
        else selectedVoiceId
    | [] => selectedVoiceId
    end ).

(** Sample voices. *)
Definition voice (i n : string) (l : option string) : VoiceOption :=
  {| id := i; name := n; languageCode := l |}.

Definition three_voices : list VoiceOption :=
  [ voice "v1" "Rachel" (Some "en"); voice "v2" "Noa" (Some "he");
    voice "v1" "Rachel again" (Some "fr") ].

End StudioVoices.

(* ================================================================== *)
(** * components/tts-studio.tsx: the error notice *)
(* ================================================================== *)

Module StudioView.
Import JS HttpClient Studio.

(** [{error ? <ErrorNotice ref={errorRef} message={error} /> : null}]:
    the text of the notice, when one is rendered. *)
Definition ErrorNotice (s : State) : option string :=
  match error s with
  | Some message => if truthy message then Some message else None
  | None => None
  end.

(** Samples: a proxy that answers with the body of a failed synthesis,
    and a request that never gets an answer. *)
Definition refusing_outside : Outside :=
  {| synthesize :=
       inr {| ok := false; statusText := "Bad Gateway";
              payload := Some Reported.synthesis_failed |};
     objectURL := inr "blob:1";
     audio := Reported.world_with None;
     randomUUID := "id-1";
     now := "2024-01-01T00:00:00.000Z" |}.

Definition offline_outside : Outside :=
  {| synthesize := inl (ThrownError "TypeError" "Failed to fetch");
     objectURL := inr "blob:1";
     audio := Reported.world_with None;
     randomUUID := "id-1";
     now := "2024-01-01T00:00:00.000Z" |}.

End StudioView.

(* ================================================================== *)
(** * Properties *)
(* ================================================================== *)

(** ** Numbers *)

Section NumberFacts.
Import JS.

Lemma leb_le (a b : number) : leb a b = true <-> le a b.
Proof.
  destruct a, b; simpl; split; intro H;
    try discriminate; try reflexivity;
    try (constructor; discriminate);
    try (inversion H; subst; congruence).
  - constructor. now apply Qle_bool_iff.
  - inversion H; subst. now apply Qle_bool_iff.
Qed.

Lemma ltb_lt (a b : number) : ltb a b = true <-> lt a b.
Proof.
  destruct a as [| | x |], b as [| | y |]; simpl; split; intro H;
    try discriminate; try (inversion H; fail); try (constructor; fail).
  - apply negb_true_iff in H. constructor.
    destruct (Qlt_le_dec x y) as [Hlt | Hle]; [assumption |].
    apply Qle_bool_iff in Hle. congruence.
  - inversion H; subst. apply negb_true_iff.
    destruct (Qle_bool y x) eqn:E; [| reflexivity].
    apply Qle_bool_iff in E. exfalso. lra.
Qed.

Lemma ltb_false_le (a b : number) :
  a <> NaN -> b <> NaN -> ltb a b = false -> le b a.
Proof.
  destruct a, b; simpl; intros Ha Hb H;
    try congruence; try (constructor; congruence).
  apply negb_false_iff in H. constructor. now apply Qle_bool_iff.
Qed.

Lemma le_not_lt (a b : number) : le a b -> ltb b a = false.
Proof.
  intro H. destruct (ltb b a) eqn:E; [| reflexivity].
  apply ltb_lt in E.
  inversion H; subst; inversion E; subst; try congruence. exfalso. lra.
Qed.

Lemma lt_not_le (a b : number) : lt a b -> leb b a = false.
Proof.
  intro H. destruct (leb b a) eqn:E; [| reflexivity].
  apply leb_le in E.
  inversion H; subst; inversion E; subst; try congruence. exfalso. lra.
Qed.

End NumberFacts.

(** ** The clamp of the provider client *)

Section ClampFacts.
Import JS ElevenLabs.

Lemma clamp_below (s : number) : lt s zero -> clamp s zero one = zero.
Proof.
  intro H. unfold clamp, zero, one in *.
  inversion H; subst; simpl; try reflexivity.
  destruct (Qle_bool 0 x) eqn:E; simpl.
  - apply Qle_bool_iff in E. exfalso. lra.
  - reflexivity.
Qed.

Lemma clamp_inside (s : number) : le zero s -> le s one -> clamp s zero one = s.
Proof.
  intros H0 H1. unfold clamp, zero, one in *.
  inversion H0; subst; inversion H1; subst; try congruence.
  simpl.
  assert (E0 : Qle_bool 0 y = true) by now apply Qle_bool_iff.
  assert (E1 : Qle_bool y 1 = true) by now apply Qle_bool_iff.
  rewrite E0. simpl. rewrite E1. reflexivity.
Qed.

Lemma clamp_above (s : number) : lt one s -> clamp s zero one = one.
Proof.
  intro H. unfold clamp, zero, one in *.
  inversion H; subst; simpl; try reflexivity.
  assert (E0 : Qle_bool 0 y = true) by (apply Qle_bool_iff; lra).
  rewrite E0. simpl.
  destruct (Qle_bool y 1) eqn:E; simpl.
  - apply Qle_bool_iff in E. exfalso. lra.
  - reflexivity.
Qed.

Lemma clamp_NaN : clamp NaN zero one = NaN.
Proof. reflexivity. Qed.

(** Away from NaN the clamp lands in the closed unit interval. *)
Lemma clamp_unit_interval (s : number) :
  s <> NaN -> exists q, clamp s zero one = Finite q /\ (0 <= q <= 1)%Q.
Proof.
  intro Hs. destruct s as [| | q |]; [congruence | | |].
  - exists 0%Q. split; [reflexivity | lra].
  - destruct (Qlt_le_dec q 0) as [Hneg | Hpos].
    + exists 0%Q. split; [| lra].
      apply clamp_below. now constructor.
    + destruct (Qlt_le_dec 1 q) as [Hbig | Hsmall].
      * exists 1%Q. split; [| lra]. apply clamp_above. now constructor.
      * exists q. split; [| lra].
        apply clamp_inside; now constructor.
  - exists 1%Q. split; [reflexivity | lra].
Qed.

Lemma normalize_low (s : number) :
  le s quarter -> normalizeStabilityForV3 s = zero.
Proof.
  intro H. unfold normalizeStabilityForV3.
  apply leb_le in H. now rewrite H.
Qed.

Lemma normalize_mid (s : number) :
  lt quarter s -> le s three_quarters -> normalizeStabilityForV3 s = half.
Proof.
  intros H1 H2. unfold normalizeStabilityForV3.
  rewrite (lt_not_le _ _ H1). apply leb_le in H2. now rewrite H2.
Qed.

Lemma normalize_high (s : number) :
  lt three_quarters s -> normalizeStabilityForV3 s = one.
Proof.
  intro H. unfold normalizeStabilityForV3.
  assert (Hq : lt quarter s).
  { unfold quarter, three_quarters in *. inversion H; subst; constructor. lra. }
  rewrite (lt_not_le _ _ Hq), (lt_not_le _ _ H). reflexivity.
Qed.

Lemma normalize_levels (s : number) :
  normalizeStabilityForV3 s = zero \/ normalizeStabilityForV3 s = half
  \/ normalizeStabilityForV3 s = one.
Proof.
  unfold normalizeStabilityForV3.
  destruct (leb s quarter); [now left |].
  destruct (leb s three_quarters); [right; now left | right; now right].
Qed.

Lemma normalize_stream_same (s : number) :
  normalizeStabilityForV3_stream s = normalizeStabilityForV3 s.
Proof. reflexivity. Qed.

End ClampFacts.

(** ** What the two synthesis calls put on the wire *)

Section WireFacts.
Import JS Env ElevenLabs Wire.

Variable env : ServerEnv.
Variable input : SynthesisInput.

Ltac read_body :=
  unfold voice_setting, model_id, synthesizeSpeech_request,
    synthesizeSpeechStream_request, stability_value, selected_model,
    requested_model; cbn [body get];
  destruct (languageCode input) as [c |];
  [ destruct (String.eqb c "auto") |]; reflexivity.

Lemma buffered_model_id :
  model_id (synthesizeSpeech_request env input) = Some (JString (selected_model env input)).
Proof. reflexivity. Qed.

Lemma streamed_model_id :
  model_id (synthesizeSpeechStream_request env input) = Some (JString (selected_model env input)).
Proof. reflexivity. Qed.

Lemma buffered_stability :
  voice_setting "stability" (synthesizeSpeech_request env input)
  = Some (json_of_number (stability_value env input)).
Proof. read_body. Qed.

Lemma streamed_stability :
  voice_setting "stability" (synthesizeSpeechStream_request env input)
  = Some (json_of_number (stability_value env input)).
Proof. read_body. Qed.

Lemma buffered_similarity_boost :
  voice_setting "similarity_boost" (synthesizeSpeech_request env input)
  = Some (json_of_number
            (clamp (nullish (similarityBoost input) four_fifths) zero one)).
Proof. read_body. Qed.

Lemma streamed_similarity_boost :
  voice_setting "similarity_boost" (synthesizeSpeechStream_request env input)
  = Some (json_of_number
            (clamp (nullish (similarityBoost input) four_fifths) zero one)).
Proof. read_body. Qed.

Lemma buffered_style :
  voice_setting "style" (synthesizeSpeech_request env input)
  = option_map (fun s => json_of_number (clamp s zero one))
               (styleExaggeration input).
Proof.
  unfold voice_setting, synthesizeSpeech_request; cbn [body get].
  destruct (languageCode input) as [c |];
    [ destruct (String.eqb c "auto") |];
    destruct (styleExaggeration input); reflexivity.
Qed.

Lemma streamed_style :
  voice_setting "style" (synthesizeSpeechStream_request env input)
  = option_map (fun s => json_of_number (clamp s zero one))
               (styleExaggeration input).
Proof.
  unfold voice_setting, synthesizeSpeechStream_request; cbn [body get].
  destruct (languageCode input) as [c |];
    [ destruct (String.eqb c "auto") |];
    destruct (styleExaggeration input); reflexivity.
Qed.

End WireFacts.

(** ** Model selection *)

(** Case analysis on which of the two requests is meant. *)
Ltac each_request :=
  let Hr := fresh "Hr" in
  intro Hr; unfold Wire.requests in Hr; destruct Hr as [<- | [<- | []]].

Section ModelSelection.
Import JS Env ElevenLabs Wire.

Lemma select_hebrew (m : option string) :
  selectModelForLanguage (Some "he") m = "eleven_v3".
Proof. reflexivity. Qed.

Lemma select_other (lang : option string) (m : string) :
  lang <> Some "he" ->
  selectModelForLanguage lang (Some m)
  = if truthy m && negb (String.eqb m "eleven_multilingual_v2")
    then m else "eleven_turbo_v2_5".
Proof.
  intro Hlang. unfold selectModelForLanguage.
  destruct lang as [c |]; [| reflexivity].
  destruct (String.eqb c "he") eqn:E; [| reflexivity].
  apply String.eqb_eq in E. congruence.
Qed.

Lemma truthy_nonempty (m : string) : truthy m = true <-> m <> "".
Proof.
  destruct m; simpl; split; congruence.
Qed.

(** C1, as stated, fails: with [ELEVENLABS_MODEL_ID] set to
    ["eleven_flash_v2_5"], an English request that names no model goes
    out with the configured model, not with ["eleven_turbo_v2_5"]. *)
Lemma model_selection_as_stated_fails :
  ~ model_selection_as_stated (env_with_model "eleven_flash_v2_5")
      (greeting (Some "en") None None None None).
Proof.
  intro H.
  destruct (H _ (or_introl eq_refl)) as (_ & _ & Hdefault).
  specialize (Hdefault ltac:(discriminate) eq_refl).
  vm_compute in Hdefault. discriminate Hdefault.
Qed.

(** The stock model id stands for "no specific model set": a caller
    naming it gets ["eleven_turbo_v2_5"] as well. *)
Lemma stock_model_is_replaced :
  model_id
    (synthesizeSpeechStream_request stock_env
       (greeting (Some "en") (Some "eleven_multilingual_v2") None None None))
  = Some (JString "eleven_turbo_v2_5").
Proof. reflexivity. Qed.

Lemma requested_model_used (lang : option string) (m : string) :
  lang <> Some "he" -> m <> "" -> m <> "eleven_multilingual_v2" ->
  selectModelForLanguage lang (Some m) = m.
Proof.
  intros Hlang Hne Hstock. rewrite (select_other _ _ Hlang).
  apply truthy_nonempty in Hne. rewrite Hne.
  apply String.eqb_neq in Hstock. now rewrite Hstock.
Qed.

Lemma stock_model_replaced (lang : option string) (m : string) :
  lang <> Some "he" -> m = "" \/ m = "eleven_multilingual_v2" ->
  selectModelForLanguage lang (Some m) = "eleven_turbo_v2_5".
Proof.
  intros Hlang [-> | ->]; now rewrite (select_other _ _ Hlang).
Qed.

(** C1 (amended).  Model selection, on both synthesis paths: a Hebrew
    request is sent with ["eleven_v3"] whatever model the caller names;
    any other request is sent with the caller's model id when that is
    given, non-empty and not ["eleven_multilingual_v2"]; when the caller
    gives none, with the configured [ELEVENLABS_MODEL_ID] if that is
    non-empty and not ["eleven_multilingual_v2"], and with
    ["eleven_turbo_v2_5"] otherwise. *)
Theorem model_selection (env : ServerEnv) (input : SynthesisInput) (r : Request) :
  In r (requests env input) ->
  (languageCode input = Some "he" ->
     model_id r = Some (JString "eleven_v3"))
  /\ (languageCode input <> Some "he" ->
      forall m, modelId input = Some m ->
      m <> "" -> m <> "eleven_multilingual_v2" ->
      model_id r = Some (JString m))
  /\ (languageCode input <> Some "he" -> modelId input = None ->
      ELEVENLABS_MODEL_ID env <> "" ->
      ELEVENLABS_MODEL_ID env <> "eleven_multilingual_v2" ->
      model_id r = Some (JString (ELEVENLABS_MODEL_ID env)))
  /\ (languageCode input <> Some "he" -> modelId input = None ->
      ELEVENLABS_MODEL_ID env = ""
      \/ ELEVENLABS_MODEL_ID env = "eleven_multilingual_v2" ->
      model_id r = Some (JString "eleven_turbo_v2_5")).
Proof.
  intro Hr.
  assert (Hsent : model_id r = Some (JString (selected_model env input))).
  { revert Hr. each_request;
      [apply buffered_model_id | apply streamed_model_id]. }
  rewrite Hsent. unfold selected_model, requested_model.
  split; [| split; [| split]].
  - intros ->. reflexivity.
  - intros Hlang m -> Hne Hstock. cbn [nullish].
    now rewrite requested_model_used.
  - intros Hlang -> Hne Hstock. cbn [nullish].
    now rewrite requested_model_used.
  - intros Hlang -> Hconfigured. cbn [nullish].
    now rewrite stock_model_replaced.
Qed.

Lemma model_selection_witness :
  model_id
    (synthesizeSpeechStream_request stock_env
       (greeting (Some "en") (Some "eleven_flash_v2") None None None))
  = Some (JString "eleven_flash_v2")
  /\ model_id
       (synthesizeSpeech_request stock_env
          (greeting (Some "he") (Some "eleven_flash_v2") None None None))
     = Some (JString "eleven_v3")
  /\ model_id
       (synthesizeSpeech_request (env_with_model "eleven_flash_v2_5")
          (greeting (Some "fr") None None None None))
     = Some (JString "eleven_flash_v2_5")
  /\ model_id
       (synthesizeSpeech_request stock_env
          (greeting (Some "fr") None None None None))
     = Some (JString "eleven_turbo_v2_5").
Proof.
  split; [| split; [| split]].
  - refine (proj1 (proj2 (model_selection stock_env
              (greeting (Some "en") (Some "eleven_flash_v2") None None None)
              _ _)) _ _ eq_refl _ _).
    + right. left. reflexivity.
    + discriminate.
    + discriminate.
    + discriminate.
  - refine (proj1 (model_selection stock_env
              (greeting (Some "he") (Some "eleven_flash_v2") None None None)
              _ _) _).
    + left. reflexivity.
    + reflexivity.
  - refine (proj1 (proj2 (proj2 (model_selection
              (env_with_model "eleven_flash_v2_5")
              (greeting (Some "fr") None None None None) _ _))) _ _ _ _).
    + left. reflexivity.
    + discriminate.
    + reflexivity.
    + discriminate.
    + discriminate.
  - refine (proj2 (proj2 (proj2 (model_selection stock_env
              (greeting (Some "fr") None None None None) _ _))) _ _ _).
    + left. reflexivity.
    + discriminate.
    + reflexivity.
    + right. reflexivity.
Defined.

End ModelSelection.

(** ** Stability quantization and the range of the voice settings *)

Section VoiceSettings.
Import JS Env ElevenLabs Wire.

Lemma model_id_v3 (env : ServerEnv) (input : SynthesisInput) (r : Request) :
  In r (requests env input) ->
  (model_id r = Some (JString "eleven_v3")
   <-> String.eqb (selected_model env input) "eleven_v3" = true).
Proof.
  each_request.
  - rewrite buffered_model_id. split.
    + intro H. injection H as ->. reflexivity.
    + intro H. apply String.eqb_eq in H. now rewrite H.
  - rewrite streamed_model_id. split.
    + intro H. injection H as ->. reflexivity.
    + intro H. apply String.eqb_eq in H. now rewrite H.
Qed.

Lemma request_stability (env : ServerEnv) (input : SynthesisInput) (r : Request) :
  In r (requests env input) ->
  voice_setting "stability" r = Some (json_of_number (stability_value env input)).
Proof.
  each_request; [apply buffered_stability | apply streamed_stability].
Qed.

Lemma request_similarity_boost
  (env : ServerEnv) (input : SynthesisInput) (r : Request) :
  In r (requests env input) ->
  voice_setting "similarity_boost" r
  = Some (json_of_number
            (clamp (nullish (similarityBoost input) four_fifths) zero one)).
Proof.
  each_request;
    [apply buffered_similarity_boost | apply streamed_similarity_boost].
Qed.

Lemma request_style (env : ServerEnv) (input : SynthesisInput) (r : Request) :
  In r (requests env input) ->
  voice_setting "style" r
  = option_map (fun s => json_of_number (clamp s zero one))
               (styleExaggeration input).
Proof.
  each_request; [apply buffered_style | apply streamed_style].
Qed.

Lemma le_finite_between (s : number) :
  le zero s -> le s one -> exists q, s = Finite q.
Proof.
  intros H0 H1. unfold zero, one in *.
  inversion H0; subst; inversion H1; subst; try congruence.
  now exists y.
Qed.

(** C2.  Stability quantization, for a caller-supplied stability [s], on
    the buffered and on the streaming path alike: when the request goes
    out for ["eleven_v3"] the stability sent is 0 for [s <= 0.25], 0.5 for
    [0.25 < s <= 0.75] and 1 for [s > 0.75]; for any other model it is
    [s] clamped to [0, 1] (0 below 0, [s] itself inside, 1 above 1); and
    the two paths send the same value. *)
Theorem stability_quantization
  (env : ServerEnv) (input : SynthesisInput) (s : number) (r : Request) :
  stability input = Some s ->
  In r (requests env input) ->
  (model_id r = Some (JString "eleven_v3") ->
     (le s quarter -> voice_setting "stability" r = Some (JNumber zero))
     /\ (lt quarter s -> le s three_quarters ->
         voice_setting "stability" r = Some (JNumber half))
     /\ (lt three_quarters s ->
         voice_setting "stability" r = Some (JNumber one)))
  /\ (model_id r <> Some (JString "eleven_v3") ->
      (lt s zero -> voice_setting "stability" r = Some (JNumber zero))
      /\ (le zero s -> le s one ->
          voice_setting "stability" r = Some (JNumber s))
      /\ (lt one s -> voice_setting "stability" r = Some (JNumber one)))
  /\ voice_setting "stability" (synthesizeSpeech_request env input)
     = voice_setting "stability" (synthesizeSpeechStream_request env input).
Proof.
  intros Hs Hr.
  pose proof (model_id_v3 env input r Hr) as Hv3.
  rewrite (request_stability env input r Hr).
  unfold stability_value. rewrite Hs. cbn [nullish].
  split; [| split].
  - intro Hm. apply Hv3 in Hm. rewrite Hm.
    split; [| split].
    + intro H. now rewrite (normalize_low _ H).
    + intros H1 H2. now rewrite (normalize_mid _ H1 H2).
    + intro H. now rewrite (normalize_high _ H).
  - intro Hm.
    destruct (String.eqb (selected_model env input) "eleven_v3") eqn:E.
    { exfalso. apply Hm. now apply Hv3. }
    split; [| split].
    + intro H. now rewrite (clamp_below _ H).
    + intros H0 H1. rewrite (clamp_inside _ H0 H1).
      destruct (le_finite_between _ H0 H1) as [q ->]. reflexivity.
    + intro H. now rewrite (clamp_above _ H).
  - now rewrite buffered_stability, streamed_stability.
Qed.

Lemma stability_quantization_witness :
  voice_setting "stability"
    (synthesizeSpeechStream_request stock_env
       (greeting (Some "he") None (Some (Finite (3 # 10)%Q)) None None))
  = Some (JNumber half)
  /\ voice_setting "stability"
       (synthesizeSpeech_request stock_env
          (greeting (Some "en") None (Some (Finite (3 # 2)%Q)) None None))
     = Some (JNumber one).
Proof.
  split.
  - refine (proj1 (proj2 (proj1
              (stability_quantization stock_env
                 (greeting (Some "he") None (Some (Finite (3 # 10)%Q)) None None)
                 (Finite (3 # 10)%Q) _ eq_refl _) _)) _ _).
    + right. left. reflexivity.
    + reflexivity.
    + constructor. reflexivity.
    + constructor. discriminate.
  - refine (proj2 (proj2 (proj1 (proj2
              (stability_quantization stock_env
                 (greeting (Some "en") None (Some (Finite (3 # 2)%Q)) None None)
                 (Finite (3 # 2)%Q) _ eq_refl _)) _)) _).
    + left. reflexivity.
    + discriminate.
    + constructor. reflexivity.
Defined.

(** C10, as stated, fails: a NaN [similarityBoost] passes through the
    clamp and is serialised as [null]. *)
Lemma ranges_as_stated_fails :
  ~ ranges_as_stated
      (synthesizeSpeech_request stock_env
         (greeting (Some "en") None None (Some NaN) None)).
Proof.
  intros ((q & H & _) & _).
  vm_compute in H. discriminate H.
Qed.

(** The same happens to a NaN stability under a model other than
    ["eleven_v3"], and to a NaN style. *)
Lemma nan_settings_become_null :
  voice_setting "stability"
    (synthesizeSpeechStream_request stock_env
       (greeting (Some "en") None (Some NaN) None None)) = Some JNull
  /\ voice_setting "style"
       (synthesizeSpeechStream_request stock_env
          (greeting (Some "en") None None None (Some NaN))) = Some JNull.
Proof. split; reflexivity. Qed.

Lemma json_of_clamp_in_unit (s : number) :
  s <> NaN -> in_unit_interval (Some (json_of_number (clamp s zero one))).
Proof.
  intro Hs. destruct (clamp_unit_interval s Hs) as (q & -> & Hq).
  exists q. split; [reflexivity | assumption].
Qed.

(** C10 (amended).  Provider-request range invariant, on both synthesis
    paths and whatever the validation layer let through: when the
    request goes out for ["eleven_v3"] the stability sent is one of 0, 0.5
    and 1, for every input; [similarity_boost], [style] (when present)
    and, for the other models, [stability] lie in [0, 1] provided the
    corresponding input value is not NaN (out-of-range finite values and
    the infinities included). *)
Theorem provider_request_ranges
  (env : ServerEnv) (input : SynthesisInput) (r : Request) :
  In r (requests env input) ->
  (similarityBoost input <> Some NaN ->
     in_unit_interval (voice_setting "similarity_boost" r))
  /\ (styleExaggeration input <> Some NaN ->
      voice_setting "style" r = None
      \/ in_unit_interval (voice_setting "style" r))
  /\ (model_id r = Some (JString "eleven_v3") ->
      is_level (voice_setting "stability" r))
  /\ (model_id r <> Some (JString "eleven_v3") ->
      stability input <> Some NaN ->
      in_unit_interval (voice_setting "stability" r)).
Proof.
  intro Hr.
  pose proof (model_id_v3 env input r Hr) as Hv3.
  rewrite (request_similarity_boost env input r Hr),
    (request_style env input r Hr), (request_stability env input r Hr).
  split; [| split; [| split]].
  - intro Hsim. apply json_of_clamp_in_unit.
    destruct (similarityBoost input) as [x |]; cbn [nullish].
    + congruence.
    + discriminate.
  - intro Hstyle. destruct (styleExaggeration input) as [x |]; cbn [option_map].
    + right. apply json_of_clamp_in_unit. congruence.
    + now left.
  - intro Hm. apply Hv3 in Hm. unfold stability_value. rewrite Hm.
    unfold is_level.
    destruct (normalize_levels (nullish (stability input) half))
      as [-> | [-> | ->]]; cbn [json_of_number zero half one]; auto.
  - intros Hm Hstab. unfold stability_value.
    destruct (String.eqb (selected_model env input) "eleven_v3") eqn:E.
    { exfalso. apply Hm. now apply Hv3. }
    apply json_of_clamp_in_unit.
    destruct (stability input) as [x |]; cbn [nullish].
    + congruence.
    + discriminate.
Qed.

Lemma provider_request_ranges_witness :
  in_unit_interval
    (voice_setting "similarity_boost"
       (synthesizeSpeechStream_request stock_env
          (greeting (Some "en") None (Some (Finite (-3)%Q))
                    (Some (Finite 7%Q)) (Some Infinity))))
  /\ in_unit_interval
       (voice_setting "stability"
          (synthesizeSpeechStream_request stock_env
             (greeting (Some "en") None (Some (Finite (-3)%Q))
                       (Some (Finite 7%Q)) (Some Infinity)))).
Proof.
  split.
  - refine (proj1 (provider_request_ranges stock_env
              (greeting (Some "en") None (Some (Finite (-3)%Q))
                        (Some (Finite 7%Q)) (Some Infinity)) _ _) _).
    + right. left. reflexivity.
    + discriminate.
  - refine (proj2 (proj2 (proj2 (provider_request_ranges stock_env
              (greeting (Some "en") None (Some (Finite (-3)%Q))
                        (Some (Finite 7%Q)) (Some Infinity)) _ _))) _ _).
    + right. left. reflexivity.
    + discriminate.
    + discriminate.
Defined.

End VoiceSettings.

(** ** Flattening a validation error *)

Section Flatten.
Import JS Zod Reported SynthesizeRoute.

Lemma find_any (l : list string) : find (fun _ => true) l = hd_error l.
Proof. destruct l; reflexivity. Qed.

Lemma push_field_populated key m fields :
  populated fields -> populated (push_field key m fields).
Proof.
  unfold populated. induction 1 as [| [k ms] rest Hms Hrest IH]; simpl.
  - constructor; [discriminate | constructor].
  - destruct (String.eqb k key).
    + constructor; [| assumption]. simpl. now destruct ms.
    + constructor; assumption.
Qed.

(** Pushing a message never changes which message comes first. *)
Lemma push_field_head key m fields :
  populated fields ->
  hd_error (List.concat (map snd (push_field key m fields)))
  = match hd_error (List.concat (map snd fields)) with
    | Some first => Some first
    | None => Some m
    end.
Proof.
  intro H. destruct H as [| [k ms] rest Hms Hrest]; simpl; [reflexivity |].
  simpl in Hms. destruct ms as [| first ms]; [congruence |].
  destruct (String.eqb k key); reflexivity.
Qed.

Lemma flatten_from (error : ZodError) :
  forall acc : Flattened,
    populated (fieldErrors acc) ->
    let r := fold_left flatten_step error acc in
    populated (fieldErrors r)
    /\ hd_error (List.concat (map snd (fieldErrors r)))
       = match hd_error (List.concat (map snd (fieldErrors acc))) with
         | Some first => Some first
         | None => hd_error (field_messages error)
         end
    /\ formErrors r = (formErrors acc ++ form_messages error)%list.
Proof.
  induction error as [| sub error IH]; intros acc Hacc; simpl.
  - repeat split; [assumption | now destruct (hd_error _) | now rewrite app_nil_r].
  - unfold flatten_step at 2 4 6, field_messages, form_messages, is_field_issue.
    simpl. destruct (path sub) as [| key tail] eqn:Hpath; simpl.
    + destruct (IH {| formErrors := (formErrors acc ++ [message sub])%list;
                      fieldErrors := fieldErrors acc |} Hacc)
        as (Hpop & Hhead & Hform).
      simpl in *. repeat split; [assumption | assumption |].
      rewrite Hform, <- app_assoc. reflexivity.
    + destruct (IH {| formErrors := formErrors acc;
                      fieldErrors := push_field key (message sub) (fieldErrors acc) |}
                   (push_field_populated _ _ _ Hacc))
        as (Hpop & Hhead & Hform).
      simpl in *. repeat split; [assumption | | assumption].
      rewrite Hhead, (push_field_head _ _ _ Hacc).
      now destruct (hd_error (List.concat (map snd (fieldErrors acc)))).
Qed.

Lemma flatten_first_field (error : ZodError) :
  hd_error (List.concat (map snd (fieldErrors (flatten error))))
  = hd_error (field_messages error).
Proof.
  destruct (flatten_from error {| formErrors := []; fieldErrors := [] |})
    as (_ & H & _); [constructor | exact H].
Qed.

Lemma flatten_form (error : ZodError) :
  formErrors (flatten error) = form_messages error.
Proof.
  destruct (flatten_from error {| formErrors := []; fieldErrors := [] |})
    as (_ & _ & H); [constructor | exact H].
Qed.

(** [getValidationMessage] reports the first field-level message, else the
    first form-level one, else the stock text, as long as no issue carries
    an empty message. *)
Lemma getValidationMessage_reported (error : ZodError) :
  Forall (fun i => message i <> "") error ->
  reported error (getValidationMessage error).
Proof.
  intro Hmsg. unfold getValidationMessage, reported.
  rewrite !find_any, flatten_first_field, flatten_form.
  assert (Hfield : Forall (fun m => m <> "") (field_messages error)).
  { unfold field_messages. apply Forall_map.
    apply Forall_forall. intros i Hi. apply filter_In in Hi.
    rewrite Forall_forall in Hmsg. now apply Hmsg. }
  destruct (field_messages error) as [| first rest]; simpl.
  - destruct (form_messages error); reflexivity.
  - inversion Hfield as [| ? ? Hfirst _]; subst.
    destruct first; [congruence | reflexivity].
Qed.

End Flatten.

(** ** The messages the schema raises *)

Section SchemaMessages.
Import JS Zod Schemas Reported.

Variable errorMap : ZodIssueCode -> string.
Hypothesis errorMap_nonempty : forall c, errorMap c <> "".

Lemma issue_worded c p (m : option string) :
  m <> Some "" -> message (issue errorMap c p m) <> "".
Proof.
  intro Hm. unfold issue. simpl.
  destruct m as [text |]; simpl; [congruence | apply errorMap_nonempty].
Qed.

Lemma worded_one c p (m : option string) :
  m <> Some "" -> worded [issue errorMap c p m].
Proof.
  intro Hm. constructor; [now apply issue_worded | constructor].
Qed.

Lemma worded_app a b : worded a -> worded b -> worded (a ++ b).
Proof. intros Ha Hb. apply Forall_app. now split. Qed.

Lemma snd_checked {A : Type} (v : A) issues : snd (checked v issues) = issues.
Proof. now destruct issues. Qed.

Lemma z_string_worded checks p data :
  Forall string_check_worded checks -> worded (snd (z_string errorMap checks p data)).
Proof.
  intro Hchecks. unfold z_string.
  destruct data as [[| | | s | |] |]; simpl;
    try (apply worded_one; discriminate).
  rewrite snd_checked. apply Forall_flat_map.
  apply Forall_forall. intros check Hin.
  rewrite Forall_forall in Hchecks. specialize (Hchecks check Hin).
  destruct check as [value m | value m]; simpl in *.
  - destruct (JS.length s <? value)%N; [now apply worded_one | constructor].
  - destruct (value <? JS.length s)%N; [now apply worded_one | constructor].
Qed.

Lemma z_number_worded checks p data :
  Forall number_check_worded checks -> worded (snd (z_number errorMap checks p data)).
Proof.
  intro Hchecks. unfold z_number.
  destruct data as [[| | [| | q |] | | |] |]; simpl;
    try (apply worded_one; discriminate);
    rewrite snd_checked; apply Forall_flat_map;
    apply Forall_forall; intros check Hin;
    rewrite Forall_forall in Hchecks; specialize (Hchecks check Hin);
    destruct check as [value m | value m]; unfold number_check;
    match goal with
    | |- context [if ?c then _ else _] =>
        destruct c; [now apply worded_one | constructor]
    end.
Qed.

Lemma z_union_worded literals p data :
  worded (snd (z_union_literals errorMap literals p data)).
Proof.
  unfold z_union_literals.
  destruct data as [[| | n | | |] |]; simpl;
    try (apply worded_one; discriminate).
  destruct (existsb (strict_eq n) literals); simpl;
    [constructor | apply worded_one; discriminate].
Qed.

Lemma z_optional_worded {A : Type} (schema : Schema A) p data :
  worded (snd (schema p data)) -> worded (snd (z_optional schema p data)).
Proof.
  unfold z_optional. destruct data as [j |]; [| constructor].
  now destruct (schema p (Some j)) as [[v | v |] issues].
Qed.

Lemma z_transform_worded {A B : Type} (schema : Schema A) (f : A -> B) p data :
  worded (snd (schema p data)) -> worded (snd (z_transform schema f p data)).
Proof.
  unfold z_transform. now destruct (schema p data) as [[v | v |] issues].
Qed.

Lemma z_refine_worded {A : Type} (schema : Schema A) check m p data :
  m <> "" ->
  worded (snd (schema p data)) ->
  worded (snd (z_refine errorMap schema check m p data)).
Proof.
  intros Hm. unfold z_refine.
  destruct (schema p data) as [[v | v |] issues]; simpl; intro H;
    try assumption;
    destruct (check v); simpl; try assumption;
    (apply worded_app; [assumption | apply worded_one; congruence]).
Qed.

Lemma text_schema_worded p data : worded (snd (text_schema errorMap p data)).
Proof.
  apply z_string_worded. repeat constructor; discriminate.
Qed.

Lemma voiceId_schema_worded p data : worded (snd (voiceId_schema errorMap p data)).
Proof.
  apply z_string_worded. repeat constructor; discriminate.
Qed.

Lemma language_schema_worded p data :
  worded (snd (language_schema errorMap p data)).
Proof.
  apply z_refine_worded; [discriminate |].
  apply z_transform_worded, z_optional_worded, z_string_worded. constructor.
Qed.

Lemma unit_interval_schema_worded p data :
  worded (snd (unit_interval_schema errorMap p data)).
Proof.
  apply z_optional_worded, z_number_worded. repeat constructor; discriminate.
Qed.

Lemma optimizeStreamingLatency_schema_worded p data :
  worded (snd (optimizeStreamingLatency_schema errorMap p data)).
Proof. apply z_optional_worded, z_union_worded. Qed.

Lemma modelId_schema_worded p data :
  worded (snd (modelId_schema errorMap p data)).
Proof. apply z_optional_worded, z_string_worded. constructor. Qed.

Lemma synthesizeSchema_issues_worded members :
  worded (synthesizeSchema_issues errorMap members).
Proof.
  unfold synthesizeSchema_issues.
  repeat apply worded_app;
    auto using text_schema_worded, voiceId_schema_worded,
      language_schema_worded, unit_interval_schema_worded,
      optimizeStreamingLatency_schema_worded, modelId_schema_worded.
Qed.

(** A failed parse of an object reports the issues of its keys. *)
Lemma safeParse_object_failure members error :
  synthesizeSchema_safeParse errorMap (JObject members) = failure error ->
  error = synthesizeSchema_issues errorMap members.
Proof.
  unfold synthesizeSchema_safeParse.
  repeat match goal with
         | |- context [match fst ?r with _ => _ end] => destruct (fst r)
         end;
    intro H; try discriminate H; now injection H.
Qed.

(** Every issue of a failed parse carries a message. *)
Lemma safeParse_failure_worded data error :
  synthesizeSchema_safeParse errorMap data = failure error -> worded error.
Proof.
  destruct data as [| b | n | s | items | members];
    try (simpl; intro H; injection H as <-; apply worded_one; discriminate).
  intro H. rewrite (safeParse_object_failure _ _ H).
  apply synthesizeSchema_issues_worded.
Qed.

End SchemaMessages.

(** ** POST /api/synthesize *)

Section SynthesizeHandler.
Import JS Zod Http Schemas Reported SynthesizeRoute.

(** C3.  A JSON body that parses but fails the schema is answered with
    status 422 and the body [{ error: "Invalid input: <m>" }], where [m]
    is one message: the first field-level message, else the first
    form-level message, else the stock text.  (The library's built-in
    messages are taken to be non-empty.) *)
Theorem validation_failure_response
  (errorMap : ZodIssueCode -> string)
  (provider : ElevenLabs.SynthesisInput -> thrown + list Byte.byte)
  (data : json) (error : ZodError) :
  (forall c, errorMap c <> "") ->
  synthesizeSchema_safeParse errorMap data = failure error ->
  exists m : string,
    fst (POST errorMap provider (inr data))
    = NextResponse_json (JObject [ ("error", JString ("Invalid input: " ++ m)) ]) 422
    /\ reported error m.
Proof.
  intros Hmap Hparse.
  exists (getValidationMessage error). split.
  - unfold POST. rewrite Hparse. reflexivity.
  - apply getValidationMessage_reported.
    exact (safeParse_failure_worded errorMap Hmap data error Hparse).
Qed.

(** The failing body of the route test is answered with the message of
    its first field. *)
Example empty_body_response
  (provider : ElevenLabs.SynthesisInput -> thrown + list Byte.byte) :
  fst (POST plain_errorMap provider (inr empty_body))
  = NextResponse_json
      (JObject [ ("error", JString "Invalid input: Text is required") ]) 422.
Proof. reflexivity. Qed.

(** A body that is not an object has no field-level issue: the
    form-level message is reported. *)
Example array_body_response
  (provider : ElevenLabs.SynthesisInput -> thrown + list Byte.byte) :
  fst (POST plain_errorMap provider (inr (JArray [])))
  = NextResponse_json
      (JObject [ ("error", JString "Invalid input: Invalid input") ]) 422.
Proof. reflexivity. Qed.

Lemma validation_failure_response_witness :
  (forall c, plain_errorMap c <> "")
  /\ synthesizeSchema_safeParse plain_errorMap empty_body
     = failure
         [ {| code := too_small_string 1; path := ["text"];
              message := "Text is required" |};
           {| code := too_small_string 1; path := ["voiceId"];
              message := "Voice is required" |} ]
  /\ exists m : string,
       fst (POST plain_errorMap (failing_provider "unused") (inr empty_body))
       = NextResponse_json
           (JObject [ ("error", JString ("Invalid input: " ++ m)) ]) 422
       /\ reported
            [ {| code := too_small_string 1; path := ["text"];
                 message := "Text is required" |};
              {| code := too_small_string 1; path := ["voiceId"];
                 message := "Voice is required" |} ] m.
Proof.
  split; [| split].
  - intro c. discriminate.
  - reflexivity.
  - apply (validation_failure_response plain_errorMap
             (failing_provider "unused") empty_body).
    + intro c. discriminate.
    + reflexivity.
Defined.

(** C4.  When a validated request reaches the provider call and the call
    throws, the answer is status 502 with exactly the body
    [{ error: "Synthesis service failed. Please try again." }], whatever
    was thrown; the thrown value goes to the console only. *)
Theorem upstream_failure_response
  (errorMap : ZodIssueCode -> string)
  (provider : ElevenLabs.SynthesisInput -> thrown + list Byte.byte)
  (data : json) (payload : SynthesizePayload) (detail : thrown) :
  synthesizeSchema_safeParse errorMap data = success payload ->
  provider (synthesis_input payload) = inl detail ->
  POST errorMap provider (inr data)
  = ( NextResponse_json synthesis_failed 502,
      [ {| log_level := console_error;
           log_args := [ text_arg "[api/synthesize] Upstream synthesis failed";
                         thrown_arg detail ] |} ] ).
Proof.
  intros Hparse Hcall. unfold POST. rewrite Hparse, Hcall. reflexivity.
Qed.

Lemma upstream_failure_response_witness :
  fst (POST plain_errorMap (failing_provider "Upstream error") (inr hello_body))
  = NextResponse_json synthesis_failed 502.
Proof.
  refine (f_equal fst
            (upstream_failure_response plain_errorMap
               (failing_provider "Upstream error") hello_body
               {| text := "Hello world"; voiceId := "voice-1";
                  language := Some "en"; stability := Some half;
                  similarityBoost := Some (Finite (7 # 10)%Q);
                  styleExaggeration := None;
                  optimizeStreamingLatency := Some one;
                  modelId := None |}
               (ThrownError "Error" "Upstream error") _ _)).
  - reflexivity.
  - reflexivity.
Defined.

(** The same holds with the provider client in place of an arbitrary
    call: a non-2xx answer of the provider never shows in the body. *)
Lemma provider_status_is_masked
  (errorMap : ZodIssueCode -> string) (stringify : json -> string)
  (fetch : ElevenLabs.Request -> thrown + ElevenLabs.Response)
  (env : Env.ServerEnv) (data : json) (payload : SynthesizePayload)
  (response : ElevenLabs.Response) :
  synthesizeSchema_safeParse errorMap data = success payload ->
  fetch (ElevenLabs.synthesizeSpeechStream_request env (synthesis_input payload))
  = inr response ->
  ElevenLabs.ok response = false ->
  fst (POST errorMap (ElevenLabs.synthesizeSpeechStream stringify fetch env)
         (inr data))
  = NextResponse_json synthesis_failed 502.
Proof.
  intros Hparse Hfetch Hok.
  unfold POST, ElevenLabs.synthesizeSpeechStream.
  rewrite Hparse, Hfetch, Hok. reflexivity.
Qed.

(** The earlier revision of the handler forwarded the message. *)
Lemma earlier_revision_forwards_message :
  fst (SynthesizeRouteEarlier.POST plain_errorMap
         (failing_provider "Upstream error") (inr hello_body))
  = NextResponse_json (JObject [ ("error", JString "Upstream error") ]) 502.
Proof. reflexivity. Qed.

End SynthesizeHandler.

(** ** The text bound of the schema *)

Section TextBound.
Import JS Zod Schemas Reported.

(** Whether the schema takes a text depends on its length alone. *)
Lemma text_schema_accepts (errorMap : ZodIssueCode -> string) (t : string) :
  fst (text_schema errorMap ["text"] (Some (JString t))) = VALID t
  <-> (1 <= JS.length t <= 5000)%N.
Proof.
  unfold text_schema, z_string, string_check. cbn [flat_map app].
  destruct (JS.length t <? 1)%N eqn:Hmin;
    destruct (5000 <? JS.length t)%N eqn:Hmax; simpl;
    (apply N.ltb_lt in Hmin || apply N.ltb_ge in Hmin);
    (apply N.ltb_lt in Hmax || apply N.ltb_ge in Hmax);
    split; intro H; try discriminate H; try lia; reflexivity.
Qed.

(** C5 (defect).  The schema bounds the text by the constant 5,000
    whatever the language or model: an English text of 5,001 characters,
    within the 30,000 the studio and [getModelCharacterLimit] allow for
    the model it is sent to, is rejected; a Hebrew text of 3,001
    characters, beyond the 3,000 of its model, is accepted. *)
Theorem text_bound_is_fixed :
  Studio.getCharacterLimit "en" = 30000%N
  /\ ElevenLabs.getModelCharacterLimit
       (ElevenLabs.selectModelForLanguage (Some "en") (Some "eleven_multilingual_v2"))
     = 30000%N
  /\ synthesizeSchema_safeParse plain_errorMap
       (JObject [ ("text", JString (repeat_string (N.to_nat 5001) "a"));
                  ("voiceId", JString "voice-1");
                  ("language", JString "en") ])
     = failure
         [ {| code := too_big_string 5000; path := ["text"];
              message := "Text must be shorter than 5,000 characters" |} ]
  /\ Studio.getCharacterLimit "he" = 3000%N
  /\ ElevenLabs.getModelCharacterLimit
       (ElevenLabs.selectModelForLanguage (Some "he") (Some "eleven_multilingual_v2"))
     = 3000%N
  /\ synthesizeSchema_safeParse plain_errorMap
       (JObject [ ("text", JString (repeat_string (N.to_nat 3001) "a"));
                  ("voiceId", JString "voice-1");
                  ("language", JString "he") ])
     = success
         {| text := repeat_string (N.to_nat 3001) "a"; voiceId := "voice-1";
            language := Some "he"; stability := None; similarityBoost := None;
            styleExaggeration := None; optimizeStreamingLatency := None;
            modelId := None |}.
Proof.
  repeat split; vm_compute; reflexivity.
Qed.

End TextBound.

(** ** GET /api/voices *)

Section VoicesHandler.
Import JS Http Reported VoicesRoute.

Lemma prefix_occurs (needle hay : string) :
  prefix needle hay = true <-> exists after, hay = needle ++ after.
Proof.
  revert hay. induction needle as [| a needle IH]; intro hay.
  - split; [intros _; now exists hay | intros _; now destruct hay].
  - destruct hay as [| b hay]; simpl.
    + split; [discriminate | intros [after H]; discriminate H].
    + destruct (ascii_dec a b) as [-> | Hab].
      * rewrite IH. split; intros [after H]; exists after.
        -- now rewrite H.
        -- now injection H.
      * split; [discriminate | intros [after H]]. injection H as H1 H2.
        congruence.
Qed.

Lemma includes_empty (needle : string) :
  includes "" needle = prefix needle "".
Proof.
  change (includes "" needle) with (if prefix needle "" then true else false).
  now destruct (prefix needle "").
Qed.

Lemma includes_String (c : ascii) (hay needle : string) :
  includes (String c hay) needle
  = if prefix needle (String c hay) then true else includes hay needle.
Proof. reflexivity. Qed.

(** [includes] decides occurrence. *)
Lemma includes_occurs (hay needle : string) :
  includes hay needle = true <-> occurs_in hay needle.
Proof.
  unfold occurs_in. induction hay as [| c hay IH];
    [rewrite includes_empty | rewrite includes_String].
  - destruct (prefix needle "") eqn:E.
    + split; [intros _ | reflexivity].
      apply prefix_occurs in E. destruct E as [after E].
      exists "", after. exact E.
    + split; [discriminate |]. intros (before & after & H).
      destruct before; simpl in H.
      * assert (prefix needle "" = true)
          by (apply prefix_occurs; now exists after).
        congruence.
      * discriminate H.
  - destruct (prefix needle (String c hay)) eqn:E.
    + split; [intros _ | reflexivity].
      apply prefix_occurs in E. destruct E as [after E].
      exists "", after. exact E.
    + rewrite IH. split.
      * intros (before & after & H). exists (String c before), after.
        simpl. now rewrite H.
      * intros (before & after & H). destruct before as [| b before]; simpl in H.
        -- assert (prefix needle (String c hay) = true)
             by (apply prefix_occurs; now exists after).
           congruence.
        -- injection H as _ H. now exists before, after.
Qed.

(** C6.  When the voice fetch fails, the route answers 500 with
    [{ error: <message> }], the message chosen by what occurs in the
    failure detail (the message of the error thrown):
    ["missing_permissions"] gives the permission hint; otherwise ["401"]
    gives "Invalid or unauthorized ElevenLabs API key. Check your key.";
    otherwise the connectivity hint. *)
Theorem voices_failure_response (failure : thrown) :
  exists m : string,
    fst (GET (inl failure))
    = NextResponse_json (JObject [ ("error", JString m) ]) 500
    /\ (occurs_in (message_or "Unknown error" failure) "missing_permissions" ->
        m = permissions_hint)
    /\ (~ occurs_in (message_or "Unknown error" failure) "missing_permissions" ->
        occurs_in (message_or "Unknown error" failure) "401" ->
        m = "Invalid or unauthorized ElevenLabs API key. Check your key.")
    /\ (~ occurs_in (message_or "Unknown error" failure) "missing_permissions" ->
        ~ occurs_in (message_or "Unknown error" failure) "401" ->
        m = connectivity_hint).
Proof.
  unfold GET. cbn [fst].
  set (details := message_or "Unknown error" failure).
  destruct (includes details "missing_permissions") eqn:Hperm.
  - eexists. split; [reflexivity |].
    apply includes_occurs in Hperm.
    repeat split; intros; try reflexivity; contradiction.
  - assert (Hno : ~ occurs_in details "missing_permissions").
    { intro H. apply includes_occurs in H. congruence. }
    destruct (includes details "401") eqn:Hkey.
    + eexists. split; [reflexivity |].
      apply includes_occurs in Hkey.
      repeat split; intros; try reflexivity; contradiction.
    + assert (Hno' : ~ occurs_in details "401").
      { intro H. apply includes_occurs in H. congruence. }
      eexists. split; [reflexivity |].
      repeat split; intros; try reflexivity; contradiction.
Qed.

Lemma voices_failure_response_witness :
  fst (GET (inl (ThrownError "Error" "401 Unauthorized")))
  = NextResponse_json (JObject [ ("error", JString invalid_key_hint) ]) 500.
Proof.
  destruct (voices_failure_response (ThrownError "Error" "401 Unauthorized"))
    as (m & Hresponse & _ & Hkey & _).
  assert (Hm : m = invalid_key_hint).
  { apply Hkey.
    - intro H. apply includes_occurs in H. discriminate H.
    - exists "", " Unauthorized". reflexivity. }
  rewrite Hresponse, Hm. reflexivity.
Defined.

(** The failure the provider client raises on a 401 answer carries the
    status in its message, so it is reported as an invalid key, unless
    the provider's error body speaks of missing permissions. *)
Example unauthorized_fetch_message (stringify : json -> string) :
  includes
    (ElevenLabs.failure_message stringify "Failed to fetch voices"
       {| ElevenLabs.ok := false; ElevenLabs.status := 401;
          ElevenLabs.statusText := "Unauthorized";
          ElevenLabs.error_json := None; ElevenLabs.stream := None |})
    "401" = true.
Proof. reflexivity. Qed.

End VoicesHandler.

(** ** Language normalization *)

Section LanguageCodes.
Import JS Languages Reported.

Lemma Map_get_In key entries code :
  Map_get key entries = Some code -> In (key, code) entries.
Proof.
  induction entries as [| [k v] rest IH]; simpl; [discriminate |].
  destruct (String.eqb key k) eqn:E.
  - intro H. injection H as <-. apply String.eqb_eq in E. subst. now left.
  - intro H. right. now apply IH.
Qed.

Lemma NAME_TO_CODE_codes_truthy :
  Forall (fun entry => truthy (snd entry) = true) NAME_TO_CODE.
Proof. repeat constructor. Qed.

(** No name occurs twice in the table. *)
Lemma NAME_TO_CODE_names_distinct : NoDup (map fst NAME_TO_CODE).
Proof.
  repeat (constructor;
          [ simpl; intro H; repeat (destruct H as [H | H]; [discriminate H |]);
            exact H |]).
  constructor.
Qed.

Lemma Map_get_truthy key code :
  Map_get key NAME_TO_CODE = Some code -> truthy code = true.
Proof.
  intro H. apply Map_get_In in H.
  pose proof NAME_TO_CODE_codes_truthy as Hall.
  rewrite Forall_forall in Hall. exact (Hall _ H).
Qed.

Lemma lookup_empty : lookup "" = None.
Proof. reflexivity. Qed.

(** The result is a function of the trimmed, lower-cased label. *)
Lemma resolve_by_lookup (input : string) :
  resolveLanguageCode (Some input) = lookup (toLowerCase (trim input)).
Proof.
  unfold resolveLanguageCode, lookup.
  destruct input as [| c rest]; [reflexivity |].
  cbn [truthy negb].
  destruct (toLowerCase (trim (String c rest))) as [| c' rest'] eqn:En;
    [reflexivity |].
  cbn [truthy negb].
  destruct (Map_get (String c' rest') NAME_TO_CODE) as [code |] eqn:Eg;
    [| reflexivity].
  now rewrite (Map_get_truthy _ _ Eg).
Qed.

(** Among the names of the table only the two-letter ones have the
    ISO-tag shape, and each of them stands for itself. *)
Lemma table_iso_names :
  Forall (fun entry =>
            isoMatch (fst entry) = true -> snd entry = slice0 2 (fst entry))
         NAME_TO_CODE.
Proof.
  repeat (constructor;
          [ cbn; intro H; first [reflexivity | discriminate H] |]).
  constructor.
Qed.

Lemma table_two_letter_names :
  Forall (fun entry =>
            forall a b : ascii,
              fst entry = String a (String b "") -> snd entry = fst entry)
         NAME_TO_CODE.
Proof.
  repeat (constructor;
          [ cbn; intros a b H; first [reflexivity | discriminate H] |]).
  constructor.
Qed.

(** A label of the ISO-tag shape is looked up to its first two code
    units, in the table or not. *)
Lemma iso_tag_prefix (normalized : string) :
  isoMatch normalized = true ->
  lookup normalized = Some (slice0 2 normalized).
Proof.
  intro Hiso. unfold lookup.
  destruct (Map_get normalized NAME_TO_CODE) as [code |] eqn:Hget.
  - apply Map_get_In in Hget.
    pose proof table_iso_names as Hall. rewrite Forall_forall in Hall.
    f_equal. exact (Hall _ Hget Hiso).
  - rewrite Hiso.
    destruct (Map_get (slice0 2 normalized) NAME_TO_CODE) as [code |] eqn:Hprefix;
      [| reflexivity].
    cbn [nullish]. apply Map_get_In in Hprefix.
    destruct normalized as [| a [| b rest]]; try discriminate Hiso.
    assert (Hcut : slice0 2 (String a (String b rest)) = String a (String b "")).
    { unfold slice0. cbn [substring]. now destruct rest. }
    rewrite Hcut in *.
    pose proof table_two_letter_names as Hall. rewrite Forall_forall in Hall.
    f_equal. exact (Hall _ Hprefix a b eq_refl).
Qed.

(** C7.  [resolveLanguageCode] is a function of its argument alone (as
    every definition here is) and looks the trimmed, lower-cased label
    up: "Hebrew (Modern)" gives "he" and "en-US" gives "en"; a label
    that, trimmed and lower-cased, is a name of the table gives the code
    the table has for it; a label that then has the ISO-tag shape gives
    its first two code units; a label that is in neither the name table
    nor of the ISO-tag shape gives no match; and two labels that agree
    once trimmed and lower-cased resolve alike. *)
Theorem resolveLanguageCode_normalizes :
  resolveLanguageCode (Some "Hebrew (Modern)") = Some "he"
  /\ resolveLanguageCode (Some "en-US") = Some "en"
  /\ (forall input code : string,
        Map_get (toLowerCase (trim input)) NAME_TO_CODE = Some code ->
        resolveLanguageCode (Some input) = Some code)
  /\ (forall input : string,
        isoMatch (toLowerCase (trim input)) = true ->
        resolveLanguageCode (Some input)
        = Some (slice0 2 (toLowerCase (trim input))))
  /\ (forall input : string,
        Map_get (toLowerCase (trim input)) NAME_TO_CODE = None ->
        isoMatch (toLowerCase (trim input)) = false ->
        resolveLanguageCode (Some input) = None)
  /\ (forall a b : string,
        toLowerCase (trim a) = toLowerCase (trim b) ->
        resolveLanguageCode (Some a) = resolveLanguageCode (Some b))
  /\ resolveLanguageCode None = None.
Proof.
  split; [reflexivity |]. split; [reflexivity |].
  split; [| split; [| split; [| split; [| reflexivity]]]].
  - intros input code Hname. rewrite resolve_by_lookup.
    unfold lookup. now rewrite Hname.
  - intros input Hiso. rewrite resolve_by_lookup.
    now apply iso_tag_prefix.
  - intros input Hname Hiso. rewrite resolve_by_lookup.
    unfold lookup. now rewrite Hname, Hiso.
  - intros a b Hab. now rewrite !resolve_by_lookup, Hab.
Qed.

Lemma resolveLanguageCode_normalizes_witness :
  resolveLanguageCode (Some "  HEBREW ") = Some "he"
  /\ resolveLanguageCode (Some " fr_CA") = Some "fr"
  /\ resolveLanguageCode (Some "Elvish (Sindarin)") = None
  /\ resolveLanguageCode (Some " Br Portuguese") = resolveLanguageCode (Some "br portuguese").
Proof.
  destruct resolveLanguageCode_normalizes
    as (_ & _ & Hname & Hiso & Hnone & Hsame & _).
  split; [| split; [| split]].
  - apply (Hname "  HEBREW " "he"). reflexivity.
  - apply (Hiso " fr_CA"). reflexivity.
  - apply (Hnone "Elvish (Sindarin)"); reflexivity.
  - apply (Hsame " Br Portuguese" "br portuguese"). reflexivity.
Defined.

(** A tag of the ISO shape whose prefix is not in the table resolves to
    the prefix itself. *)
Example unknown_iso_tag : resolveLanguageCode (Some "xx-YY") = Some "xx".
Proof. reflexivity. Qed.

End LanguageCodes.

(** ** The playback helper *)

Section Playback.
Import JS AudioPlayer Reported.

Lemma policy_rejection_test (e : thrown) :
  match e with
  | ThrownDOMException name _ =>
      String.eqb name "NotAllowedError" || String.eqb name "AbortError"
  | _ => false
  end = true <-> policy_rejection e.
Proof.
  unfold policy_rejection. destruct e as [n m | n m | v].
  - split; [discriminate | intros (? & ? & H & _); discriminate H].
  - rewrite orb_true_iff, !String.eqb_eq. split.
    + intro H. now exists n, m.
    + intros (n' & m' & H & Hn). now injection H as -> ->.
  - split; [discriminate | intros (? & ? & H & _); discriminate H].
Qed.

(** What [playElement] does, by the answer of [play()]. *)
Lemma playElement_outcome (element : HTMLAudioElement) (w : World) :
  match play_fails element with
  | None => playElement element w = (inr played, w)
  | Some e =>
      exists entry,
        playElement element w
        = (inr blocked,
           {| audioRef := audioRef w;
              console := (console w ++ [entry])%list |})
        /\ log_level entry = console_warn
        /\ (policy_rejection e -> entry = policy_warning)
        /\ (~ policy_rejection e -> entry = failure_warning e)
  end.
Proof.
  unfold playElement, try_catch, bind, play.
  destruct (play_fails element) as [e |]; [| reflexivity].
  unfold throw.
  destruct (match e with
            | ThrownDOMException name _ =>
                String.eqb name "NotAllowedError" || String.eqb name "AbortError"
            | _ => false
            end) eqn:Htest.
  - exists policy_warning. apply policy_rejection_test in Htest.
    split; [reflexivity |]. split; [reflexivity |].
    split; [reflexivity | intro H; contradiction].
  - exists (failure_warning e).
    assert (Hno : ~ policy_rejection e).
    { intro H. apply policy_rejection_test in H. congruence. }
    split; [reflexivity |]. split; [reflexivity |].
    split; [intro H; contradiction | reflexivity].
Qed.

(** Loading, with its failures swallowed, leaves the world as it was. *)
Lemma load_swallowed (element : HTMLAudioElement) (w : World) :
  try_catch (load element) (fun _ => ret tt) w = (inr tt, w).
Proof.
  unfold try_catch, load. now destruct (load_fails element).
Qed.

(** With no element attached nothing happens. *)
Lemma setSourceAndPlay_detached (source : string) (w : World) :
  audioRef w = None -> setSourceAndPlay source w = (inr idle, w).
Proof.
  intro Href. unfold setSourceAndPlay, bind, read_audioRef.
  now rewrite Href.
Qed.

(** With an element attached the call comes down to [playElement], run
    in a world whose console is untouched. *)
Lemma setSourceAndPlay_attached (source : string) (w : World)
  (element : HTMLAudioElement) :
  audioRef w = Some element ->
  exists w1 : World,
    console w1 = console w
    /\ setSourceAndPlay source w = playElement element w1.
Proof.
  intro Href.
  exists (snd ((if negb (String.eqb (src element) source)
                then set_src source else ret tt) w)).
  split.
  - now destruct (negb (String.eqb (src element) source)).
  - unfold setSourceAndPlay, bind at 1, read_audioRef. rewrite Href.
    unfold bind.
    assert (Hstep : forall w0,
               (if negb (String.eqb (src element) source)
                then set_src source else ret tt) w0
               = (inr tt,
                  snd ((if negb (String.eqb (src element) source)
                        then set_src source else ret tt) w0))).
    { intro w0. now destruct (negb (String.eqb (src element) source)). }
    rewrite Hstep, load_swallowed. reflexivity.
Qed.

(** [play(source)] never throws. *)
Lemma setSourceAndPlay_returns (source : string) (w : World) :
  exists (status : PlayResult) (w' : World),
    setSourceAndPlay source w = (inr status, w').
Proof.
  destruct (audioRef w) as [element |] eqn:Href.
  - destruct (setSourceAndPlay_attached source w element Href)
      as (w1 & _ & ->).
    pose proof (playElement_outcome element w1) as Hplay.
    destruct (play_fails element) as [e |].
    + destruct Hplay as (entry & -> & _). eauto.
    + rewrite Hplay. eauto.
  - rewrite (setSourceAndPlay_detached source w Href). eauto.
Qed.

(** C9.  Playback outcome classification.  [play(source)] always returns
    (no value is ever thrown to the caller): "idle" when no audio
    element is attached; "played" when the element's [play()] resolves;
    "blocked", with one warning written to the console, when [play()]
    rejects, be it a [NotAllowedError] or [AbortError] DOMException (the
    policy warning) or anything else (the failure warning). *)
Theorem playback_outcome (source : string) (w : World) :
  exists (status : PlayResult) (w' : World),
    setSourceAndPlay source w = (inr status, w')
    /\ (audioRef w = None -> status = idle /\ console w' = console w)
    /\ (forall element,
          audioRef w = Some element -> play_fails element = None ->
          status = played /\ console w' = console w)
    /\ (forall element e,
          audioRef w = Some element -> play_fails element = Some e ->
          status = blocked
          /\ (policy_rejection e ->
              console w' = (console w ++ [policy_warning])%list)
          /\ (~ policy_rejection e ->
              console w' = (console w ++ [failure_warning e])%list)).
Proof.
  destruct (audioRef w) as [element |] eqn:Href.
  - destruct (setSourceAndPlay_attached source w element Href)
      as (w1 & Hconsole & ->).
    pose proof (playElement_outcome element w1) as Hplay.
    destruct (play_fails element) as [e |] eqn:Hfails.
    + destruct Hplay as (entry & Hrun & _ & Hpolicy & Hother).
      rewrite Hrun. eexists. eexists. split; [reflexivity |].
      split; [discriminate |]. split.
      * intros el Hel Hnone. injection Hel as <-. congruence.
      * intros el e' Hel He'. injection Hel as <-.
        rewrite Hfails in He'. injection He' as <-.
        cbn [console]. rewrite Hconsole.
        split; [reflexivity |].
        split; intro H; [now rewrite (Hpolicy H) | now rewrite (Hother H)].
    + rewrite Hplay. eexists. eexists. split; [reflexivity |].
      split; [discriminate |]. split.
      * intros el Hel _. injection Hel as <-. now split.
      * intros el e Hel He. injection Hel as <-. congruence.
  - rewrite (setSourceAndPlay_detached source w Href).
    exists idle, w. split; [reflexivity |].
    split; [now split |].
    split; intros; discriminate.
Qed.

Lemma playback_outcome_witness :
  fst (setSourceAndPlay "blob:321"
         (world_with
            (Some (element_with "" None
                     (Some (ThrownDOMException "NotAllowedError" "Blocked"))))))
  = inr blocked
  /\ fst (setSourceAndPlay "blob:123" (world_with None)) = inr idle.
Proof.
  split.
  - destruct (playback_outcome "blob:321"
                (world_with
                   (Some (element_with "" None
                            (Some (ThrownDOMException "NotAllowedError" "Blocked"))))))
      as (status & w' & Hrun & _ & _ & Hblocked).
    rewrite Hrun.
    destruct (Hblocked _ _ eq_refl eq_refl) as (-> & _).
    reflexivity.
  - destruct (playback_outcome "blob:123" (world_with None))
      as (status & w' & Hrun & Hidle & _).
    rewrite Hrun.
    destruct (Hidle eq_refl) as (-> & _).
    reflexivity.
Defined.

(** The scenarios of the hook's tests. *)
Example plays_a_provided_source :
  setSourceAndPlay "blob:123" (world_with (Some (element_with "" None None)))
  = (inr played, world_with (Some (element_with "blob:123" None None))).
Proof. reflexivity. Qed.

Example blocked_when_autoplay_fails :
  setSourceAndPlay "blob:321"
    (world_with
       (Some (element_with "" None
                (Some (ThrownDOMException "NotAllowedError" "Blocked")))))
  = (inr blocked,
     {| audioRef :=
          Some (element_with "blob:321" None
                  (Some (ThrownDOMException "NotAllowedError" "Blocked")));
        console := [ policy_warning ] |}).
Proof. reflexivity. Qed.

Example replays_from_the_beginning :
  replay
    (world_with
       (Some {| src := "blob:999"; resolve_url := page_url;
                currentTime := Finite 5%Q;
                load_fails := None; seek_fails := None; play_fails := None |}))
  = (inr played, world_with (Some (element_with "blob:999" None None))).
Proof. reflexivity. Qed.

End Playback.

(** ** The render history *)

Section History.
Import JS HttpClient Studio Reported.

Variable toLocaleString : N -> string.

Lemma firstn_app_firstn {A : Type} (n : nat) (a b : list A) :
  firstn n (a ++ firstn n b) = firstn n (a ++ b).
Proof.
  rewrite !firstn_app, firstn_firstn.
  f_equal. f_equal. lia.
Qed.

(** One submission: the history gains the rendered entry in front and is
    cut to [MAX_HISTORY], or stays as it was. *)
Lemma handleSubmit_history (sub : State * Outside) (h : list HistoryItem) :
  history (handleSubmit toLocaleString (snd sub) (with_history (fst sub) h))
  = firstn MAX_HISTORY (rendered sub ++ h)
    \/ (rendered sub = [] /\
        history (handleSubmit toLocaleString (snd sub) (with_history (fst sub) h))
        = h).
Proof.
  destruct sub as [form o]. unfold rendered, succeeded, handleSubmit.
  cbn [fst snd]. cbn [with_history set_history selectedVoiceId language text].
  destruct (truthy (selectedVoiceId form)); cbn [negb andb];
    [| right; split; reflexivity].
  destruct (getCharacterLimit (language form) <? JS.length (text form))%N;
    cbn [negb andb]; [right; split; reflexivity |].
  unfold handleSubmit_try.
  cbn [set_error set_isLoading synthesize objectURL audio selectedVoiceId
       voices text history].
  destruct (synthesize o) as [e | response]; [right; split; reflexivity |].
  destruct (ok response); cbn [negb];
    [| destruct (objectURL o); right; split; reflexivity].
  destruct (objectURL o) as [e | dataUrl]; [right; split; reflexivity |].
  destruct (setSourceAndPlay_returns dataUrl (audio o)) as (status & w' & Hrun).
  rewrite Hrun. left.
  destruct status; reflexivity.
Qed.

Lemma rendered_short (sub : State * Outside) : List.length (rendered sub) <= 1.
Proof. unfold rendered. destruct (succeeded sub); simpl; lia. Qed.

Lemma session_cons (sub : State * Outside) (subs : list (State * Outside))
  (h : list HistoryItem) :
  session toLocaleString (sub :: subs) h
  = session toLocaleString subs
      (history (handleSubmit toLocaleString (snd sub) (with_history (fst sub) h))).
Proof. reflexivity. Qed.

(** A session keeps the five most recent renders, newest first. *)
Lemma session_history (subs : list (State * Outside)) :
  forall h : list HistoryItem,
    List.length h <= MAX_HISTORY ->
    session toLocaleString subs h
    = firstn MAX_HISTORY (rev (flat_map rendered subs) ++ h).
Proof.
  induction subs as [| sub subs IH]; intros h Hh.
  - unfold session. cbn [fold_left flat_map rev app].
    symmetry. now apply firstn_all2.
  - rewrite session_cons. cbn [flat_map].
    destruct (handleSubmit_history sub h) as [Hstep | [Hnone Hstep]];
      rewrite Hstep.
    + rewrite IH by (rewrite length_firstn; apply Nat.le_min_l).
      rewrite firstn_app_firstn, rev_app_distr, <- app_assoc.
      f_equal. f_equal.
      pose proof (rendered_short sub) as Hone.
      destruct (rendered sub) as [| entry [| ? ?]]; simpl in *;
        [reflexivity | reflexivity | lia].
    + rewrite IH by assumption. now rewrite Hnone.
Qed.

Lemma rendered_all (subs : list (State * Outside)) :
  Forall (fun sub => succeeded sub = true) subs ->
  map item_text (flat_map rendered subs) = map (fun sub => text (fst sub)) subs
  /\ map voiceName (flat_map rendered subs)
     = map (fun sub => selected_voice_name (fst sub)) subs.
Proof.
  induction 1 as [| sub subs Hsub Hsubs [IHt IHv]]; [now split |].
  cbn [flat_map map]. rewrite !map_app, IHt, IHv.
  unfold rendered. rewrite Hsub. now split.
Qed.

(** C8.  History invariant.  Starting from the empty history, after [N]
    successful syntheses in a row the history holds [min N 5] items,
    newest first: their texts and voice names are those of the
    submissions read backwards and cut to five; so for [N > 5] there are
    exactly five, those of the last five submissions, each overflow
    having dropped the oldest entry. *)
Theorem history_invariant (subs : list (State * Outside)) :
  Forall (fun sub => succeeded sub = true) subs ->
  List.length (session toLocaleString subs []) = Nat.min (List.length subs) 5
  /\ map item_text (session toLocaleString subs [])
     = firstn 5 (rev (map (fun sub => text (fst sub)) subs))
  /\ map voiceName (session toLocaleString subs [])
     = firstn 5 (rev (map (fun sub => selected_voice_name (fst sub)) subs))
  /\ (5 < List.length subs ->
      List.length (session toLocaleString subs []) = 5
      /\ map item_text (session toLocaleString subs [])
         = rev (skipn (List.length subs - 5) (map (fun sub => text (fst sub)) subs))
      /\ map voiceName (session toLocaleString subs [])
         = rev (skipn (List.length subs - 5)
                  (map (fun sub => selected_voice_name (fst sub)) subs))).
Proof.
  intro Hall.
  destruct (rendered_all subs Hall) as [Htexts Hvoices].
  rewrite session_history by (simpl; lia).
  rewrite app_nil_r. unfold MAX_HISTORY.
  assert (Hlen : List.length (flat_map rendered subs) = List.length subs).
  { rewrite <- (length_map item_text), Htexts. apply length_map. }
  assert (Ht : map item_text (firstn 5 (rev (flat_map rendered subs)))
               = firstn 5 (rev (map (fun sub => text (fst sub)) subs))).
  { now rewrite <- firstn_map, map_rev, Htexts. }
  assert (Hv : map voiceName (firstn 5 (rev (flat_map rendered subs)))
               = firstn 5 (rev (map (fun sub => selected_voice_name (fst sub)) subs))).
  { now rewrite <- firstn_map, map_rev, Hvoices. }
  assert (Hn : List.length (firstn 5 (rev (flat_map rendered subs)))
               = Nat.min (List.length subs) 5).
  { rewrite length_firstn, length_rev, Hlen. apply Nat.min_comm. }
  split; [exact Hn |]. split; [exact Ht |]. split; [exact Hv |].
  intro Hmany. split; [rewrite Hn; lia |].
  rewrite Ht, Hv, !firstn_rev, !length_map. now split.
Qed.

End History.

Lemma history_invariant_witness :
  Forall (fun sub => Reported.succeeded sub = true) Reported.seven_submissions
  /\ map Studio.item_text
       (Studio.session (fun _ => "30,000") Reported.seven_submissions [])
     = [ "7"; "6"; "5"; "4"; "3" ].
Proof.
  assert (Hall : Forall (fun sub => Reported.succeeded sub = true)
                        Reported.seven_submissions)
    by (repeat constructor).
  split; [exact Hall |].
  destruct (history_invariant (fun _ => "30,000") Reported.seven_submissions Hall)
    as (_ & Htexts & _).
  rewrite Htexts. reflexivity.
Defined.

(* ================================================================== *)
(** * Further properties of the sources *)
(* ================================================================== *)

(** ** De-duplicating the voice list *)

Section Dedupe.
Import JS Studio.

Lemma seen_In (k : string) (seen : list string) :
  existsb (String.eqb k) seen = true <-> In k seen.
Proof.
  rewrite existsb_exists. split.
  - intros (x & Hx & Heq). apply String.eqb_eq in Heq. now subst.
  - intro H. exists k. split; [assumption | apply String.eqb_refl].
Qed.

Lemma dedupe_from_fresh (voices : list VoiceOption) :
  forall (seen : list string) (v : VoiceOption),
    In v (dedupe_from seen voices) -> ~ In (id v) seen.
Proof.
  induction voices as [| voice rest IH]; intros seen v; simpl; [tauto |].
  destruct (existsb (String.eqb (id voice)) seen) eqn:E.
  - apply IH.
  - intros [<- | Hin].
    + intro H. apply seen_In in H. congruence.
    + intro H. apply (IH _ _ Hin). now right.
Qed.

Lemma dedupe_from_distinct (voices : list VoiceOption) :
  forall seen : list string, NoDup (map id (dedupe_from seen voices)).
Proof.
  induction voices as [| voice rest IH]; intro seen; simpl; [constructor |].
  destruct (existsb (String.eqb (id voice)) seen); [apply IH |].
  simpl. constructor; [| apply IH].
  intro Hin. apply in_map_iff in Hin. destruct Hin as (v & Hid & Hv).
  apply dedupe_from_fresh in Hv. apply Hv. left. now symmetry.
Qed.

(** X1.  After [dedupeVoices] no two voices share an id. *)
Theorem dedupeVoices_distinct_ids (voices : list VoiceOption) :
  NoDup (map id (dedupeVoices voices)).
Proof. apply dedupe_from_distinct. Qed.

Lemma dedupe_from_find (k : string) (voices : list VoiceOption) :
  forall seen : list string,
    ~ In k seen ->
    find (fun v => String.eqb (id v) k) (dedupe_from seen voices)
    = find (fun v => String.eqb (id v) k) voices.
Proof.
  induction voices as [| voice rest IH]; intros seen Hk; simpl; [reflexivity |].
  destruct (existsb (String.eqb (id voice)) seen) eqn:E.
  - apply seen_In in E.
    destruct (String.eqb (id voice) k) eqn:Ek.
    + apply String.eqb_eq in Ek. subst. contradiction.
    + now apply IH.
  - simpl. destruct (String.eqb (id voice) k) eqn:Ek; [reflexivity |].
    apply IH. intros [H | H]; [| contradiction].
    apply String.eqb_neq in Ek. contradiction.
Qed.

(** X2.  [dedupeVoices] loses no id and keeps, for each id, the first
    voice that carries it: looking a voice up by id gives the same voice
    before and after. *)
Theorem dedupeVoices_first_wins (voices : list VoiceOption) (k : string) :
  find (fun v => String.eqb (id v) k) (dedupeVoices voices)
  = find (fun v => String.eqb (id v) k) voices.
Proof. apply dedupe_from_find. intros []. Qed.

Lemma dedupe_from_unchanged (voices : list VoiceOption) :
  forall seen : list string,
    NoDup (map id voices) ->
    (forall v, In v voices -> ~ In (id v) seen) ->
    dedupe_from seen voices = voices.
Proof.
  induction voices as [| voice rest IH]; intros seen Hdistinct Hfresh; simpl;
    [reflexivity |].
  inversion Hdistinct as [| ? ? Hhead Htail]; subst.
  destruct (existsb (String.eqb (id voice)) seen) eqn:E.
  - apply seen_In in E. exfalso. apply (Hfresh voice); [now left | assumption].
  - f_equal. apply IH; [assumption |].
    intros v Hv [H | H].
    + apply Hhead. rewrite H. now apply in_map.
    + apply (Hfresh v); [now right | assumption].
Qed.

(** X3.  [dedupeVoices] is idempotent: a list it produced passes through
    it unchanged. *)
Theorem dedupeVoices_idempotent (voices : list VoiceOption) :
  dedupeVoices (dedupeVoices voices) = dedupeVoices voices.
Proof.
  apply dedupe_from_unchanged.
  - apply dedupe_from_distinct.
  - intros v _ [].
Qed.

End Dedupe.

(** ** Choosing the voice *)

Section VoiceChoice.
Import JS Studio StudioVoices.

Lemma id_listed (k : string) (voices : list VoiceOption) :
  existsb (fun voice => String.eqb (id voice) k) voices = true
  <-> In k (map id voices).
Proof.
  rewrite existsb_exists, in_map_iff. split.
  - intros (v & Hv & Heq). apply String.eqb_eq in Heq. now exists v.
  - intros (v & Heq & Hv). exists v. split; [assumption |].
    now apply String.eqb_eq.
Qed.

Lemma selection_effect_listed (shown : list VoiceOption) (selected : string) :
  shown <> [] -> In (selection_effect shown selected) (map id shown).
Proof.
  intro Hshown. unfold selection_effect.
  destruct shown as [| first rest]; [congruence |].
  destruct (negb (truthy selected)); cbn [orb]; [now left |].
  destruct (existsb (fun voice => String.eqb (id voice) selected)
                    (first :: rest)) eqn:E; cbn [negb]; [| now left].
  now apply id_listed.
Qed.

(** X4.  The effect that repairs the selection: whenever the filtered
    list is not empty the selected id afterwards is the id of a listed
    voice; a non-empty id that is listed already is left alone; and
    running the effect again changes nothing. *)
Theorem selection_effect_repairs (shown : list VoiceOption) (selected : string) :
  (shown <> [] -> In (selection_effect shown selected) (map id shown))
  /\ (selected <> "" -> In selected (map id shown) ->
      selection_effect shown selected = selected)
  /\ selection_effect shown (selection_effect shown selected)
     = selection_effect shown selected.
Proof.
  split; [apply selection_effect_listed |]. split.
  - intros Hne Hin. unfold selection_effect.
    destruct shown as [| first rest]; [reflexivity |].
    apply truthy_nonempty in Hne. apply id_listed in Hin.
    now rewrite Hne, Hin.
  - destruct shown as [| first rest]; [reflexivity |].
    assert (Hfirst : selection_effect (first :: rest) (id first) = id first).
    { unfold selection_effect.
      destruct (negb (truthy (id first))
                || negb (existsb (fun voice => String.eqb (id voice) (id first))
                                 (first :: rest))); reflexivity. }
    assert (Hsel : selection_effect (first :: rest) selected
                   = if negb (truthy selected)
                        || negb (existsb
                                   (fun voice => String.eqb (id voice) selected)
                                   (first :: rest))
                     then id first else selected) by reflexivity.
    destruct (negb (truthy selected)
              || negb (existsb (fun voice => String.eqb (id voice) selected)
                               (first :: rest))) eqn:E.
    + rewrite Hsel. exact Hfirst.
    + now rewrite !Hsel.
Qed.

Lemma selection_effect_repairs_witness :
  selection_effect three_voices "v2" = "v2"
  /\ In (selection_effect three_voices "gone") (map id three_voices).
Proof.
  split.
  - apply (proj1 (proj2 (selection_effect_repairs three_voices "v2"))).
    + discriminate.
    + right. left. reflexivity.
  - apply (proj1 (selection_effect_repairs three_voices "gone")).
    discriminate.
Defined.

Lemma filtered_speaks (language : string) (voices : list VoiceOption)
  (v : VoiceOption) :
  language <> "auto" ->
  In v (filteredVoices language voices) ->
  In v voices /\ languageCode v = Some language.
Proof.
  intros Hlang. unfold filteredVoices.
  apply String.eqb_neq in Hlang. rewrite Hlang.
  intro Hin. apply filter_In in Hin. destruct Hin as [Hin Hspeaks].
  split; [assumption |]. unfold speaks in Hspeaks.
  destruct (languageCode v) as [c |]; [| discriminate].
  apply String.eqb_eq in Hspeaks. now subst.
Qed.

(** X5.  With a language other than "auto" chosen and at least one
    voice of that language loaded, the selection left by the repairing
    effect is a loaded voice of that language, whatever was selected
    before. *)
Theorem selected_voice_speaks_language
  (language selected : string) (voices : list VoiceOption) :
  language <> "auto" ->
  filteredVoices language voices <> [] ->
  exists v : VoiceOption,
    In v voices
    /\ id v = selection_effect (filteredVoices language voices) selected
    /\ languageCode v = Some language.
Proof.
  intros Hlang Hshown.
  pose proof (selection_effect_listed _ selected Hshown) as Hin.
  apply in_map_iff in Hin. destruct Hin as (v & Hid & Hv).
  destruct (filtered_speaks language voices v Hlang Hv) as [Hloaded Hcode].
  now exists v.
Qed.

Lemma selected_voice_speaks_language_witness :
  exists v : VoiceOption,
    In v three_voices
    /\ id v = selection_effect (filteredVoices "he" three_voices) "v1"
    /\ languageCode v = Some "he".
Proof.
  apply selected_voice_speaks_language; discriminate.
Defined.

(** X6.  When the voices arrive and nothing is selected yet, the stored
    list has distinct ids and the voice selected is one of the stored
    list; it is a voice of the chosen language whenever the stored list
    has one.  A selection made before is kept. *)
Theorem loadVoices_selection
  (language selected : string) (payload_voices : list VoiceOption) :
  NoDup (map id (fst (loadVoices_arrived language selected payload_voices)))
  /\ (selected <> "" ->
      snd (loadVoices_arrived language selected payload_voices) = selected)
  /\ (selected = "" -> payload_voices <> [] ->
      exists v : VoiceOption,
        In v (fst (loadVoices_arrived language selected payload_voices))
        /\ id v = snd (loadVoices_arrived language selected payload_voices)
        /\ ((exists w, In w (fst (loadVoices_arrived language selected
                                    payload_voices))
                       /\ speaks language w = true) ->
            speaks language v = true)).
Proof.
  unfold loadVoices_arrived. cbn [fst snd].
  split; [apply dedupe_from_distinct |]. split.
  - intro Hne. apply truthy_nonempty in Hne. rewrite Hne.
    now destruct (dedupeVoices payload_voices).
  - intros -> Hpayload. cbn [truthy negb].
    destruct (dedupeVoices payload_voices) as [| first rest] eqn:Hnormalized.
    + exfalso. destruct payload_voices as [| p ps]; [congruence |].
      unfold dedupeVoices in Hnormalized. simpl in Hnormalized.
      discriminate Hnormalized.
    + destruct (find (speaks language) (first :: rest)) as [match_ |] eqn:Hfind;
        cbn [nullish].
      * apply find_some in Hfind. destruct Hfind as [Hin Hspeaks].
        exists match_. now repeat split.
      * exists first. split; [now left |]. split; [reflexivity |].
        intros (w & Hw & Hspeaks).
        pose proof (find_none _ _ Hfind w Hw) as Hnot. congruence.
Qed.

Lemma loadVoices_selection_witness :
  snd (loadVoices_arrived "he" "v1" three_voices) = "v1"
  /\ exists v : VoiceOption,
       In v (fst (loadVoices_arrived "he" "" three_voices))
       /\ id v = snd (loadVoices_arrived "he" "" three_voices)
       /\ ((exists w, In w (fst (loadVoices_arrived "he" "" three_voices))
                      /\ speaks "he" w = true) ->
           speaks "he" v = true).
Proof.
  split.
  - apply (proj1 (proj2 (loadVoices_selection "he" "v1" three_voices))).
    discriminate.
  - apply (proj2 (proj2 (loadVoices_selection "he" "" three_voices)));
      [reflexivity | discriminate].
Defined.

End VoiceChoice.

(** ** Reading an error message off a response *)

Section ErrorMessages.
Import JS HttpClient.

Lemma extractFromPayload_nonempty (payload : option json) (m : string) :
  extractFromPayload payload = Some m -> m <> "".
Proof.
  unfold extractFromPayload.
  destruct payload as [[| | | s | | members] |]; try discriminate.
  - destruct (0 <? JS.length (trim s))%N eqn:E; [| discriminate].
    intro H. injection H as <-. intro Hs. rewrite Hs in E. discriminate E.
  - destruct (assoc "error" members) as [[| | | s | |] |]; try discriminate.
    destruct (0 <? JS.length (trim s))%N eqn:E; [| discriminate].
    intro H. injection H as <-. intro Hs. rewrite Hs in E. discriminate E.
Qed.

Lemma positive_length (s : string) : s <> "" -> (0 <? JS.length s)%N = true.
Proof.
  intro Hs. destruct s; [congruence |].
  unfold JS.length. simpl String.length. apply N.ltb_lt. lia.
Qed.

(** X7.  [getErrorMessage] never returns an empty message when its
    fallback is not empty; and a payload whose [error] member is a
    string that is not blank decides the message: it is that string,
    trimmed, whatever the response and the fallback. *)
Theorem getErrorMessage_chooses
  (response : option ClientResponse) (payload : option json)
  (fallback : string) :
  (fallback <> "" -> getErrorMessage response payload fallback <> "")
  /\ (forall members e,
        payload = Some (JObject members) ->
        assoc "error" members = Some (JString e) ->
        trim e <> "" ->
        getErrorMessage response payload fallback = trim e).
Proof.
  split.
  - intro Hfallback. unfold getErrorMessage.
    assert (Hstatus :
              match option_map (fun r => trim (statusText r)) response with
              | Some st => if truthy st then st else fallback
              | None => fallback
              end <> "").
    { destruct (option_map (fun r => trim (statusText r)) response) as [st |];
        [| assumption].
      destruct (truthy st) eqn:E; [now apply truthy_nonempty | assumption]. }
    destruct (extractFromPayload payload) as [m |] eqn:Hextract;
      [| assumption].
    destruct (truthy m) eqn:E; [now apply truthy_nonempty | assumption].
  - intros members e -> Herror Hblank. unfold getErrorMessage, extractFromPayload.
    rewrite Herror, (positive_length _ Hblank).
    apply truthy_nonempty in Hblank. now rewrite Hblank.
Qed.

Lemma getErrorMessage_chooses_witness :
  getErrorMessage None None "Request failed" <> ""
  /\ getErrorMessage None
       (Some (JObject [ ("error", JString "  Invalid API key ") ]))
       "Request failed"
     = "Invalid API key".
Proof.
  split.
  - apply (proj1 (getErrorMessage_chooses None None "Request failed")).
    discriminate.
  - apply (proj2 (getErrorMessage_chooses None
                    (Some (JObject [ ("error", JString "  Invalid API key ") ]))
                    "Request failed")
             [ ("error", JString "  Invalid API key ") ] "  Invalid API key ").
    + reflexivity.
    + reflexivity.
    + discriminate.
Defined.

End ErrorMessages.

(** ** Replaying, and the source after a play *)

Section Replay.
Import JS AudioPlayer Reported.

Lemma seek_swallowed (element : HTMLAudioElement) (w : World) :
  exists w1 : World,
    try_catch (set_currentTime element zero) (fun _ => ret tt) w = (inr tt, w1)
    /\ console w1 = console w
    /\ option_map src (audioRef w1) = option_map src (audioRef w)
    /\ (seek_fails element = None ->
        option_map currentTime (audioRef w1)
        = option_map (fun _ => zero) (audioRef w)).
Proof.
  unfold try_catch, set_currentTime.
  destruct (seek_fails element) as [e |].
  - exists w.
    split; [reflexivity |]. split; [reflexivity |].
    split; [reflexivity | discriminate].
  - eexists. split; [reflexivity |]. cbn [console audioRef].
    split; [reflexivity |].
    split; [now destruct (audioRef w) | intros _; now destruct (audioRef w)].
Qed.

(** X8.  [replay()] never throws.  It answers "idle", touching nothing,
    when no element is attached or the element has no source; otherwise
    it answers "played" or "blocked" as the element's [play()] resolves
    or rejects, keeps the source, and has moved the position to 0
    unless the element refused the move (which is ignored). *)
Theorem replay_outcome (w : World) :
  exists (status : PlayResult) (w' : World),
    replay w = (inr status, w')
    /\ (audioRef w = None -> status = idle /\ w' = w)
    /\ (forall element,
          audioRef w = Some element -> src element = "" ->
          status = idle /\ w' = w)
    /\ (forall element,
          audioRef w = Some element -> src element <> "" ->
          (play_fails element = None -> status = played)
          /\ (play_fails element <> None -> status = blocked)
          /\ option_map src (audioRef w') = Some (src element)
          /\ (seek_fails element = None ->
              option_map currentTime (audioRef w') = Some zero)).
Proof.
  unfold replay, bind at 1, read_audioRef.
  destruct (audioRef w) as [element |] eqn:Href.
  - destruct (truthy (src element)) eqn:Hsrc; cbn [negb].
    + destruct (seek_swallowed element w) as (w1 & Hseek & _ & Hsame & Hzero).
      unfold bind. rewrite Hseek.
      rewrite Href in Hsame, Hzero. cbn [option_map] in Hsame, Hzero.
      pose proof (playElement_outcome element w1) as Hplay.
      destruct (play_fails element) as [e |] eqn:Hfails.
      * destruct Hplay as (entry & Hrun & _).
        rewrite Hrun. eexists. eexists. split; [reflexivity |].
        split; [discriminate |]. split.
        -- intros el Hel Hempty. injection Hel as <-.
           rewrite Hempty in Hsrc. discriminate Hsrc.
        -- intros el Hel _. injection Hel as <-. cbn [audioRef].
           repeat split; try assumption; congruence.
      * rewrite Hplay. eexists. eexists. split; [reflexivity |].
        split; [discriminate |]. split.
        -- intros el Hel Hempty. injection Hel as <-.
           rewrite Hempty in Hsrc. discriminate Hsrc.
        -- intros el Hel _. injection Hel as <-.
           repeat split; try assumption; congruence.
    + exists idle, w. split; [reflexivity |].
      split; [discriminate |]. split.
      * intros el Hel _. now split.
      * intros el Hel Hne. injection Hel as <-.
        apply truthy_nonempty in Hne. congruence.
  - exists idle, w. split; [reflexivity |].
    split; [now split |]. split; intros; discriminate.
Qed.

Lemma replay_outcome_witness :
  fst (replay (world_with (Some (element_with "blob:999" None None))))
  = inr played.
Proof.
  destruct (replay_outcome (world_with (Some (element_with "blob:999" None None))))
    as (status & w' & Hrun & _ & _ & Hattached).
  rewrite Hrun.
  destruct (Hattached _ eq_refl ltac:(discriminate)) as (Hplayed & _).
  now rewrite (Hplayed eq_refl).
Defined.

(** What the element's source reads after [play(source)]. *)
Lemma src_after_play (source : string) (w : World) (element : HTMLAudioElement) :
  audioRef w = Some element ->
  option_map src (audioRef (snd (setSourceAndPlay source w)))
  = Some (if String.eqb (src element) source
          then source else resolve_url element source).
Proof.
  intro Href.
  unfold setSourceAndPlay, bind at 1, read_audioRef. rewrite Href.
  unfold bind.
  assert (Hstep : exists w1,
             (if negb (String.eqb (src element) source)
              then set_src source else ret tt) w = (inr tt, w1)
             /\ option_map src (audioRef w1)
                = Some (if String.eqb (src element) source
                        then source else resolve_url element source)).
  { destruct (String.eqb (src element) source) eqn:E; cbn [negb].
    - exists w. split; [reflexivity |]. rewrite Href. cbn [option_map].
      apply String.eqb_eq in E. now rewrite E.
    - eexists. split; [reflexivity |]. cbn [audioRef]. now rewrite Href. }
  destruct Hstep as (w1 & -> & Hsrc). rewrite load_swallowed.
  pose proof (playElement_outcome element w1) as Hplay.
  destruct (play_fails element) as [e |].
  - destruct Hplay as (entry & -> & _). exact Hsrc.
  - rewrite Hplay. exact Hsrc.
Qed.

(** X9.  After [play(source)] on an attached element, whether [load()]
    threw or not and whatever came of [play()]: an element whose source
    read otherwise reads [source] as resolved against its document; an
    element whose source read [source] already still does; so the
    source reads [source] itself whenever [source] is read back as it
    is written (an absolute URL, as the object URLs the studio passes
    are). *)
Theorem play_sets_source (source : string) (w : World) (element : HTMLAudioElement) :
  audioRef w = Some element ->
  (src element <> source ->
   option_map src (audioRef (snd (setSourceAndPlay source w)))
   = Some (resolve_url element source))
  /\ (src element = source ->
      option_map src (audioRef (snd (setSourceAndPlay source w))) = Some source)
  /\ (resolve_url element source = source ->
      option_map src (audioRef (snd (setSourceAndPlay source w))) = Some source).
Proof.
  intro Href. rewrite (src_after_play source w element Href).
  destruct (String.eqb (src element) source) eqn:E.
  - apply String.eqb_eq in E.
    split; [intro H; contradiction | split; reflexivity].
  - apply String.eqb_neq in E.
    split; [reflexivity | split; [intro H; contradiction |]].
    intro H. now rewrite H.
Qed.

Lemma play_sets_source_witness :
  option_map src
    (audioRef
       (snd (setSourceAndPlay "blob:123"
               (world_with
                  (Some (element_with "blob:old"
                           (Some (ThrownError "Error" "load failed"))
                           (Some (ThrownError "Error" "decode failed"))))))))
  = Some "blob:123"
  /\ option_map src
       (audioRef
          (snd (setSourceAndPlay "clip.mp3"
                  (world_with (Some (element_with "blob:old" None None))))))
     = Some "https://tts.example/clip.mp3".
Proof.
  split.
  - refine (proj2 (proj2 (play_sets_source "blob:123"
                            (world_with
                               (Some (element_with "blob:old"
                                        (Some (ThrownError "Error" "load failed"))
                                        (Some (ThrownError "Error" "decode failed")))))
                            (element_with "blob:old"
                               (Some (ThrownError "Error" "load failed"))
                               (Some (ThrownError "Error" "decode failed")))
                            eq_refl)) _).
    reflexivity.
  - refine (proj1 (play_sets_source "clip.mp3"
                     (world_with (Some (element_with "blob:old" None None)))
                     (element_with "blob:old" None None) eq_refl) _).
    discriminate.
Defined.

End Replay.

(** ** Submitting the form *)

Section Submitting.
Import JS HttpClient Studio StudioView Reported.

Variable toLocaleString : N -> string.


Lemma getErrorMessage_nonempty
  (response : option ClientResponse) (payload : option json)
  (fallback : string) :
  fallback <> "" -> truthy (getErrorMessage response payload fallback) = true.
Proof.
  intro Hfallback. apply truthy_nonempty in Hfallback.
  unfold getErrorMessage.
  assert (Hstatus :
            truthy match option_map (fun r => trim (statusText r)) response with
                   | Some st => if truthy st then st else fallback
                   | None => fallback
                   end = true).
  { destruct (option_map (fun r => trim (statusText r)) response) as [st |];
      [| assumption].
    now destruct (truthy st) eqn:E. }
  destruct (extractFromPayload payload) as [m |]; [| assumption].
  now destruct (truthy m) eqn:E.
Qed.

(** The notice of a state whose error is [m]: none exactly when [m] is
    empty. *)
Lemma notice_of_message (s : State) (m : string) :
  error s = Some m ->
  (m <> "" -> ErrorNotice s = Some m)
  /\ (ErrorNotice s = None <-> m = "").
Proof.
  intro Herror. unfold ErrorNotice. rewrite Herror.
  destruct m as [| c rest]; cbn [truthy].
  - split; [intro H; now elim H | split; reflexivity].
  - split; [reflexivity | split; discriminate].
Qed.

(** X11.  A submission that passes the two guards always ends with the
    loading flag cleared.  If the synthesis failed, the history and the
    audio source are untouched and the error is the failure's message:
    for an answer that is not ok, the message read off the response,
    which is never empty, so that a notice shows it; for a value thrown
    by the request or by the making of the object URL, its message when
    it is an [Error] and "Speech synthesis failed." otherwise, and then
    no notice is rendered exactly when that message is empty.  If the
    synthesis succeeded, the audio source is the new object URL and the
    only message that can be shown is the "tap play" notice of a
    blocked playback. *)
Theorem handleSubmit_settles (o : Outside) (s : State) :
  selectedVoiceId s <> "" ->
  (JS.length (text s) <= getCharacterLimit (language s))%N ->
  isLoading (handleSubmit toLocaleString o s) = false
  /\ (succeeded (s, o) = false ->
      history (handleSubmit toLocaleString o s) = history s
      /\ audioSrc (handleSubmit toLocaleString o s) = audioSrc s
      /\ (forall response,
            synthesize o = inr response -> ok response = false ->
            ErrorNotice (handleSubmit toLocaleString o s)
            = Some (getErrorMessage (Some response) (payload response)
                                    "Speech synthesis failed."))
      /\ (forall e,
            synthesize o = inl e
            \/ (exists response,
                   synthesize o = inr response /\ ok response = true
                   /\ objectURL o = inl e) ->
            error (handleSubmit toLocaleString o s)
            = Some (message_or "Speech synthesis failed." e)
            /\ (ErrorNotice (handleSubmit toLocaleString o s) = None
                <-> message_or "Speech synthesis failed." e = "")))
  /\ (succeeded (s, o) = true ->
      (error (handleSubmit toLocaleString o s) = None
       \/ error (handleSubmit toLocaleString o s) = Some AUDIO_BLOCKED_MESSAGE)
      /\ exists dataUrl,
           objectURL o = inr dataUrl
           /\ audioSrc (handleSubmit toLocaleString o s) = Some dataUrl).
Proof.
  intros Hvoice Hfits. unfold handleSubmit, succeeded. cbn [fst snd].
  apply truthy_nonempty in Hvoice. rewrite Hvoice.
  assert (Hlimit : (getCharacterLimit (language s) <? JS.length (text s))%N = false)
    by (apply N.ltb_ge; exact Hfits).
  rewrite Hlimit. cbn [negb andb].
  unfold handleSubmit_try.
  cbn [set_error set_isLoading synthesize objectURL audio selectedVoiceId
       voices text history].
  destruct (synthesize o) as [e | response].
  { split; [reflexivity |]. split; [| discriminate].
    intros _. split; [reflexivity |]. split; [reflexivity |]. split.
    - intros response H. discriminate H.
    - intros e' [H | (response & H & _)]; [injection H as <- | discriminate H].
      split; [reflexivity |]. now apply notice_of_message. }
  destruct (ok response) eqn:Hok; cbn [negb].
  2:{ split; [reflexivity |]. split.
      - intros _. split; [reflexivity |]. split; [reflexivity |]. split.
        + intros response' H _. injection H as <-.
          unfold ErrorNotice. cbn [error set_isLoading set_error message_or].
          now rewrite getErrorMessage_nonempty.
        + intros e' [H | (response' & H & Hok' & _)]; [discriminate H |].
          injection H as <-. congruence.
      - destruct (objectURL o); discriminate. }
  destruct (objectURL o) as [e | dataUrl].
  { split; [reflexivity |]. split; [| discriminate].
    intros _. split; [reflexivity |]. split; [reflexivity |]. split.
    - intros response' H Hok'. injection H as <-. congruence.
    - intros e' [H | (response' & _ & _ & H)]; [discriminate H |].
      injection H as <-.
      split; [reflexivity |]. now apply notice_of_message. }
  destruct (setSourceAndPlay_returns dataUrl (audio o)) as (status & w' & Hrun).
  rewrite Hrun.
  split; [now destruct status |]. split; [discriminate |].
  intros _. split.
  - destruct status; [now left | now right | now left].
  - exists dataUrl. split; [reflexivity | now destruct status].
Qed.

(** X12.  Whatever the submissions of a session do (succeed, fail, or
    stop at a guard), the history never holds more than five items. *)
Theorem history_never_exceeds_five
  (subs : list (State * Outside)) (h : list HistoryItem) :
  List.length h <= MAX_HISTORY ->
  List.length (session toLocaleString subs h) <= MAX_HISTORY.
Proof.
  intro Hh. rewrite (session_history toLocaleString subs h Hh).
  rewrite length_firstn. apply Nat.le_min_l.
Qed.

End Submitting.


Lemma handleSubmit_settles_witness :
  Studio.isLoading
    (Studio.handleSubmit (fun _ => "30,000") (Reported.fine_outside "blob:1")
       (Reported.form_with "Hello"))
  = false
  /\ StudioView.ErrorNotice
       (Studio.handleSubmit (fun _ => "30,000") StudioView.refusing_outside
          (Reported.form_with "Hello"))
     = Some "Synthesis service failed. Please try again."
  /\ Studio.error
       (Studio.handleSubmit (fun _ => "30,000") StudioView.offline_outside
          (Reported.form_with "Hello"))
     = Some "Failed to fetch".
Proof.
  split; [| split].
  - apply (proj1 (handleSubmit_settles (fun _ => "30,000")
                    (Reported.fine_outside "blob:1") (Reported.form_with "Hello")
                    ltac:(discriminate) ltac:(vm_compute; discriminate))).
  - destruct (handleSubmit_settles (fun _ => "30,000")
                StudioView.refusing_outside (Reported.form_with "Hello")
                ltac:(discriminate) ltac:(vm_compute; discriminate))
      as (_ & Hfailed & _).
    destruct (Hfailed eq_refl) as (_ & _ & Hrefused & _).
    exact (Hrefused _ eq_refl eq_refl).
  - destruct (handleSubmit_settles (fun _ => "30,000")
                StudioView.offline_outside (Reported.form_with "Hello")
                ltac:(discriminate) ltac:(vm_compute; discriminate))
      as (_ & Hfailed & _).
    destruct (Hfailed eq_refl) as (_ & _ & _ & Hthrown).
    exact (proj1 (Hthrown _ (or_introl eq_refl))).
Defined.

Lemma history_never_exceeds_five_witness :
  List.length (Studio.session (fun _ => "30,000") Reported.seven_submissions [])
  <= Studio.MAX_HISTORY.
Proof.
  apply (history_never_exceeds_five (fun _ => "30,000")
           Reported.seven_submissions []).
  unfold Studio.MAX_HISTORY. simpl. lia.
Defined.

(** ** The studio's limit and the model's *)

Section Limits.
Import JS ElevenLabs.

(** X13.  With the stock configuration (no model configured, or the
    stock or the turbo model) the character limit the studio enforces
    for a language is the limit [getModelCharacterLimit] gives for the
    model the server selects for that language; for Hebrew this holds
    under every configuration. *)
Theorem studio_limit_is_model_limit (language configured : string) :
  language = "he" \/ configured = "" \/ configured = "eleven_multilingual_v2"
  \/ configured = "eleven_turbo_v2_5" ->
  Studio.getCharacterLimit language
  = getModelCharacterLimit
      (selectModelForLanguage (Some language) (Some configured)).
Proof.
  unfold Studio.getCharacterLimit, selectModelForLanguage.
  destruct (String.eqb language "he") eqn:Hhe.
  - intros _. reflexivity.
  - apply String.eqb_neq in Hhe.
    intros [H | [-> | [-> | ->]]]; [contradiction | | |]; reflexivity.
Qed.

Lemma studio_limit_is_model_limit_witness :
  Studio.getCharacterLimit "fr"
  = getModelCharacterLimit
      (selectModelForLanguage (Some "fr") (Some "eleven_multilingual_v2")).
Proof.
  apply studio_limit_is_model_limit. right. right. left. reflexivity.
Defined.

End Limits.

(** ** What the schema lets through, and what it reports *)

Section SchemaOutcomes.
Import JS Zod Schemas Languages Reported SynthesizeRoute.

Variable errorMap : ZodIssueCode -> string.

Lemma checked_valid {A : Type} (v v' : A) (issues : list ZodIssue) :
  fst (checked v issues) = VALID v' -> v' = v /\ issues = [].
Proof.
  destruct issues; simpl; intro H; [| discriminate].
  injection H as <-. now split.
Qed.

Lemma z_string_valid checks p data v :
  fst (z_string errorMap checks p data) = VALID v ->
  data = Some (JString v)
  /\ flat_map (string_check errorMap p v) checks = [].
Proof.
  unfold z_string.
  destruct data as [[| | | s | |] |]; try discriminate.
  intro H. apply checked_valid in H. destruct H as [-> H]. now split.
Qed.

Lemma z_number_valid checks p data n :
  fst (z_number errorMap checks p data) = VALID n ->
  data = Some (JNumber n) /\ n <> NaN
  /\ flat_map (number_check errorMap p n) checks = [].
Proof.
  unfold z_number.
  destruct data as [[| | [| | q |] | | |] |]; try discriminate;
    intro H; apply checked_valid in H; destruct H as [-> H];
    repeat split; try assumption; discriminate.
Qed.

Lemma z_optional_valid {A : Type} (schema : Schema A) p data (o : option A) :
  fst (z_optional schema p data) = VALID o ->
  (data = None /\ o = None)
  \/ (exists v, o = Some v /\ fst (schema p data) = VALID v).
Proof.
  unfold z_optional. destruct data as [j |].
  - destruct (schema p (Some j)) as [[v | v |] issues]; try discriminate.
    intro H. injection H as <-. right. now exists v.
  - intro H. injection H as <-. now left.
Qed.

Lemma unit_interval_valid p data (o : option number) (s : number) :
  fst (unit_interval_schema errorMap p data) = VALID o ->
  o = Some s ->
  data = Some (JNumber s) /\ le zero s /\ le s one.
Proof.
  intros H ->. apply z_optional_valid in H.
  destruct H as [[_ H] | (v & Hv & H)]; [discriminate |].
  injection Hv as <-. apply z_number_valid in H.
  destruct H as (Hdata & Hnan & Hchecks). split; [assumption |].
  cbn [flat_map number_check] in Hchecks.
  destruct (ltb s zero) eqn:Hmin; [discriminate |].
  destruct (ltb one s) eqn:Hmax; [discriminate |].
  split; apply ltb_false_le; try assumption; discriminate.
Qed.

Lemma latency_valid p data (o : option number) (n : number) :
  fst (optimizeStreamingLatency_schema errorMap p data) = VALID o ->
  o = Some n ->
  exists q : Q, n = Finite q /\ (q == 0 \/ q == 1 \/ q == 2)%Q.
Proof.
  intros H ->. apply z_optional_valid in H.
  destruct H as [[_ H] | (v & Hv & H)]; [discriminate |].
  injection Hv as <-. unfold z_union_literals in H.
  destruct data as [[| | m | | |] |]; try discriminate.
  destruct (existsb (strict_eq m) [zero; one; two]) eqn:E; [| discriminate].
  injection H as <-. cbn [existsb] in E.
  destruct m as [| | q |]; try discriminate.
  exists q. split; [reflexivity |].
  unfold zero, one, two in E. cbn [strict_eq] in E.
  apply orb_true_iff in E. destruct E as [E | E];
    [left; now apply Qeq_bool_iff |].
  apply orb_true_iff in E. destruct E as [E | E];
    [right; left; now apply Qeq_bool_iff |].
  apply orb_true_iff in E. destruct E as [E | E];
    [right; right; now apply Qeq_bool_iff | discriminate E].
Qed.

Lemma language_valid p data (o : option string) (l : string) :
  fst (language_schema errorMap p data) = VALID o ->
  o = Some l ->
  In l (map code LANGUAGE_OPTIONS).
Proof.
  intros H ->. unfold language_schema, z_refine in H.
  match type of H with
  | context [z_transform ?inner ?f p data] =>
      destruct (z_transform inner f p data) as [[v | v |] issues] eqn:Hinner
  end; try discriminate.
  - cbn [fst snd] in H.
    destruct v as [w |].
    + destruct (negb (truthy w) || String.eqb w "auto"
                || existsb (fun option => String.eqb (code option) w)
                           LANGUAGE_OPTIONS) eqn:Hcheck;
        [| discriminate].
      injection H as <-.
      unfold z_transform in Hinner.
      destruct (z_optional (z_string errorMap []) p data)
        as [[[u |] | u |] issues'] eqn:Hopt; try discriminate.
      destruct (negb (truthy u)) eqn:Hu; [discriminate |].
      injection Hinner as <- _.
      rewrite Hu in Hcheck. cbn [orb] in Hcheck.
      apply orb_true_iff in Hcheck. destruct Hcheck as [Hauto | Hlisted].
      * apply String.eqb_eq in Hauto. subst. now left.
      * apply existsb_exists in Hlisted. destruct Hlisted as (opt & Hopt' & Heq).
        apply String.eqb_eq in Heq. subst. now apply in_map.
    + discriminate.
  - cbn [fst snd] in H. now destruct (_ : bool) in H.
Qed.

Lemma safeParse_object_success members payload :
  synthesizeSchema_safeParse errorMap (JObject members) = success payload ->
  fst (text_schema errorMap ["text"] (assoc "text" members))
  = VALID (text payload)
  /\ fst (voiceId_schema errorMap ["voiceId"] (assoc "voiceId" members))
     = VALID (voiceId payload)
  /\ fst (language_schema errorMap ["language"] (assoc "language" members))
     = VALID (language payload)
  /\ fst (unit_interval_schema errorMap ["stability"] (assoc "stability" members))
     = VALID (stability payload)
  /\ fst (unit_interval_schema errorMap ["similarityBoost"]
            (assoc "similarityBoost" members))
     = VALID (similarityBoost payload)
  /\ fst (unit_interval_schema errorMap ["styleExaggeration"]
            (assoc "styleExaggeration" members))
     = VALID (styleExaggeration payload)
  /\ fst (optimizeStreamingLatency_schema errorMap ["optimizeStreamingLatency"]
            (assoc "optimizeStreamingLatency" members))
     = VALID (optimizeStreamingLatency payload)
  /\ fst (modelId_schema errorMap ["modelId"] (assoc "modelId" members))
     = VALID (modelId payload).
Proof.
  unfold synthesizeSchema_safeParse.
  repeat match goal with
         | |- context [match fst ?r with _ => _ end] => destruct (fst r)
         end;
    intro H; try discriminate H.
  injection H as <-. cbn. repeat split.
Qed.

(** X14.  A payload the schema accepts is an object whose [text] has
    between 1 and 5,000 characters and whose [voiceId] is not empty; its
    language, if any, is one of the codes of the language list; its
    stability, similarity boost and style, if any, lie in [0, 1]; and
    its latency hint, if any, is 0, 1 or 2. *)
Theorem accepted_payload_is_in_range (data : json) (payload : SynthesizePayload) :
  synthesizeSchema_safeParse errorMap data = success payload ->
  exists members : list (string * json),
    data = JObject members
    /\ assoc "text" members = Some (JString (text payload))
    /\ (1 <= JS.length (text payload) <= 5000)%N
    /\ assoc "voiceId" members = Some (JString (voiceId payload))
    /\ voiceId payload <> ""
    /\ (forall l, language payload = Some l -> In l (map code LANGUAGE_OPTIONS))
    /\ (forall s, stability payload = Some s -> le zero s /\ le s one)
    /\ (forall s, similarityBoost payload = Some s -> le zero s /\ le s one)
    /\ (forall s, styleExaggeration payload = Some s -> le zero s /\ le s one)
    /\ (forall n, optimizeStreamingLatency payload = Some n ->
          exists q : Q, n = Finite q /\ (q == 0 \/ q == 1 \/ q == 2)%Q).
Proof.
  intro H. destruct data as [| | | | | members]; try discriminate H.
  exists members. split; [reflexivity |].
  destruct (safeParse_object_success members payload H)
    as (Htext & Hvoice & Hlang & Hstab & Hsim & Hstyle & Hlat & _).
  pose proof (z_string_valid _ _ _ _ Htext) as [Htext_data _].
  pose proof (z_string_valid _ _ _ _ Hvoice) as [Hvoice_data Hvoice_checks].
  split; [assumption |]. split.
  { rewrite Htext_data in Htext. now apply text_schema_accepts in Htext. }
  split; [assumption |]. split.
  { intro Hempty. rewrite Hempty in Hvoice_checks. discriminate Hvoice_checks. }
  split; [intros l Hl; exact (language_valid _ _ _ _ Hlang Hl) |].
  split; [intros s Hs; exact (proj2 (unit_interval_valid _ _ _ _ Hstab Hs)) |].
  split; [intros s Hs; exact (proj2 (unit_interval_valid _ _ _ _ Hsim Hs)) |].
  split; [intros s Hs; exact (proj2 (unit_interval_valid _ _ _ _ Hstyle Hs)) |].
  intros n Hn. exact (latency_valid _ _ _ _ Hlat Hn).
Qed.

End SchemaOutcomes.

Lemma accepted_payload_is_in_range_witness :
  exists members : list (string * JS.json),
    Reported.hello_body = JS.JObject members
    /\ JS.assoc "text" members = Some (JS.JString "Hello world")
    /\ (1 <= JS.length "Hello world" <= 5000)%N.
Proof.
  destruct (accepted_payload_is_in_range Reported.plain_errorMap
              Reported.hello_body
              {| Schemas.text := "Hello world"; Schemas.voiceId := "voice-1";
                 Schemas.language := Some "en";
                 Schemas.stability := Some JS.half;
                 Schemas.similarityBoost := Some (JS.Finite (7 # 10)%Q);
                 Schemas.styleExaggeration := None;
                 Schemas.optimizeStreamingLatency := Some JS.one;
                 Schemas.modelId := None |} eq_refl)
    as (members & Hbody & Htext & Hlength & _).
  exists members. now repeat split.
Defined.

Section SchemaReports.
Import JS Zod Schemas Reported SynthesizeRoute.

Variable errorMap : ZodIssueCode -> string.

Lemma checked_accounted {A : Type} (v : A) (issues : list ZodIssue) :
  (exists v', fst (checked v issues) = VALID v') \/ snd (checked v issues) <> [].
Proof.
  destruct issues; simpl; [left; now exists v | right; discriminate].
Qed.

Lemma z_string_accounted checks p data :
  (exists v, fst (z_string errorMap checks p data) = VALID v)
  \/ snd (z_string errorMap checks p data) <> [].
Proof.
  unfold z_string.
  destruct data as [[| | | s | |] |];
    try (right; discriminate). apply checked_accounted.
Qed.

Lemma z_number_accounted checks p data :
  (exists v, fst (z_number errorMap checks p data) = VALID v)
  \/ snd (z_number errorMap checks p data) <> [].
Proof.
  unfold z_number.
  destruct data as [[| | [| | q |] | | |] |];
    try (right; discriminate); apply checked_accounted.
Qed.

Lemma z_union_accounted literals p data :
  (exists v, fst (z_union_literals errorMap literals p data) = VALID v)
  \/ snd (z_union_literals errorMap literals p data) <> [].
Proof.
  unfold z_union_literals.
  destruct data as [[| | n | | |] |]; try (right; discriminate).
  destruct (existsb (strict_eq n) literals);
    [left; now exists n | right; discriminate].
Qed.

Lemma z_optional_accounted {A : Type} (schema : Schema A) p data :
  ((exists v, fst (schema p data) = VALID v) \/ snd (schema p data) <> []) ->
  (exists v, fst (z_optional schema p data) = VALID v)
  \/ snd (z_optional schema p data) <> [].
Proof.
  unfold z_optional. destruct data as [j |]; [| intros _; left; now eexists].
  destruct (schema p (Some j)) as [[v | v |] issues]; cbn [fst snd];
    intros [[v' H] | H]; try discriminate H;
    try (left; now eexists); now right.
Qed.

Lemma z_transform_accounted {A B : Type} (schema : Schema A) (f : A -> B) p data :
  ((exists v, fst (schema p data) = VALID v) \/ snd (schema p data) <> []) ->
  (exists v, fst (z_transform schema f p data) = VALID v)
  \/ snd (z_transform schema f p data) <> [].
Proof.
  unfold z_transform.
  destruct (schema p data) as [[v | v |] issues]; cbn [fst snd];
    intros [[v' H] | H]; try discriminate H;
    try (left; now eexists); now right.
Qed.

Lemma z_refine_accounted {A : Type} (schema : Schema A) check m p data :
  ((exists v, fst (schema p data) = VALID v) \/ snd (schema p data) <> []) ->
  (exists v, fst (z_refine errorMap schema check m p data) = VALID v)
  \/ snd (z_refine errorMap schema check m p data) <> [].
Proof.
  unfold z_refine.
  destruct (schema p data) as [[v | v |] issues]; cbn [fst snd];
    intros [[v' H] | H]; try discriminate H;
    try (destruct (check v); cbn [fst snd]);
    try (left; now eexists);
    try (right; now destruct issues);
    now right.
Qed.

Lemma nonempty_app_l {A : Type} (a b : list A) : a <> [] -> (a ++ b)%list <> [].
Proof. destruct a; [congruence | discriminate]. Qed.

Lemma nonempty_app_r {A : Type} (a b : list A) : b <> [] -> (a ++ b)%list <> [].
Proof. destruct a; [now simpl | discriminate]. Qed.

(** A failed parse always has something to report. *)
Lemma safeParse_failure_nonempty (data : json) (error : ZodError) :
  synthesizeSchema_safeParse errorMap data = failure error -> error <> [].
Proof.
  destruct data as [| b | n | s | items | members];
    try (simpl; intro H; injection H as <-; discriminate).
  intro H. rewrite (safeParse_object_failure errorMap _ _ H).
  unfold synthesizeSchema_safeParse in H. unfold synthesizeSchema_issues.
  destruct (z_string_accounted
              [ min_length 1 (Some "Text is required");
                max_length 5000
                  (Some "Text must be shorter than 5,000 characters") ]
              ["text"] (assoc "text" members)) as [[v1 H1] | H1];
    [| now apply nonempty_app_l].
  apply nonempty_app_r.
  destruct (z_string_accounted [ min_length 1 (Some "Voice is required") ]
              ["voiceId"] (assoc "voiceId" members)) as [[v2 H2] | H2];
    [| now apply nonempty_app_l].
  apply nonempty_app_r.
  assert (Hlang : (exists v, fst (language_schema errorMap ["language"]
                                    (assoc "language" members)) = VALID v)
                  \/ snd (language_schema errorMap ["language"]
                            (assoc "language" members)) <> []).
  { apply z_refine_accounted, z_transform_accounted, z_optional_accounted,
      z_string_accounted. }
  destruct Hlang as [[v3 H3] | H3]; [| now apply nonempty_app_l].
  apply nonempty_app_r.
  assert (Hunit : forall p d,
             (exists v, fst (unit_interval_schema errorMap p d) = VALID v)
             \/ snd (unit_interval_schema errorMap p d) <> []).
  { intros p d. apply z_optional_accounted, z_number_accounted. }
  destruct (Hunit ["stability"] (assoc "stability" members)) as [[v4 H4] | H4];
    [| now apply nonempty_app_l].
  apply nonempty_app_r.
  destruct (Hunit ["similarityBoost"] (assoc "similarityBoost" members))
    as [[v5 H5] | H5]; [| now apply nonempty_app_l].
  apply nonempty_app_r.
  destruct (Hunit ["styleExaggeration"] (assoc "styleExaggeration" members))
    as [[v6 H6] | H6]; [| now apply nonempty_app_l].
  apply nonempty_app_r.
  assert (Hlat : (exists v, fst (optimizeStreamingLatency_schema errorMap
                                   ["optimizeStreamingLatency"]
                                   (assoc "optimizeStreamingLatency" members))
                            = VALID v)
                 \/ snd (optimizeStreamingLatency_schema errorMap
                           ["optimizeStreamingLatency"]
                           (assoc "optimizeStreamingLatency" members)) <> []).
  { apply z_optional_accounted, z_union_accounted. }
  destruct Hlat as [[v7 H7] | H7]; [| now apply nonempty_app_l].
  apply nonempty_app_r.
  assert (Hmodel : (exists v, fst (modelId_schema errorMap ["modelId"]
                                     (assoc "modelId" members)) = VALID v)
                   \/ snd (modelId_schema errorMap ["modelId"]
                             (assoc "modelId" members)) <> []).
  { apply z_optional_accounted, z_string_accounted. }
  destruct Hmodel as [[v8 H8] | H8]; [| assumption].
  exfalso. unfold text_schema, voiceId_schema in H.
  rewrite H1, H2, H3, H4, H5, H6, H7, H8 in H. discriminate H.
Qed.

Lemma messages_split (error : ZodError) :
  field_messages error = [] -> form_messages error = [] -> error = [].
Proof.
  unfold field_messages, form_messages.
  destruct error as [| i rest]; [reflexivity |]. simpl.
  destruct (is_field_issue i); simpl; discriminate.
Qed.

Lemma field_messages_listed (error : ZodError) (m : string) :
  In m (field_messages error) -> In m (map message error).
Proof.
  unfold field_messages. intro H. apply in_map_iff in H.
  destruct H as (i & <- & Hi). apply filter_In in Hi. apply in_map, Hi.
Qed.

Lemma form_messages_listed (error : ZodError) (m : string) :
  In m (form_messages error) -> In m (map message error).
Proof.
  unfold form_messages. intro H. apply in_map_iff in H.
  destruct H as (i & <- & Hi). apply filter_In in Hi. apply in_map, Hi.
Qed.

(** X15.  A failed validation always carries at least one issue, and the
    message put in the 422 body is the message of one of its issues: the
    stock text "Please review the submitted values." is never sent.
    (The library's built-in messages are taken to be non-empty.) *)
Theorem rejection_names_an_issue (data : json) (error : ZodError) :
  (forall c, errorMap c <> "") ->
  synthesizeSchema_safeParse errorMap data = failure error ->
  error <> []
  /\ In (getValidationMessage error) (map message error).
Proof.
  intros Hmap H.
  pose proof (safeParse_failure_nonempty data error H) as Hne.
  split; [assumption |].
  pose proof (getValidationMessage_reported error
                (safeParse_failure_worded errorMap Hmap data error H)) as Hrep.
  unfold reported in Hrep.
  destruct (field_messages error) as [| first rest] eqn:Hfield.
  - destruct (form_messages error) as [| first rest] eqn:Hform.
    + exfalso. apply Hne. now apply messages_split.
    + rewrite Hrep. apply form_messages_listed. rewrite Hform. now left.
  - rewrite Hrep. apply field_messages_listed. rewrite Hfield. now left.
Qed.

(** X16.  The schema ignores keys it does not know: adding a member
    under any other name to the body changes neither the verdict nor
    the payload nor the issues. *)
Theorem unknown_key_ignored (key : string) (value : json)
  (members : list (string * json)) :
  ~ In key [ "text"; "voiceId"; "language"; "stability"; "similarityBoost";
             "styleExaggeration"; "optimizeStreamingLatency"; "modelId" ] ->
  synthesizeSchema_safeParse errorMap (JObject ((key, value) :: members))
  = synthesizeSchema_safeParse errorMap (JObject members).
Proof.
  intro Hkey.
  assert (Hskip : forall k,
             In k [ "text"; "voiceId"; "language"; "stability";
                    "similarityBoost"; "styleExaggeration";
                    "optimizeStreamingLatency"; "modelId" ] ->
             assoc k ((key, value) :: members) = assoc k members).
  { intros k Hk. cbn [assoc].
    destruct (String.eqb k key) eqn:E; [| reflexivity].
    apply String.eqb_eq in E. subst. contradiction. }
  unfold synthesizeSchema_safeParse, synthesizeSchema_issues.
  rewrite !Hskip by (simpl; tauto). reflexivity.
Qed.

End SchemaReports.

Lemma rejection_names_an_issue_witness :
  In (SynthesizeRoute.getValidationMessage
        [ {| Zod.code := Zod.too_small_string 1; Zod.path := ["text"];
             Zod.message := "Text is required" |};
          {| Zod.code := Zod.too_small_string 1; Zod.path := ["voiceId"];
             Zod.message := "Voice is required" |} ])
     [ "Text is required"; "Voice is required" ].
Proof.
  apply (rejection_names_an_issue Reported.plain_errorMap Reported.empty_body).
  - intro c. discriminate.
  - reflexivity.
Defined.

Lemma unknown_key_ignored_witness :
  Schemas.synthesizeSchema_safeParse Reported.plain_errorMap
    (JS.JObject [ ("debug", JS.JBool true); ("text", JS.JString "Hi");
                  ("voiceId", JS.JString "voice-1") ])
  = Schemas.synthesizeSchema_safeParse Reported.plain_errorMap
      (JS.JObject [ ("text", JS.JString "Hi");
                    ("voiceId", JS.JString "voice-1") ]).
Proof.
  apply unknown_key_ignored.
  simpl. intros [H | [H | [H | [H | [H | [H | [H | [H | []]]]]]]]];
    discriminate H.
Defined.

(** ** The synthesize route as a whole *)

Section RouteOutcomes.
Import JS Zod Http Schemas Reported SynthesizeRoute.

Variable errorMap : ZodIssueCode -> string.

(** X17.  The provider is not consulted for a body that is not JSON or
    that fails the schema: the answer (and the console) is the same
    whatever the provider would do, and it is 400 with
    [{ error: "Invalid JSON payload" }] when the body is not JSON. *)
Theorem invalid_request_skips_provider
  (provider provider' : ElevenLabs.SynthesisInput -> thrown + list Byte.byte)
  (request_json : thrown + json) :
  (forall data payload,
     request_json = inr data ->
     synthesizeSchema_safeParse errorMap data <> success payload) ->
  POST errorMap provider request_json = POST errorMap provider' request_json
  /\ (forall e, request_json = inl e ->
      fst (POST errorMap provider request_json)
      = NextResponse_json (JObject [ ("error", JString "Invalid JSON payload") ])
          400).
Proof.
  intro Hinvalid. split.
  - unfold POST. destruct request_json as [e | data]; [reflexivity |].
    destruct (synthesizeSchema_safeParse errorMap data) as [payload |] eqn:E;
      [| reflexivity].
    exfalso. exact (Hinvalid data payload eq_refl E).
  - intros e ->. reflexivity.
Qed.


End RouteOutcomes.

Lemma invalid_request_skips_provider_witness :
  SynthesizeRoute.POST Reported.plain_errorMap
    (Reported.failing_provider "down") (inr Reported.empty_body)
  = SynthesizeRoute.POST Reported.plain_errorMap
      (fun _ => inr []) (inr Reported.empty_body).
Proof.
  apply (proj1 (invalid_request_skips_provider Reported.plain_errorMap
                  (Reported.failing_provider "down") (fun _ => inr [])
                  (inr Reported.empty_body)
                  ltac:(intros data payload H; injection H as <-;
                        discriminate))).
Defined.


(** ** The two provider requests side by side *)

Section RequestShape.
Import JS Env ElevenLabs Wire.

(** X19.  The buffered and the streaming call send the same method,
    headers and JSON body; they differ in the endpoint only, the
    streaming one being the buffered one followed by ["/stream"]. *)
Theorem requests_differ_in_endpoint_only (env : ServerEnv) (input : SynthesisInput) :
  body (synthesizeSpeechStream_request env input)
  = body (synthesizeSpeech_request env input)
  /\ headers (synthesizeSpeechStream_request env input)
     = headers (synthesizeSpeech_request env input)
  /\ method (synthesizeSpeechStream_request env input)
     = method (synthesizeSpeech_request env input)
  /\ url (synthesizeSpeechStream_request env input)
     = url (synthesizeSpeech_request env input) ++ "/stream".
Proof.
  repeat split.
Qed.

(** X20.  The body names a language exactly when the input has one
    other than "auto", and then it is that language; for "auto" or no
    language the member is left out, not sent as [null]. *)
Theorem language_code_member (env : ServerEnv) (input : SynthesisInput) (r : Request) :
  In r (requests env input) ->
  (get "language_code" (body r) = None <->
   languageCode input = None \/ languageCode input = Some "auto")
  /\ (forall c, languageCode input = Some c -> c <> "auto" ->
      get "language_code" (body r) = Some (JString c)).
Proof.
  each_request;
    unfold synthesizeSpeech_request, synthesizeSpeechStream_request;
    cbn [body get];
    (destruct (languageCode input) as [c |];
     [ destruct (String.eqb c "auto") eqn:E;
       [ apply String.eqb_eq in E; subst; cbn; split;
         [ split; [intros _; now right | reflexivity]
         | intros c' H Hne; injection H as <-; congruence ]
       | apply String.eqb_neq in E; cbn; split;
         [ split; [discriminate | intros [H | H]; congruence]
         | intros c' H _; injection H as <-; reflexivity ] ]
     | cbn; split;
       [ split; [intros _; now left | reflexivity]
       | intros c' H; discriminate H ] ]).
Qed.

Lemma language_code_member_witness :
  get "language_code"
    (body (synthesizeSpeechStream_request stock_env
             (greeting (Some "he") None None None None)))
  = Some (JString "he").
Proof.
  apply (proj2 (language_code_member stock_env
                  (greeting (Some "he") None None None None) _
                  (or_intror (or_introl eq_refl))) "he").
  - reflexivity.
  - discriminate.
Defined.

End RequestShape.

(** ** Validation in front of the clamp *)

Section ValidatedSettings.
Import JS Zod Schemas Reported SynthesizeRoute Wire.

Lemma clamp_validated (o : option number) (default : number) :
  (forall s, o = Some s -> le zero s /\ le s one) ->
  le zero default -> le default one ->
  json_of_number (ElevenLabs.clamp (nullish o default) zero one)
  = JNumber (nullish o default).
Proof.
  intros Ho Hd0 Hd1.
  assert (H : le zero (nullish o default) /\ le (nullish o default) one).
  { destruct o as [s |]; cbn [nullish]; [now apply Ho | now split]. }
  destruct H as [H0 H1]. rewrite (clamp_inside _ H0 H1).
  destruct (le_finite_between _ H0 H1) as [q ->]. reflexivity.
Qed.

(** X21.  For a request that passed the schema the clamp changes
    nothing: the provider receives the similarity boost and the style
    exactly as supplied (0.8 when no similarity boost was given) and,
    unless the model is ["eleven_v3"], the stability as supplied (0.5
    when none was given). *)
Theorem validated_settings_pass_through
  (errorMap : ZodIssueCode -> string) (env : Env.ServerEnv)
  (data : json) (payload : SynthesizePayload) (r : ElevenLabs.Request) :
  synthesizeSchema_safeParse errorMap data = success payload ->
  In r (requests env (synthesis_input payload)) ->
  voice_setting "similarity_boost" r
  = Some (JNumber (nullish (similarityBoost payload) four_fifths))
  /\ voice_setting "style" r = option_map JNumber (styleExaggeration payload)
  /\ (model_id r <> Some (JString "eleven_v3") ->
      voice_setting "stability" r
      = Some (JNumber (nullish (stability payload) half))).
Proof.
  intros Hparse Hr.
  destruct data as [| | | | | members]; try discriminate Hparse.
  destruct (safeParse_object_success errorMap members payload Hparse)
    as (_ & _ & _ & Hstab & Hsim & Hstyle & _).
  pose proof (model_id_v3 env _ r Hr) as Hv3.
  rewrite (request_similarity_boost env _ r Hr), (request_style env _ r Hr),
    (request_stability env _ r Hr).
  cbn [synthesis_input ElevenLabs.similarityBoost ElevenLabs.styleExaggeration].
  split; [| split].
  - f_equal. apply clamp_validated.
    + intros s Hs. exact (proj2 (unit_interval_valid errorMap _ _ _ _ Hsim Hs)).
    + constructor. unfold Qle. simpl. lia.
    + constructor. unfold Qle. simpl. lia.
  - destruct (styleExaggeration payload) as [s |] eqn:Hs; [| reflexivity].
    cbn [option_map]. f_equal.
    apply (clamp_validated (Some s) zero).
    + intros s' Hs'. injection Hs' as <-.
      exact (proj2 (unit_interval_valid errorMap _ _ _ _ Hstyle eq_refl)).
    + constructor. unfold Qle. simpl. lia.
    + constructor. unfold Qle. simpl. lia.
  - intro Hm. unfold stability_value.
    destruct (String.eqb (selected_model env (synthesis_input payload))
                         "eleven_v3") eqn:E.
    { exfalso. apply Hm. now apply Hv3. }
    cbn [synthesis_input ElevenLabs.stability]. f_equal.
    apply clamp_validated.
    + intros s Hs. exact (proj2 (unit_interval_valid errorMap _ _ _ _ Hstab Hs)).
    + constructor. unfold Qle. simpl. lia.
    + constructor. unfold Qle. simpl. lia.
Qed.

Lemma validated_settings_pass_through_witness :
  voice_setting "similarity_boost"
    (ElevenLabs.synthesizeSpeechStream_request stock_env
       (synthesis_input
          {| text := "Hello world"; voiceId := "voice-1";
             language := Some "en"; stability := Some half;
             similarityBoost := Some (Finite (7 # 10)%Q);
             styleExaggeration := None;
             optimizeStreamingLatency := Some one;
             modelId := None |}))
  = Some (JNumber (Finite (7 # 10)%Q)).
Proof.
  apply (proj1 (validated_settings_pass_through plain_errorMap stock_env
                  hello_body
                  {| text := "Hello world"; voiceId := "voice-1";
                     language := Some "en"; stability := Some half;
                     similarityBoost := Some (Finite (7 # 10)%Q);
                     styleExaggeration := None;
                     optimizeStreamingLatency := Some one;
                     modelId := None |} _ eq_refl
                  (or_intror (or_introl eq_refl)))).
Defined.

End ValidatedSettings.

(** ** What the provider calls return and throw *)

Section ProviderCalls.
Import JS Env ElevenLabs Reported.

Variable JSON_stringify : json -> string.
Variable fetch : Request -> thrown + Response.

Lemma append_assoc_string (a b c : string) : (a ++ b) ++ c = a ++ (b ++ c).
Proof. induction a as [| x a IH]; simpl; [reflexivity | now rewrite IH]. Qed.

Lemma failure_message_names_status (response : Response) :
  occurs_in (failure_message JSON_stringify "Failed to synthesize speech" response)
            (string_of_nat (status response))
  /\ occurs_in (failure_message JSON_stringify "Failed to synthesize speech"
                  response)
               (statusText response).
Proof.
  unfold failure_message, occurs_in. split.
  - exists "Failed to synthesize speech (". eexists. reflexivity.
  - exists ("Failed to synthesize speech (" ++ string_of_nat (status response)
            ++ " ").
    eexists. rewrite !append_assoc_string. reflexivity.
Qed.

(** X22.  [synthesizeSpeechStream] returns a stream exactly when [fetch]
    resolves with a 2xx answer that has a body, and then it is that
    body; a rejection of [fetch] is passed on as it is; a non-2xx answer
    is turned into an [Error] whose message names the status code and
    the status text; a 2xx answer without a body is the error "Response
    body is null", where the buffered call returns an empty buffer. *)
Theorem stream_call_outcome (env : ServerEnv) (input : SynthesisInput) :
  (forall audio,
     synthesizeSpeechStream JSON_stringify fetch env input = inr audio <->
     exists response,
       fetch (synthesizeSpeechStream_request env input) = inr response
       /\ ok response = true /\ stream response = Some audio)
  /\ (forall e,
        fetch (synthesizeSpeechStream_request env input) = inl e ->
        synthesizeSpeechStream JSON_stringify fetch env input = inl e)
  /\ (forall response,
        fetch (synthesizeSpeechStream_request env input) = inr response ->
        ok response = false ->
        exists m,
          synthesizeSpeechStream JSON_stringify fetch env input
          = inl (ThrownError "Error" m)
          /\ occurs_in m (string_of_nat (status response))
          /\ occurs_in m (statusText response))
  /\ (forall response,
        fetch (synthesizeSpeechStream_request env input) = inr response ->
        ok response = true -> stream response = None ->
        synthesizeSpeechStream JSON_stringify fetch env input
        = inl (ThrownError "Error" "Response body is null"))
  /\ (forall response,
        fetch (synthesizeSpeech_request env input) = inr response ->
        ok response = true -> stream response = None ->
        synthesizeSpeech JSON_stringify fetch env input = inr []).
Proof.
  unfold synthesizeSpeechStream, synthesizeSpeech.
  split; [| split; [| split; [| split]]].
  - intro audio.
    destruct (fetch (synthesizeSpeechStream_request env input))
      as [e | response]; [split; [discriminate | intros (? & H & _); discriminate H] |].
    destruct (ok response) eqn:Hok; cbn [negb].
    + destruct (stream response) as [b |] eqn:Hbody.
      * split.
        -- intro H. injection H as <-. now exists response.
        -- intros (resp & H & _ & Hb). injection H as <-.
           rewrite Hbody in Hb. now injection Hb as <-.
      * split; [discriminate |].
        intros (resp & H & _ & Hb). injection H as <-. congruence.
    + split; [discriminate |].
      intros (resp & H & Hok' & _). injection H as <-. congruence.
  - intros e ->. reflexivity.
  - intros response -> ->. cbn [negb].
    eexists. split; [reflexivity |]. apply failure_message_names_status.
  - intros response -> -> ->. reflexivity.
  - intros response -> -> ->. reflexivity.
Qed.

End ProviderCalls.

Lemma stream_call_outcome_witness :
  ElevenLabs.synthesizeSpeechStream (fun _ => "{}")
    (fun _ => inr {| ElevenLabs.ok := true; ElevenLabs.status := 200;
                     ElevenLabs.statusText := "OK";
                     ElevenLabs.error_json := None;
                     ElevenLabs.stream := None |})
    Wire.stock_env (Wire.greeting None None None None None)
  = inl (JS.ThrownError "Error" "Response body is null").
Proof.
  apply (proj1 (proj2 (proj2 (proj2
           (stream_call_outcome (fun _ => "{}")
              (fun _ => inr {| ElevenLabs.ok := true; ElevenLabs.status := 200;
                               ElevenLabs.statusText := "OK";
                               ElevenLabs.error_json := None;
                               ElevenLabs.stream := None |})
              Wire.stock_env (Wire.greeting None None None None None)))))
           {| ElevenLabs.ok := true; ElevenLabs.status := 200;
              ElevenLabs.statusText := "OK";
              ElevenLabs.error_json := None;
              ElevenLabs.stream := None |});
    reflexivity.
Defined.

(** ** Listing the voices *)

Section VoiceListing.
Import JS Http Reported VoicesClient.

Variable JSON_stringify : json -> string.
Variable fetch : string -> list (string * string) -> thrown + VoicesAnswer.

Lemma voices_failure_names_status (response : ElevenLabs.Response) :
  occurs_in (ElevenLabs.failure_message JSON_stringify "Failed to fetch voices"
               response)
            (string_of_nat (ElevenLabs.status response)).
Proof.
  unfold ElevenLabs.failure_message, occurs_in.
  exists "Failed to fetch voices (". eexists. reflexivity.
Qed.

(** X23.  A 401 answer of the provider to the voice listing is never
    reported as a connectivity problem: the route answers 500 with the
    invalid-key hint, or with the permission hint when the failure
    detail speaks of missing permissions. *)
Theorem unauthorized_is_reported_as_such (env : Env.ServerEnv) (answer : VoicesAnswer) :
  fetch (ElevenLabs.ELEVENLABS_BASE_URL ++ "/voices")
        [ ("Accept", "application/json");
          ("xi-api-key", Env.ELEVENLABS_API_KEY env) ]
  = inr answer ->
  ElevenLabs.ok (response answer) = false ->
  ElevenLabs.status (response answer) = 401 ->
  exists m : string,
    fst (VoicesRoute.GET (fetchVoices JSON_stringify fetch env))
    = NextResponse_json (JObject [ ("error", JString m) ]) 500
    /\ (m = permissions_hint \/ m = invalid_key_hint).
Proof.
  intros Hfetch Hok Hstatus. unfold fetchVoices.
  rewrite Hfetch, Hok. cbn [negb]. unfold VoicesRoute.GET. cbn [fst message_or].
  destruct (includes _ "missing_permissions").
  - eexists. split; [reflexivity | now left].
  - pose proof (voices_failure_names_status (response answer)) as Hnamed.
    rewrite Hstatus in Hnamed.
    change (string_of_nat 401) with "401" in Hnamed.
    apply includes_occurs in Hnamed. rewrite Hnamed.
    eexists. split; [reflexivity | now right].
Qed.


End VoiceListing.

Lemma unauthorized_is_reported_as_such_witness :
  exists m : string,
    fst (VoicesRoute.GET
           (VoicesClient.fetchVoices (fun _ => "{}")
              (fun _ _ => inr (VoicesClient.refusal 401 "Unauthorized"))
              Wire.stock_env))
    = Http.NextResponse_json (JS.JObject [ ("error", JS.JString m) ]) 500
    /\ (m = Reported.permissions_hint \/ m = Reported.invalid_key_hint).
Proof.
  apply (unauthorized_is_reported_as_such (fun _ => "{}")
           (fun _ _ => inr (VoicesClient.refusal 401 "Unauthorized"))
           Wire.stock_env (VoicesClient.refusal 401 "Unauthorized"));
    reflexivity.
Defined.


(** ** Loading the server environment *)

Section EnvLoading.
Import JS Zod ServerEnvLoader.

Variable errorMap : ZodIssueCode -> string.
Variable error_message : ZodError -> string.

Lemma parseInt10_integer (text : string) :
  parseInt10 text = NaN \/ exists z : Z, parseInt10 text = Finite (inject_Z z).
Proof.
  unfold parseInt10.
  destruct (leading_digits _) as [| d ds]; [now left | right; eauto].
Qed.

Lemma small_integer (z : Z) :
  ltb (Finite (inject_Z z)) zero = false ->
  ltb two (Finite (inject_Z z)) = false ->
  Finite (inject_Z z) = zero \/ Finite (inject_Z z) = one
  \/ Finite (inject_Z z) = two.
Proof.
  intros Hmin Hmax.
  apply ltb_false_le in Hmin; [| discriminate | discriminate].
  apply ltb_false_le in Hmax; [| discriminate | discriminate].
  inversion Hmin as [| | x y Hx]; subst. inversion Hmax as [| | x' y' Hy]; subst.
  unfold Qle in Hx, Hy. simpl in Hx, Hy.
  assert (Hz : (z = 0 \/ z = 1 \/ z = 2)%Z) by lia.
  destruct Hz as [-> | [-> | ->]]; [now left | right; now left | right; now right].
Qed.

(** What the latency variable, when set, has to look like. *)
Lemma latency_text_accepted (p : list string) (text : string) (o : option number) :
  fst (optimize_latency_schema errorMap p (Some (JString text))) = VALID o <->
  text <> ""
  /\ o = Some (parseInt10 text)
  /\ (parseInt10 text = zero \/ parseInt10 text = one \/ parseInt10 text = two).
Proof.
  unfold optimize_latency_schema, z_optional, z_preprocess, latency_preprocess.
  destruct text as [| c rest].
  - cbn. split; [discriminate | intros [H _]; congruence].
  - change (0 <? JS.length (String c rest))%N with true. cbn iota.
    destruct (parseInt10_integer (String c rest)) as [Hnan | [z Hz]].
    + rewrite Hnan. cbn. split; [discriminate |].
      intros (_ & _ & [H | [H | H]]); discriminate H.
    + rewrite Hz. unfold z_number. cbn [flat_map number_check app].
      destruct (ltb (Finite (inject_Z z)) zero) eqn:Hmin.
      { cbn. split; [discriminate |].
        intros (_ & _ & [H | [H | H]]); rewrite H in Hmin; discriminate Hmin. }
      destruct (ltb two (Finite (inject_Z z))) eqn:Hmax.
      { cbn. split; [discriminate |].
        intros (_ & _ & [H | [H | H]]); rewrite H in Hmax; discriminate Hmax. }
      cbn. split.
      * intro H. injection H as <-.
        split; [discriminate |]. split; [reflexivity |].
        now apply small_integer.
      * intros (_ & -> & _). reflexivity.
Qed.

Lemma nonempty_text_accepted (p : list string) (m : option string)
  (data : option json) (v : string) :
  fst (z_string errorMap [ min_length 1 m ] p data) = VALID v <->
  data = Some (JString v) /\ v <> "".
Proof.
  unfold z_string.
  destruct data as [[| | | s | |] |];
    try (split; [discriminate | intros [H _]; discriminate H]).
  cbn [flat_map string_check app].
  destruct s as [| c rest].
  - cbn. split; [discriminate |]. intros [H Hne]. injection H as <-. congruence.
  - change (JS.length (String c rest) <? 1)%N
      with (N.of_nat (S (String.length rest)) <? 1)%N.
    assert (Hlen : (N.of_nat (S (String.length rest)) <? 1)%N = false)
      by (apply N.ltb_ge; lia).
    rewrite Hlen. cbn. split.
    + intro H. injection H as <-. split; [reflexivity | discriminate].
    + intros [H _]. now injection H as <-.
Qed.

(** X27.  Starting without a cached environment, [getServerEnv] returns
    an environment exactly when the API key is set and not empty, the
    model id is not set to the empty string, and the latency variable is
    either not set or a non-empty text that [parseInt] reads as 0, 1 or
    2; the environment then carries that key, the model id (or
    ["eleven_multilingual_v2"] when it is not set) and the latency read.
    In every other case it throws. *)
Theorem getServerEnv_accepts (process_env : ProcessEnv) (env : Env.ServerEnv) :
  fst (getServerEnv errorMap error_message process_env None) = inr env <->
  ELEVENLABS_API_KEY process_env = Some (Env.ELEVENLABS_API_KEY env)
  /\ Env.ELEVENLABS_API_KEY env <> ""
  /\ Env.ELEVENLABS_MODEL_ID env
     = nullish (ELEVENLABS_MODEL_ID process_env) "eleven_multilingual_v2"
  /\ Env.ELEVENLABS_MODEL_ID env <> ""
  /\ ((ELEVENLABS_OPTIMIZE_LATENCY process_env = None
       /\ Env.ELEVENLABS_OPTIMIZE_LATENCY env = None)
      \/ exists text,
           ELEVENLABS_OPTIMIZE_LATENCY process_env = Some text
           /\ text <> ""
           /\ Env.ELEVENLABS_OPTIMIZE_LATENCY env = Some (parseInt10 text)
           /\ (parseInt10 text = zero \/ parseInt10 text = one
               \/ parseInt10 text = two)).
Proof.
  assert (Hfresh :
            fst (getServerEnv errorMap error_message process_env None)
            = match envSchema_safeParse errorMap
                      (option_map JString (ELEVENLABS_API_KEY process_env))
                      (Some (JString (nullish (ELEVENLABS_MODEL_ID process_env)
                                              "eleven_multilingual_v2")))
                      (option_map JString
                         (ELEVENLABS_OPTIMIZE_LATENCY process_env))
              with
              | failure error =>
                  inl (ThrownError "Error"
                         ("Invalid environment configuration: "
                          ++ error_message error))
              | success data => inr data
              end).
  { unfold getServerEnv.
    destruct (NODE_ENV process_env) as [mode |];
      [destruct (String.eqb mode "development") |];
      now destruct (envSchema_safeParse _ _ _ _). }
  rewrite Hfresh. clear Hfresh.
  unfold envSchema_safeParse, api_key_schema, model_id_schema, z_default.
  set (model := nullish (ELEVENLABS_MODEL_ID process_env) "eleven_multilingual_v2").
  destruct (fst (z_string errorMap
                   [ min_length 1 (Some "ELEVENLABS_API_KEY is required") ]
                   ["ELEVENLABS_API_KEY"]
                   (option_map JString (ELEVENLABS_API_KEY process_env))))
    as [k | k |] eqn:Ek.
  2,3: split; [discriminate |];
       intros (Hk & Hne & _);
       pose proof (proj2 (nonempty_text_accepted ["ELEVENLABS_API_KEY"]
                            (Some "ELEVENLABS_API_KEY is required")
                            (option_map JString (ELEVENLABS_API_KEY process_env))
                            (Env.ELEVENLABS_API_KEY env))
                     (conj (f_equal (option_map JString) Hk) Hne)) as Hv;
       rewrite Ek in Hv; discriminate Hv.
  apply nonempty_text_accepted in Ek. destruct Ek as [Hk Hkne].
  destruct (fst (z_string errorMap [ min_length 1 None ] ["ELEVENLABS_MODEL_ID"]
                   (Some (JString model)))) as [m | m |] eqn:Em.
  2,3: split; [discriminate |];
       intros (_ & _ & Hm & Hmne & _);
       pose proof (proj2 (nonempty_text_accepted ["ELEVENLABS_MODEL_ID"] None
                            (Some (JString model))
                            (Env.ELEVENLABS_MODEL_ID env))
                     (conj (f_equal (fun x => Some (JString x)) (eq_sym Hm))
                           Hmne)) as Hv;
       rewrite Em in Hv; discriminate Hv.
  apply nonempty_text_accepted in Em. destruct Em as [Hm Hmne].
  injection Hm as Hm.
  destruct (ELEVENLABS_OPTIMIZE_LATENCY process_env) as [text |] eqn:Elat;
    cbn [option_map].
  - destruct (fst (optimize_latency_schema errorMap
                     ["ELEVENLABS_OPTIMIZE_LATENCY"] (Some (JString text))))
      as [o | o |] eqn:Eo.
    + destruct (proj1 (latency_text_accepted _ text o) Eo) as (Hne & -> & Hrange).
      split.
      * intro H. injection H as <-. cbn.
        destruct (ELEVENLABS_API_KEY process_env) as [k' |]; [| discriminate Hk].
        injection Hk as ->.
        repeat split; try assumption; try congruence.
        right. exists text. now repeat split.
      * intros (Hk' & _ & Hm' & _ & [[H _] | (t & Ht & _ & Ho & _)]);
          [discriminate H |].
        injection Ht as <-. destruct env as [ek em eo]; cbn in *.
        rewrite Hk' in Hk. injection Hk as ->. subst. reflexivity.
    + split; [discriminate |].
      intros (_ & _ & _ & _ & [[H _] | (t & Ht & Hne & Ho & Hrange)]);
        [discriminate H |].
      injection Ht as <-.
      pose proof (proj2 (latency_text_accepted ["ELEVENLABS_OPTIMIZE_LATENCY"]
                           text (Some (parseInt10 text)))
                    (conj Hne (conj eq_refl Hrange))) as Hv.
      rewrite Eo in Hv. discriminate Hv.
    + split; [discriminate |].
      intros (_ & _ & _ & _ & [[H _] | (t & Ht & Hne & Ho & Hrange)]);
        [discriminate H |].
      injection Ht as <-.
      pose proof (proj2 (latency_text_accepted ["ELEVENLABS_OPTIMIZE_LATENCY"]
                           text (Some (parseInt10 text)))
                    (conj Hne (conj eq_refl Hrange))) as Hv.
      rewrite Eo in Hv. discriminate Hv.
  - cbn. split.
    + intro H. injection H as <-. cbn.
      destruct (ELEVENLABS_API_KEY process_env) as [k' |]; [| discriminate Hk].
      injection Hk as ->.
      repeat split; try assumption; try congruence.
      left. now split.
    + intros (Hk' & _ & Hm' & _ & [[_ Ho] | (t & Ht & _)]); [| discriminate Ht].
      destruct env as [ek em eo]; cbn in *.
      rewrite Hk' in Hk. injection Hk as ->. subst. reflexivity.
Qed.

End EnvLoading.

Section EnvCaching.
Import JS Zod ServerEnvLoader.

Variable errorMap : ZodIssueCode -> string.
Variable error_message : ZodError -> string.

Lemma envSchema_success_well_formed
  (key latency : option string) (m : string) (env : Env.ServerEnv) :
  envSchema_safeParse errorMap (option_map JString key) (Some (JString m))
    (option_map JString latency) = success env ->
  well_formed env.
Proof.
  unfold envSchema_safeParse, api_key_schema, model_id_schema, z_default.
  destruct (fst (z_string errorMap
                   [ min_length 1 (Some "ELEVENLABS_API_KEY is required") ]
                   ["ELEVENLABS_API_KEY"] (option_map JString key)))
    as [k | k |] eqn:Ek; try discriminate.
  destruct (fst (z_string errorMap [ min_length 1 None ] ["ELEVENLABS_MODEL_ID"]
                   (Some (JString m)))) as [m' | m' |] eqn:Em; try discriminate.
  destruct (fst (optimize_latency_schema errorMap
                   ["ELEVENLABS_OPTIMIZE_LATENCY"] (option_map JString latency)))
    as [o | o |] eqn:Eo; try discriminate.
  intro H. injection H as <-.
  apply nonempty_text_accepted in Ek. apply nonempty_text_accepted in Em.
  unfold well_formed. cbn.
  split; [apply Ek |]. split; [apply Em |].
  destruct latency as [text |]; cbn [option_map] in Eo.
  - apply latency_text_accepted in Eo. destruct Eo as (_ & -> & Hrange).
    right. destruct Hrange as [-> | [-> | ->]]; tauto.
  - cbn in Eo. injection Eo as <-. now left.
Qed.

(** The outcome of a call comes from the cache or from a fresh parse. *)
Lemma getServerEnv_cases (process_env : ProcessEnv) (cache : option Env.ServerEnv) :
  (exists cached,
      cache = Some cached /\ ~ in_development process_env
      /\ getServerEnv errorMap error_message process_env cache
         = (inr cached, Some cached))
  \/ ((cache = None \/ in_development process_env)
      /\ getServerEnv errorMap error_message process_env cache
         = getServerEnv errorMap error_message process_env None).
Proof.
  unfold getServerEnv, in_development.
  destruct (NODE_ENV process_env) as [mode |].
  - destruct (String.eqb mode "development") eqn:E.
    + right. apply String.eqb_eq in E. subst. split; [now right | reflexivity].
    + apply String.eqb_neq in E. destruct cache as [cached |].
      * left. exists cached. split; [reflexivity |].
        split; [intro H; injection H as H; contradiction | reflexivity].
      * right. split; [now left | reflexivity].
  - destruct cache as [cached |].
    + left. exists cached. split; [reflexivity |].
      split; [discriminate | reflexivity].
    + right. split; [now left | reflexivity].
Qed.

Lemma fresh_getServerEnv (process_env : ProcessEnv) :
  match getServerEnv errorMap error_message process_env None with
  | (inr env, cache') => well_formed env /\ cache' = Some env
  | (inl _, cache') => cache' = None
  end.
Proof.
  unfold getServerEnv.
  assert (Hnone : match NODE_ENV process_env with
                  | Some mode =>
                      if String.eqb mode "development" then None
                      else @None Env.ServerEnv
                  | None => None
                  end = None).
  { destruct (NODE_ENV process_env) as [mode |];
      [now destruct (String.eqb mode "development") | reflexivity]. }
  rewrite Hnone.
  destruct (envSchema_safeParse _ _ _ _) as [env | error] eqn:E;
    [| reflexivity].
  split; [| reflexivity].
  exact (envSchema_success_well_formed _ _ _ _ E).
Qed.

(** X25.  The cache only ever holds an environment that passed the
    schema: if the cached environment (if any) has a non-empty API key,
    a non-empty model id and a latency that is absent or 0, 1 or 2, then
    so has every environment [getServerEnv] returns; a returned
    environment is the one left in the cache, and a failure leaves the
    cache empty, so that a later call parses again. *)
Theorem getServerEnv_keeps_cache_well_formed
  (process_env : ProcessEnv) (cache : option Env.ServerEnv) :
  (forall cached, cache = Some cached -> well_formed cached) ->
  match getServerEnv errorMap error_message process_env cache with
  | (inr env, cache') => well_formed env /\ cache' = Some env
  | (inl _, cache') => cache' = None
  end.
Proof.
  intro Hcache.
  destruct (getServerEnv_cases process_env cache)
    as [(cached & Hc & _ & ->) | (_ & ->)].
  - split; [now apply Hcache | reflexivity].
  - apply fresh_getServerEnv.
Qed.

(** X26.  The reload policy.  In development every call parses
    [process.env] afresh, whatever is cached.  Otherwise an environment
    once returned is returned by every later call, whatever
    [process.env] has become in between. *)
Theorem getServerEnv_reload_policy
  (process_env later_env : ProcessEnv) (cache : option Env.ServerEnv) :
  (in_development process_env ->
   getServerEnv errorMap error_message process_env cache
   = getServerEnv errorMap error_message process_env None)
  /\ (~ in_development later_env ->
      forall env,
        fst (getServerEnv errorMap error_message process_env cache) = inr env ->
        getServerEnv errorMap error_message later_env
          (snd (getServerEnv errorMap error_message process_env cache))
        = (inr env, Some env)).
Proof.
  split.
  - intro Hdev.
    destruct (getServerEnv_cases process_env cache)
      as [(cached & _ & Hnot & _) | (_ & H)]; [contradiction | exact H].
  - intros Hprod env Hfirst.
    assert (Hcached : snd (getServerEnv errorMap error_message process_env cache)
                      = Some env).
    { destruct (getServerEnv_cases process_env cache)
        as [(cached & _ & _ & Hrun) | (_ & Hrun)]; rewrite Hrun in *.
      - cbn in *. congruence.
      - pose proof (fresh_getServerEnv process_env) as Hfresh.
        destruct (getServerEnv errorMap error_message process_env None)
          as [[e | env'] cache']; cbn in *; [discriminate |].
        destruct Hfresh as [_ ->]. congruence. }
    rewrite Hcached.
    destruct (getServerEnv_cases later_env (Some env))
      as [(cached & Hc & _ & ->) | ([H | H] & _)].
    + now injection Hc as <-.
    + discriminate H.
    + contradiction.
Qed.

End EnvCaching.

Lemma getServerEnv_accepts_witness :
  fst (ServerEnvLoader.getServerEnv Reported.plain_errorMap (fun _ => "[]")
         (ServerEnvLoader.production (Some "xi-key") (Some " 2 requests")) None)
  = inr {| Env.ELEVENLABS_API_KEY := "xi-key";
           Env.ELEVENLABS_MODEL_ID := "eleven_multilingual_v2";
           Env.ELEVENLABS_OPTIMIZE_LATENCY := Some JS.two |}.
Proof.
  apply (proj2 (getServerEnv_accepts Reported.plain_errorMap (fun _ => "[]")
                  (ServerEnvLoader.production (Some "xi-key")
                     (Some " 2 requests"))
                  {| Env.ELEVENLABS_API_KEY := "xi-key";
                     Env.ELEVENLABS_MODEL_ID := "eleven_multilingual_v2";
                     Env.ELEVENLABS_OPTIMIZE_LATENCY := Some JS.two |})).
  split; [reflexivity |]. split; [discriminate |].
  split; [reflexivity |]. split; [discriminate |].
  right. exists " 2 requests".
  split; [reflexivity |]. split; [discriminate |].
  split; [reflexivity |]. right. right. reflexivity.
Defined.

Lemma getServerEnv_keeps_cache_well_formed_witness :
  snd (ServerEnvLoader.getServerEnv Reported.plain_errorMap (fun _ => "[]")
         (ServerEnvLoader.production None (Some "1")) None)
  = None.
Proof.
  pose proof (getServerEnv_keeps_cache_well_formed Reported.plain_errorMap
                (fun _ => "[]")
                (ServerEnvLoader.production None (Some "1")) None
                ltac:(intros cached H; discriminate H)) as H.
  destruct (ServerEnvLoader.getServerEnv Reported.plain_errorMap (fun _ => "[]")
              (ServerEnvLoader.production None (Some "1")) None)
    as [[e | env] cache'] eqn:E.
  - exact H.
  - vm_compute in E. discriminate E.
Defined.

Lemma getServerEnv_reload_policy_witness :
  ServerEnvLoader.getServerEnv Reported.plain_errorMap (fun _ => "[]")
    (ServerEnvLoader.production None None)
    (snd (ServerEnvLoader.getServerEnv Reported.plain_errorMap (fun _ => "[]")
            (ServerEnvLoader.production (Some "xi-key") None) None))
  = (inr (Env.default_env "xi-key"), Some (Env.default_env "xi-key")).
Proof.
  apply (proj2 (getServerEnv_reload_policy Reported.plain_errorMap
                  (fun _ => "[]")
                  (ServerEnvLoader.production (Some "xi-key") None)
                  (ServerEnvLoader.production None None) None)).
  - intro H. discriminate H.
  - reflexivity.
Defined.

(** ** Resolving a resolved code *)

Section ResolveAgain.
Import JS Languages Reported.

Lemma lower_idempotent (c : ascii) : lower (lower c) = lower c.
Proof. destruct c as [[] [] [] [] [] [] [] []]; reflexivity. Qed.

Lemma letter_is_not_space (c : ascii) : isLetter c = true -> isWhiteSpace c = false.
Proof. destruct c as [[] [] [] [] [] [] [] []]; intro H; try reflexivity; discriminate H. Qed.

Lemma table_codes_resolve :
  Forall (fun entry => resolveLanguageCode (Some (snd entry)) = Some (snd entry))
         NAME_TO_CODE.
Proof. repeat constructor. Qed.

Lemma table_code_resolves (key code : string) :
  Map_get key NAME_TO_CODE = Some code ->
  resolveLanguageCode (Some code) = Some code.
Proof.
  intro H. apply Map_get_In in H.
  pose proof table_codes_resolve as Hall. rewrite Forall_forall in Hall.
  exact (Hall _ H).
Qed.

Lemma two_letters_resolve (a b : ascii) :
  isLetter a = true -> isLetter b = true ->
  lower a = a -> lower b = b ->
  Map_get (String a (String b "")) NAME_TO_CODE = None ->
  resolveLanguageCode (Some (String a (String b ""))) = Some (String a (String b "")).
Proof.
  intros Ha Hb Hla Hlb Hget. rewrite resolve_by_lookup.
  assert (Htrim : trim (String a (String b "")) = String a (String b "")).
  { unfold trim. cbn [trimStart].
    rewrite (letter_is_not_space a Ha). cbn [trimEnd].
    now rewrite (letter_is_not_space b Hb). }
  rewrite Htrim. cbn [toLowerCase]. rewrite Hla, Hlb.
  unfold lookup. rewrite Hget. cbn [isoMatch]. rewrite Ha, Hb.
  cbn [andb slice0 substring]. rewrite Hget. reflexivity.
Qed.

(** X28.  [resolveLanguageCode] is idempotent: whatever code it returns
    for a label, be it from the name table or the two-letter prefix of
    an ISO-style tag, resolves to itself. *)
Theorem resolveLanguageCode_idempotent (input code : string) :
  resolveLanguageCode (Some input) = Some code ->
  resolveLanguageCode (Some code) = Some code.
Proof.
  rewrite resolve_by_lookup. unfold lookup.
  destruct (Map_get (toLowerCase (trim input)) NAME_TO_CODE) as [c |] eqn:Hget.
  - intro H. injection H as <-. exact (table_code_resolves _ _ Hget).
  - destruct (isoMatch (toLowerCase (trim input))) eqn:Hiso; [| discriminate].
    destruct (Map_get (slice0 2 (toLowerCase (trim input))) NAME_TO_CODE)
      as [c |] eqn:Hprefix; cbn [nullish].
    + intro H. injection H as <-. exact (table_code_resolves _ _ Hprefix).
    + intro H. injection H as <-.
      destruct (trim input) as [| x [| y rest]]; try discriminate Hiso.
      cbn [toLowerCase] in *. cbn [isoMatch] in Hiso.
      apply andb_true_iff in Hiso. destruct Hiso as [Hletters _].
      apply andb_true_iff in Hletters. destruct Hletters as [Hx Hy].
      cbn [slice0 substring] in *.
      assert (Hcut : substring 0 0 (toLowerCase rest) = "")
        by now destruct (toLowerCase rest).
      rewrite Hcut in *.
      apply two_letters_resolve;
        try assumption; apply lower_idempotent.
Qed.

Lemma resolveLanguageCode_idempotent_witness :
  resolveLanguageCode (Some "he") = Some "he"
  /\ resolveLanguageCode (Some "xx") = Some "xx".
Proof.
  split.
  - apply (resolveLanguageCode_idempotent "  Hebrew (Modern) " "he"). reflexivity.
  - apply (resolveLanguageCode_idempotent "XX_yy" "xx"). reflexivity.
Defined.

Lemma table_codes_listed :
  Forall (fun entry => In (snd entry) (map code LANGUAGE_OPTIONS)) NAME_TO_CODE.
Proof.
  repeat (constructor; [simpl; tauto |]). constructor.
Qed.

(** X29.  The catalog is consistent: every code of the language list
    resolves to itself and every label but that of "auto" resolves to
    its code; and whatever the name table yields for a label is a code
    of the language list (the only codes the schema lets through). *)
Theorem catalog_is_consistent :
  Forall (fun option =>
            resolveLanguageCode (Some (code option)) = Some (code option)
            /\ (code option <> "auto" ->
                resolveLanguageCode (Some (label option)) = Some (code option)))
         LANGUAGE_OPTIONS
  /\ (forall input c,
        Map_get (toLowerCase (trim input)) NAME_TO_CODE = Some c ->
        resolveLanguageCode (Some input) = Some c
        /\ In c (map code LANGUAGE_OPTIONS)).
Proof.
  split.
  - repeat (constructor;
            [ split; [reflexivity | intro H; try reflexivity; now elim H] |]).
    constructor.
  - intros input c Hget. split.
    + rewrite resolve_by_lookup. unfold lookup. now rewrite Hget.
    + apply Map_get_In in Hget.
      pose proof table_codes_listed as Hall. rewrite Forall_forall in Hall.
      exact (Hall _ Hget).
Qed.

Lemma catalog_is_consistent_witness :
  resolveLanguageCode (Some " Mandarin Chinese") = Some "zh"
  /\ In "zh" (map code LANGUAGE_OPTIONS).
Proof.
  apply (proj2 catalog_is_consistent " Mandarin Chinese" "zh"). reflexivity.
Defined.

End ResolveAgain.

(** ** The quantization as a function of the stability *)

Section Quantization.
Import JS ElevenLabs.

Lemma normalize_cases (s : number) :
  (leb s quarter = true /\ normalizeStabilityForV3 s = zero)
  \/ (leb s quarter = false /\ leb s three_quarters = true
      /\ normalizeStabilityForV3 s = half)
  \/ (leb s quarter = false /\ leb s three_quarters = false
      /\ normalizeStabilityForV3 s = one).
Proof.
  unfold normalizeStabilityForV3.
  destruct (leb s quarter); [now left |].
  destruct (leb s three_quarters); [right; now left | right; now right].
Qed.

(** X30.  The three-level quantization preserves order (a higher
    stability is never sent as a lower level), moves a stability of
    [0, 1] by at most 0.25, and fixes the three levels; the clamp is
    idempotent. *)
Theorem quantization_is_monotone_and_close :
  (forall a b : number,
      le a b -> le (normalizeStabilityForV3 a) (normalizeStabilityForV3 b))
  /\ (forall q : Q,
        (0 <= q <= 1)%Q ->
        exists r : Q,
          normalizeStabilityForV3 (Finite q) = Finite r
          /\ (q - (1 # 4) <= r <= q + (1 # 4))%Q)
  /\ (normalizeStabilityForV3 zero = zero
      /\ normalizeStabilityForV3 half = half
      /\ normalizeStabilityForV3 one = one)
  /\ (forall s : number, clamp (clamp s zero one) zero one = clamp s zero one).
Proof.
  split; [| split; [| split]].
  - intros a b Hab.
    destruct (normalize_cases a) as [(Ha & ->) | [(Ha1 & Ha2 & ->) | (Ha1 & Ha2 & ->)]];
      destruct (normalize_cases b) as [(Hb & ->) | [(Hb1 & Hb2 & ->) | (Hb1 & Hb2 & ->)]];
      try (constructor; unfold Qle; simpl; lia);
      exfalso; unfold quarter, three_quarters in *;
      inversion Hab; subst; simpl in *; try congruence;
      repeat match goal with
             | H : Qle_bool _ _ = true |- _ => apply Qle_bool_iff in H
             | H : Qle_bool ?x ?y = false |- _ =>
                 assert (~ (x <= y)%Q)
                   by (intro Hc; apply Qle_bool_iff in Hc; congruence);
                 clear H
             end; lra.
  - intros q Hq. unfold normalizeStabilityForV3, quarter, three_quarters. cbn [leb].
    destruct (Qle_bool q (1 # 4)) eqn:E1.
    + apply Qle_bool_iff in E1. exists 0%Q. split; [reflexivity | lra].
    + assert (H1 : ~ (q <= 1 # 4)%Q)
        by (intro Hc; apply Qle_bool_iff in Hc; congruence).
      destruct (Qle_bool q (3 # 4)) eqn:E2.
      * apply Qle_bool_iff in E2. exists (1 # 2)%Q. split; [reflexivity | lra].
      * assert (H2 : ~ (q <= 3 # 4)%Q)
          by (intro Hc; apply Qle_bool_iff in Hc; congruence).
        exists 1%Q. split; [reflexivity | lra].
  - repeat split.
  - intro s. destruct s as [| | q |]; try reflexivity.
    destruct (clamp_unit_interval (Finite q) ltac:(discriminate))
      as (r & -> & Hr).
    apply clamp_inside; constructor; lra.
Qed.

Lemma quantization_is_monotone_and_close_witness :
  le (normalizeStabilityForV3 (Finite (3 # 10)%Q))
     (normalizeStabilityForV3 (Finite (8 # 10)%Q)).
Proof.
  apply (proj1 quantization_is_monotone_and_close).
  constructor. unfold Qle. simpl. lia.
Defined.

End Quantization.
